(** * seord-vn: the SEO scoring engine of [src/seo-analyzer.ts]

    A shallow embedding of the class [SeoAnalyzer] and the properties of
    its scoring and message rules.

    Conventions of the embedding.
    - A JavaScript string is a [string]; one [ascii] stands for one code
      unit, so [length] is the [.length] of the source.
    - A JavaScript [number] is a value of [number] below: an exact rational,
      one of the two infinities, or NaN.  Every number the class computes
      is built from array lengths by [+], [-], [*], [/] and [Math.min];
      the rounding of binary64 is not modelled, the special values and the
      comparison rules for NaN are.
    - The literal texts of the messages are kept as they are in the source
      file, byte for byte.
    - [string | null] is [option string]; [None] is [null].
    - The object is a record; a method that mutates [this.messages] is a
      function from the record to the record. *)

From Stdlib Require Import List String Ascii Bool Arith ZArith QArith Qabs Qround Qminmax Lia Lqa.
From Stdlib Require Import DecimalString.
Import ListNotations.

Local Open Scope list_scope.
Local Open Scope string_scope.

(* ================================================================== *)
(** ** JavaScript strings *)

Module JsString.

(** The double quote character, code unit 34. *)
Definition dquote : string := String (ascii_of_nat 34) EmptyString.

(** Truthiness of a string: every string but the empty one. *)
Definition truthy (s : string) : bool :=
  match s with
  | EmptyString => false
  | String _ _ => true
  end.

(** [String.prototype.split] for a non-empty separator: scan from the
    left, cut at each match, resume right after it.  [skip] counts the
    code units of the current match that are still to be dropped and
    [cur] is the piece read so far. *)
Fixpoint splitFrom (sep : string) (skip : nat) (cur : string) (s : string)
  : list string :=
  match s with
  | EmptyString => [cur]
  | String c s' =>
      match skip with
      | S k => splitFrom sep k cur s'
      | O =>
          if prefix sep s
          then cur :: splitFrom sep (length sep - 1) EmptyString s'
          else splitFrom sep 0 (cur ++ String c EmptyString) s'
      end
  end.

(** [s.split(sep)] with a string separator and no limit.  An empty
    separator cuts between all code units (and yields the empty array on
    the empty string). *)
Definition split (sep : string) (s : string) : list string :=
  match sep with
  | EmptyString => map (fun c => String c EmptyString) (list_ascii_of_string s)
  | String _ _ => splitFrom sep 0 EmptyString s
  end.

(** [s.split(sep)] where [sep] may be [null]: the separator is converted
    with ToString, and ToString(null) is the four letters below. *)
Definition toStringNullable (o : option string) : string :=
  match o with
  | Some s => s
  | None => "null"
  end.

Definition splitNullable (sep : option string) (s : string) : list string :=
  split (toStringNullable sep) s.

(** [c.toLowerCase()] on one code unit: the letters A..Z. *)
Definition lowerAscii (c : ascii) : ascii :=
  let n := nat_of_ascii c in
  if (65 <=? n)%nat && (n <=? 90)%nat then ascii_of_nat (n + 32) else c.

Fixpoint toLowerCase (s : string) : string :=
  match s with
  | EmptyString => EmptyString
  | String c s' => String (lowerAscii c) (toLowerCase s')
  end.

(** [l.join(sep)]. *)
Definition join (sep : string) (l : list string) : string := concat sep l.

(** [s.substring(0, n)]. *)
Definition substring0 (n : nat) (s : string) : string := substring 0 n s.

(** Decimal rendering of an array length or a count inside a template. *)
Definition ofNat (n : nat) : string := NilZero.string_of_uint (Nat.to_uint n).

End JsString.

(* ================================================================== *)
(** ** JavaScript numbers *)

(** A number is [NaN], an infinity or a finite value.  Finite values are
    exact rationals: the rounding of binary64 after each operation is not
    modelled.  The statements below therefore speak of signs, zero, the
    special values, whole numbers and ranges, which rounding keeps, and
    never of a finite density compared with a decimal threshold that
    binary64 cannot hold (0.46, 1.1, 0.9, 0.12, 0.09), nor of the digits
    that [toFixed] prints for a finite value other than zero. *)
Inductive number : Type :=
| NaN
| PosInf
| NegInf
| Fin (q : Q).

Module JsNumber.

Definition ofZ (z : Z) : number := Fin (inject_Z z).
Definition ofNat (n : nat) : number := ofZ (Z.of_nat n).

(** Sign of a rational as a comparison with zero. *)
Definition sgn (q : Q) : comparison := (q ?= 0)%Q.

(** [a / b].  A zero divisor is the positive zero: every divisor of the
    class is an array length or a word count. *)
Definition div (a b : number) : number :=
  match a, b with
  | NaN, _ | _, NaN => NaN
  | Fin x, Fin y =>
      match sgn y with
      | Eq => match sgn x with Eq => NaN | Gt => PosInf | Lt => NegInf end
      | _ => Fin (x / y)
      end
  | Fin _, (PosInf | NegInf) => Fin 0
  | (PosInf | NegInf), (PosInf | NegInf) => NaN
  | PosInf, Fin y => match sgn y with Lt => NegInf | _ => PosInf end
  | NegInf, Fin y => match sgn y with Lt => PosInf | _ => NegInf end
  end.

(** An infinity times a finite number. *)
Definition scaleInf (pos : bool) (y : Q) : number :=
  match sgn y with
  | Eq => NaN
  | Gt => if pos then PosInf else NegInf
  | Lt => if pos then NegInf else PosInf
  end.

(** [a * b]. *)
Definition mul (a b : number) : number :=
  match a, b with
  | NaN, _ | _, NaN => NaN
  | Fin x, Fin y => Fin (x * y)
  | PosInf, Fin y | Fin y, PosInf => scaleInf true y
  | NegInf, Fin y | Fin y, NegInf => scaleInf false y
  | PosInf, PosInf | NegInf, NegInf => PosInf
  | PosInf, NegInf | NegInf, PosInf => NegInf
  end.

(** [a + b]. *)
Definition add (a b : number) : number :=
  match a, b with
  | NaN, _ | _, NaN => NaN
  | Fin x, Fin y => Fin (x + y)
  | PosInf, NegInf | NegInf, PosInf => NaN
  | PosInf, _ | _, PosInf => PosInf
  | NegInf, _ | _, NegInf => NegInf
  end.

(** [a < b]; false as soon as one side is NaN. *)
Definition ltb (a b : number) : bool :=
  match a, b with
  | NaN, _ | _, NaN => false
  | Fin x, Fin y => match (x ?= y)%Q with Lt => true | _ => false end
  | NegInf, (Fin _ | PosInf) => true
  | Fin _, PosInf => true
  | _, _ => false
  end.

(** [a > b]. *)
Definition gtb (a b : number) : bool := ltb b a.

(** [Math.min(a, b)]: NaN if either argument is. *)
Definition min (a b : number) : number :=
  match a, b with
  | NaN, _ | _, NaN => NaN
  | _, _ => if ltb b a then b else a
  end.

(** Truthiness of a number: neither zero nor NaN. *)
Definition truthy (a : number) : bool :=
  match a with
  | NaN => false
  | Fin x => match sgn x with Eq => false | _ => true end
  | _ => true
  end.

(** Two decimal digits, zero padded. *)
Definition twoDigits (z : Z) : string :=
  let s := JsString.ofNat (Z.to_nat z) in
  if (z <? 10)%Z then "0" ++ s else s.

(** [x.toFixed(2)]: the nearest multiple of 1/100 of the magnitude, the
    larger one on a tie, printed with its sign.  (Beyond 10^21 the
    runtime switches to exponent notation; no length or density of a
    string that fits in memory gets there.) *)
Definition toFixed2 (x : number) : string :=
  match x with
  | NaN => "NaN"
  | PosInf => "Infinity"
  | NegInf => "-Infinity"
  | Fin q =>
      let n := Qfloor (Qabs q * 100 + (1 # 2)) in
      (match sgn q with Lt => "-" | _ => "" end)
        ++ JsString.ofNat (Z.to_nat (n / 100)) ++ "."
        ++ twoDigits (n mod 100)
  end.

(** The order on numbers as a proposition: [inRange lo hi x] says that
    [x] is a finite number between the rationals [lo] and [hi]. *)
Definition inRange (lo hi : Q) (x : number) : Prop :=
  match x with
  | Fin q => (lo <= q /\ q <= hi)%Q
  | _ => False
  end.

Definition isNaN (x : number) : bool :=
  match x with NaN => true | _ => false end.

(** A finite number that is not negative. *)
Definition nonneg (x : number) : Prop :=
  match x with
  | Fin q => (0 <= q)%Q
  | _ => False
  end.

End JsNumber.

(* ================================================================== *)
(** ** The data model *)

(** Modelled from the spec: the interface [ContentJson] is declared in
    [interfaces.ts], which is not part of the sources at hand; the class
    reads these four fields. *)
Record ContentJson : Type := mkContentJson {
  title : string;
  metaDescription : string;
  keyword : option string;
  subKeywords : list string
}.

(** Modelled from the spec: the interface [Heading] of [interfaces.ts]. *)
Record Heading : Type := mkHeading {
  tag : string;
  text : string
}.

(** Modelled from the spec: the interface [KeywordDensity] of
    [interfaces.ts]; [position] is optional. *)
Record KeywordDensity : Type := mkKeywordDensity {
  kd_keyword : option string;
  density : number;
  position : option Z
}.

(** Modelled from the spec: a link of [interfaces.ts]; the class only
    takes the length of link lists. *)
Definition Link : Type := string.

Record LinkSet : Type := mkLinkSet {
  unique : list Link;
  duplicate : list Link
}.

(** Modelled from the spec: the collaborator [HtmlAnalyzer] of
    [html-analyzer.ts], through the five members the class calls.
    [getWordCount None] is the call without an argument. *)
Record HtmlAnalyzer : Type := mkHtmlAnalyzer {
  bodyText : string;
  getWordCount : option string -> nat;
  getAllHeadingTags : list Heading;
  getInternalLinks : LinkSet;
  getOutboundLinks : LinkSet
}.

Record Messages : Type := mkMessages {
  warnings : list string;
  minorWarnings : list string;
  goodPoints : list string
}.

Record SeoAnalyzer : Type := mkSeoAnalyzer {
  content : ContentJson;
  htmlAnalyzer : HtmlAnalyzer;
  keywordDensity : number;
  strictMode : bool;
  headings : list Heading;
  messages : Messages
}.

(** [a ?? b] *)
Definition nullish {A : Type} (a : option A) (b : option A) : option A :=
  match a with
  | Some _ => a
  | None => b
  end.

(** [if (s)] for [s : string | null]. *)
Definition truthyNullable (s : option string) : bool :=
  match s with
  | Some k => JsString.truthy k
  | None => false
  end.

Module Push.

Definition withMessages (this : SeoAnalyzer) (m : Messages) : SeoAnalyzer :=
  {| content := content this;
     htmlAnalyzer := htmlAnalyzer this;
     keywordDensity := keywordDensity this;
     strictMode := strictMode this;
     headings := headings this;
     messages := m |}.

(** [this.messages.warnings.push(msg)] *)
Definition warning (msg : string) (this : SeoAnalyzer) : SeoAnalyzer :=
  let m := messages this in
  withMessages this
    {| warnings := (warnings m ++ [msg])%list;
       minorWarnings := minorWarnings m;
       goodPoints := goodPoints m |}.

(** [this.messages.minorWarnings.push(msg)] *)
Definition minorWarning (msg : string) (this : SeoAnalyzer) : SeoAnalyzer :=
  let m := messages this in
  withMessages this
    {| warnings := warnings m;
       minorWarnings := (minorWarnings m ++ [msg])%list;
       goodPoints := goodPoints m |}.

(** [this.messages.goodPoints.push(msg)] *)
Definition goodPoint (msg : string) (this : SeoAnalyzer) : SeoAnalyzer :=
  let m := messages this in
  withMessages this
    {| warnings := warnings m;
       minorWarnings := minorWarnings m;
       goodPoints := (goodPoints m ++ [msg])%list |}.

End Push.

(* ================================================================== *)
(** ** The thresholds of the class *)

(** The decimal literals of the source, read as the rationals they
    denote; the code holds the nearest binary64 of each. *)
Definition MINIMUM_KEYWORD_DENSITY : number := Fin (46 # 100).
Definition MAXIMUM_KEYWORD_DENSITY : number := Fin (11 # 10).

Definition MAXIMUM_SUB_KEYWORD_DENSITY : number := Fin (9 # 10).
Definition MINIMUM_SUB_KEYWORD_DENSITY : number := Fin (12 # 100).
Definition EXTREME_LOW_SUB_KEYWORD_DENSITY : number := Fin (9 # 100).

Definition MAXIMUM_META_DESCRIPTION_LENGTH : nat := 160.
Definition MAXIMUM_META_DESCRIPTION_DENSITY : number := Fin 5.
Definition MINIMUM_META_DESCRIPTION_DENSITY : number := Fin 2.

Definition MAXIMUM_TITLE_LENGTH : nat := 70.
Definition MINIMUM_TITLE_LENGTH : nat := 40.

Definition MAXIMUM_SUB_KEYWORD_IN_META_DESCRIPTION_DENSITY : number := Fin 5.
Definition MINIMUM_SUB_KEYWORD_IN_META_DESCRIPTION_DENSITY : number := Fin 2.

(* ================================================================== *)
(** ** Counting, density, position *)

(** [countOccurrencesInString(keyword, stringContent)]: one less than the
    number of pieces of the split.  A [null] keyword falls back to
    [this.content.keyword]; if that is [null] as well, [split] receives
    [null]. *)
Definition countOccurrencesInString (this : SeoAnalyzer)
    (kw : option string) (stringContent : option string) : Z :=
  let kw := nullish kw (keyword (content this)) in
  let stringContent :=
    match stringContent with
    | Some s => s
    | None => bodyText (htmlAnalyzer this)
    end in
  (Z.of_nat (List.length (JsString.splitNullable kw stringContent)) - 1)%Z.

(** [calculateDensity(keyword, bodyText)] *)
Definition calculateDensity (this : SeoAnalyzer)
    (kw : option string) (body : option string) : number :=
  let body :=
    match body with
    | Some s => s
    | None => bodyText (htmlAnalyzer this)
    end in
  JsNumber.mul
    (JsNumber.div
       (JsNumber.ofZ (countOccurrencesInString this kw (Some body)))
       (JsNumber.ofNat (getWordCount (htmlAnalyzer this) (Some body))))
    (JsNumber.ofZ 100).

(** [getPosition(text, keyword)].  Under the guard the separator is not
    empty, so the split has a first piece ([split_first_piece] below); the
    last branch is never taken. *)
Definition getPosition (txt : string) (kw : option string) : Z :=
  if negb (JsString.truthy txt) || negb (truthyNullable kw) then (-1)%Z
  else
    match JsString.splitNullable kw txt with
    | first :: _ => Z.of_nat (List.length (JsString.split " " first))
    | [] => (-1)%Z
    end.

(* ================================================================== *)
(** ** The read accessors *)

(** [getSubKeywordsDensity()] *)
Definition getSubKeywordsDensity (this : SeoAnalyzer) : list KeywordDensity :=
  map (fun subKeyword =>
         {| kd_keyword := Some subKeyword;
            density := calculateDensity this (Some subKeyword) None;
            position := None |})
      (subKeywords (content this)).

Definition totalUniqueInternalLinksCount (this : SeoAnalyzer) : nat :=
  List.length (unique (getInternalLinks (htmlAnalyzer this))).

Definition totalUniqueExternalLinksCount (this : SeoAnalyzer) : nat :=
  List.length (unique (getOutboundLinks (htmlAnalyzer this))).

(** [getKeywordInTitle(keyword = null)] *)
Definition getKeywordInTitle (this : SeoAnalyzer) (kw : option string)
  : KeywordDensity :=
  let kw := nullish kw (keyword (content this)) in
  {| kd_keyword := kw;
     density := calculateDensity this kw (Some (title (content this)));
     position := Some (getPosition (title (content this)) kw) |}.

(** [getSubKeywordsInTitle()]: one entry for each sub-keyword. *)
Definition getSubKeywordsInTitle (this : SeoAnalyzer) : list KeywordDensity :=
  map (fun sub_keyword => getKeywordInTitle this (Some sub_keyword))
      (subKeywords (content this)).

(** [getKeywordInMetaDescription(keyword = null)] *)
Definition getKeywordInMetaDescription (this : SeoAnalyzer) (kw : option string)
  : KeywordDensity :=
  let kw := match kw with None => keyword (content this) | Some _ => kw end in
  {| kd_keyword := kw;
     density := calculateDensity this kw (Some (metaDescription (content this)));
     position := Some (getPosition (metaDescription (content this)) kw) |}.

Definition getSubKeywordsInMetaDescription (this : SeoAnalyzer)
  : list KeywordDensity :=
  map (fun sub_keyword => getKeywordInMetaDescription this (Some sub_keyword))
      (subKeywords (content this)).

Definition MAX_SCORE : number := JsNumber.ofZ 100.

(** [getSeoScore()] *)
Definition getSeoScore (this : SeoAnalyzer) : number :=
  let w := warnings (messages this) in
  let g := goodPoints (messages this) in
  let messagesScore :=
    JsNumber.mul
      (JsNumber.div (JsNumber.ofNat (List.length g))
                    (JsNumber.ofNat (List.length w + List.length g)))
      (JsNumber.ofZ 100) in
  JsNumber.min messagesScore MAX_SCORE.

(** [getKeywordSeoScore()] *)
Definition getKeywordSeoScore (this : SeoAnalyzer) : number :=
  let keywordInTitle := getKeywordInTitle this None in
  let subKeywordsInTitle := getSubKeywordsInTitle this in
  let subKeywordsDensity := getSubKeywordsDensity this in
  let keywordInTitleScore := JsNumber.mul (density keywordInTitle) (JsNumber.ofZ 10) in
  let subKeywordsInTitleScore :=
    JsNumber.ofNat (List.length subKeywordsInTitle * 10) in
  let subKeywordsDensityScore :=
    fold_left
      (fun total subKeywordDensity =>
         JsNumber.add total (JsNumber.mul (density subKeywordDensity) (JsNumber.ofZ 10)))
      subKeywordsDensity (JsNumber.ofZ 0) in
  let keywordDensityScore := JsNumber.mul (keywordDensity this) (JsNumber.ofZ 10) in
  let totalScore :=
    JsNumber.add
      (JsNumber.add (JsNumber.add keywordInTitleScore subKeywordsInTitleScore)
                    subKeywordsDensityScore)
      keywordDensityScore in
  JsNumber.min totalScore MAX_SCORE.

Definition getTitleWordCount (this : SeoAnalyzer) : nat :=
  getWordCount (htmlAnalyzer this) (Some (title (content this))).

(* ================================================================== *)
(** ** The texts of the messages *)

Module Msg.

Definition q : string := JsString.dquote.
Definition fixed (x : number) : string := JsNumber.toFixed2 x.
Definition num (n : nat) : string := JsString.ofNat n.
Definition str (s : option string) : string := JsString.toStringNullable s.

(** assignMessagesForKeyword *)
Definition keywordPresent (kw : option string) : string :=
  "Tốt, nội dung của bạn có từ khóa " ++ q ++ str kw ++ q ++ ".".
Definition keywordStuffing : string := "Nhồi nhét từ khóa quá nhiều.".
Definition keywordDensityLow (d : number) : string :=
  "Mật độ từ khóa quá thấp. Hiện tại là " ++ fixed d ++ "%, hãy tăng thêm.".
Definition keywordDensityHigh (d : number) : string :=
  "Mật độ từ khóa quá cao. Hiện tại là " ++ fixed d ++ "%, hãy giảm bớt.".
Definition keywordDensityGood (d : number) : string :=
  "Mật độ từ khóa là " ++ fixed d ++ "%.".
Definition keywordMissing : string :=
  "Thiếu từ khóa chính, vui lòng thêm từ khóa.".

(** assignMessagesForSubKeywords *)
Definition subKeywordsPresent (l : list string) : string :=
  "Tốt, nội dung của bạn có từ khóa phụ " ++ q ++ JsString.join ", " l ++ q ++ ".".
Definition subKeywordDensityHigh (kw : option string) (d : number) : string :=
  "Mật độ từ khóa phụ " ++ q ++ str kw ++ q
    ++ " trong nội dung quá cao, hiện tại là " ++ fixed d ++ "%.".
Definition subKeywordDensityLow (kw : option string) (low : string) (d : number)
  : string :=
  "Mật độ từ khóa phụ " ++ q ++ str kw ++ q ++ " trong nội dung " ++ low
    ++ ", hiện tại là " ++ fixed d ++ "%.".
Definition subKeywordDensityGood (kw : option string) (d : number) : string :=
  "Mật độ từ khóa phụ " ++ q ++ str kw ++ q ++ " trong nội dung là "
    ++ fixed d ++ "%, rất tốt.".
Definition subKeywordsMissing : string :=
  "Thiếu từ khóa phụ, vui lòng thêm một số từ khóa phụ.".

(** assignMessagesForTitle *)
Definition titleTooLong : string := "Thẻ tiêu đề quá dài.".
Definition titleTooShort : string := "Thẻ tiêu đề quá ngắn.".
Definition titleLength (n : nat) : string :=
  "Thẻ tiêu đề có độ dài " ++ num n ++ " ký tự.".
Definition keywordInTitleGood (d : number) : string :=
  "Mật độ từ khóa trong tiêu đề là " ++ fixed d ++ "%, rất tốt.".
Definition keywordInTitleMissing : string :=
  "Không có từ khóa chính trong tiêu đề.".
Definition subKeywordsInTitleCount (n : nat) : string :=
  "Bạn có " ++ num n ++ " từ khóa phụ trong tiêu đề.".
Definition subKeywordsInTitleMissing : string :=
  "Không có từ khóa phụ trong tiêu đề.".
Definition titleMissing : string :=
  "Thiếu thẻ tiêu đề, vui lòng thêm một thẻ tiêu đề.".

(** assignMessagesForLinks *)
Definition internalLinksFew (n : nat) : string :=
  "Số lượng liên kết nội bộ không đủ. Bạn chỉ có " ++ num n
    ++ " liên kết nội bộ duy nhất, hãy tăng số lượng lên.".
Definition internalLinksGood (n : nat) : string :=
  "Bạn có " ++ num n ++ " liên kết nội bộ.".
Definition externalLinksFew (n : nat) : string :=
  "Số lượng liên kết bên ngoài không đủ. Bạn chỉ có " ++ num n
    ++ ", hãy tăng số lượng lên.".
Definition internalDuplicates (n : nat) : string :=
  "Bạn có " ++ num n ++ " liên kết nội bộ trùng lặp.".
Definition noInternalDuplicates : string :=
  "Không có liên kết nội bộ trùng lặp.".
Definition externalDuplicates (n : nat) : string :=
  "Bạn có " ++ num n ++ " liên kết bên ngoài trùng lặp.".
Definition noExternalDuplicates : string :=
  "Không có liên kết bên ngoài trùng lặp.".

(** assignMessagesForMetaDescription *)
Definition metaTooLong (n : nat) : string :=
  "Meta description quá dài. Độ dài hiện tại là " ++ num n
    ++ " ký tự, hãy rút ngắn lại.".
Definition metaTooShort (n : nat) : string :=
  "Meta description quá ngắn. Độ dài hiện tại là " ++ num n
    ++ " ký tự, hãy tăng lên.".
Definition metaLength (n : nat) : string :=
  "Meta description có độ dài " ++ num n ++ " ký tự.".
Definition metaDensityHigh (d : number) : string :=
  "Mật độ từ khóa trong meta description quá cao. Hiện tại là " ++ fixed d
    ++ "%, hãy giảm xuống.".
Definition metaDensityLow (d : number) : string :=
  "Mật độ từ khóa trong meta description quá thấp. Hiện tại là " ++ fixed d
    ++ "%, hãy tăng lên.".
Definition metaDensityGood (d : number) : string :=
  "Mật độ từ khóa trong meta description là " ++ fixed d ++ "%, rất tốt.".
Definition metaNotStartingWithKeyword (start : string) : string :=
  "Meta description không bắt đầu bằng từ khóa. Nó bắt đầu bằng " ++ q
    ++ start ++ q
    ++ ", hãy thử bắt đầu bằng từ khóa. Không bắt đầu bằng từ khóa không phải vấn đề lớn, nhưng được khuyến nghị nên làm.".
Definition metaStartingWithKeyword (start : string) : string :=
  "Meta description bắt đầu bằng từ khóa: " ++ q ++ start ++ q ++ ".".
Definition subKeywordInMetaHigh (kw : option string) (d : number) : string :=
  "Mật độ từ khóa phụ " ++ q ++ str kw ++ q
    ++ " trong meta description quá cao, hiện tại là " ++ fixed d ++ "%.".
Definition subKeywordInMetaLow (kw : option string) (low : string) (d : number)
  : string :=
  "Mật độ từ khóa phụ " ++ q ++ str kw ++ q ++ " trong meta description "
    ++ low ++ ", hiện tại là " ++ fixed d ++ "%.".
Definition subKeywordInMetaGood (kw : option string) (d : number) : string :=
  "Mật độ từ khóa phụ " ++ q ++ str kw ++ q ++ " trong meta description là "
    ++ fixed d ++ "%.".
Definition metaMissing : string := "Thiếu meta description.".

(** assignMessagesForHeadings *)
Definition headingsMissing : string :=
  "Thiếu thẻ heading, vui lòng thêm ít nhất một thẻ heading.".
Definition headingsCount (n : nat) : string :=
  "Bạn có " ++ num n ++ " thẻ heading.".
Definition h1Missing : string :=
  "Thiếu thẻ h1, vui lòng thêm ít nhất một thẻ h1.".
Definition h1Many : string :=
  "Có nhiều hơn một thẻ h1, vui lòng giữ lại một thẻ h1 và xóa các thẻ h1 khác.".
Definition h1Good : string :=
  "Tuyệt vời! Bạn đã có thẻ h1, đây là thẻ quan trọng.".
Definition h2Missing : string :=
  "Thiếu thẻ h2, vui lòng thêm ít nhất một thẻ h2. Khuyến nghị nên có ít nhất một thẻ h2.".
Definition h2Good : string :=
  "Tuyệt vời! Bạn đã có thẻ h2, đây là thẻ quan trọng.".
Definition h3Missing : string :=
  "Thiếu thẻ h3, vui lòng thêm ít nhất một thẻ h3. Thẻ h3 không bắt buộc nhưng được khuyến nghị nên có ít nhất một thẻ h3.".
Definition h3Good : string := "Bạn đã có thẻ h3, điều này rất tốt.".

(** assignMessagesForKeywordInHeadings, assignMessagesForSubKeywordsInHeadings *)
Definition keywordInHeading (kw : option string) (h : Heading) : string :=
  "Từ khóa " ++ q ++ str kw ++ q ++ " được tìm thấy trong thẻ " ++ tag h
    ++ " với nội dung " ++ q ++ text h ++ q ++ ".".
Definition keywordNotInHeading (kw : option string) (h : Heading) : string :=
  "Từ khóa " ++ q ++ str kw ++ q ++ " không được tìm thấy trong thẻ " ++ tag h
    ++ " với nội dung " ++ q ++ text h ++ q ++ ".".
Definition subKeywordInHeading (kw : string) (h : Heading) : string :=
  "Từ khóa phụ " ++ q ++ kw ++ q ++ " được tìm thấy trong thẻ " ++ tag h
    ++ " với nội dung " ++ q ++ text h ++ q ++ ", điều này rất tốt.".
Definition subKeywordNotInHeading (kw : string) (h : Heading) : string :=
  "Từ khóa phụ " ++ q ++ kw ++ q ++ " không được tìm thấy trong thẻ " ++ tag h
    ++ " với nội dung " ++ q ++ text h ++ q ++ ".".

End Msg.

(* ================================================================== *)
(** ** The message rules *)

(** [assignMessagesForKeyword()] *)
Definition assignMessagesForKeyword (this : SeoAnalyzer) : SeoAnalyzer :=
  if truthyNullable (keyword (content this)) then
    let this := Push.goodPoint (Msg.keywordPresent (keyword (content this))) this in
    let this :=
      if JsNumber.gtb (keywordDensity this) (JsNumber.ofZ 5)
      then Push.warning Msg.keywordStuffing this
      else this in
    if JsNumber.ltb (keywordDensity this) MINIMUM_KEYWORD_DENSITY then
      Push.warning (Msg.keywordDensityLow (keywordDensity this)) this
    else if JsNumber.gtb (keywordDensity this) MAXIMUM_KEYWORD_DENSITY then
      Push.warning (Msg.keywordDensityHigh (keywordDensity this)) this
    else
      Push.goodPoint (Msg.keywordDensityGood (keywordDensity this)) this
  else
    Push.warning Msg.keywordMissing this.

(** The body of the [forEach] of [assignMessagesForSubKeywords]. *)
Definition subKeywordDensityRule (this : SeoAnalyzer)
    (subKeywordDensity : KeywordDensity) : SeoAnalyzer :=
  let d := density subKeywordDensity in
  if JsNumber.gtb d MAXIMUM_SUB_KEYWORD_DENSITY then
    Push.warning (Msg.subKeywordDensityHigh (kd_keyword subKeywordDensity) d) this
  else if JsNumber.ltb d MINIMUM_SUB_KEYWORD_DENSITY then
    let densityBeingLowString :=
      if JsNumber.ltb d EXTREME_LOW_SUB_KEYWORD_DENSITY then "quá thấp" else "thấp" in
    Push.minorWarning
      (Msg.subKeywordDensityLow (kd_keyword subKeywordDensity) densityBeingLowString d)
      this
  else
    Push.goodPoint (Msg.subKeywordDensityGood (kd_keyword subKeywordDensity) d) this.

(** [assignMessagesForSubKeywords()] *)
Definition assignMessagesForSubKeywords (this : SeoAnalyzer) : SeoAnalyzer :=
  if (0 <? List.length (subKeywords (content this)))%nat then
    let this := Push.goodPoint (Msg.subKeywordsPresent (subKeywords (content this))) this in
    let subKeywordsDensity := getSubKeywordsDensity this in
    fold_left subKeywordDensityRule subKeywordsDensity this
  else
    Push.minorWarning Msg.subKeywordsMissing this.

(** [assignMessagesForTitle()] *)
Definition assignMessagesForTitle (this : SeoAnalyzer) : SeoAnalyzer :=
  if JsString.truthy (title (content this)) then
    let len := String.length (title (content this)) in
    let this :=
      if (MAXIMUM_TITLE_LENGTH <? len)%nat then
        Push.warning Msg.titleTooLong this
      else if (len <? MINIMUM_TITLE_LENGTH)%nat then
        Push.warning Msg.titleTooShort this
      else
        Push.goodPoint (Msg.titleLength len) this in
    let keywordInTitle := getKeywordInTitle this None in
    let this :=
      if JsNumber.truthy (density keywordInTitle) then
        Push.goodPoint (Msg.keywordInTitleGood (density keywordInTitle)) this
      else
        Push.warning Msg.keywordInTitleMissing this in
    if JsString.truthy (title (content this)) then
      if (0 <? List.length (getSubKeywordsInTitle this))%nat then
        Push.goodPoint
          (Msg.subKeywordsInTitleCount (List.length (getSubKeywordsInTitle this))) this
      else
        Push.minorWarning Msg.subKeywordsInTitleMissing this
    else this
  else
    Push.warning Msg.titleMissing this.

(** [assignMessagesForLinks()] *)
Definition assignMessagesForLinks (this : SeoAnalyzer) : SeoAnalyzer :=
  let wordCount := JsNumber.ofNat (getWordCount (htmlAnalyzer this) None) in
  let this :=
    if JsNumber.ltb (JsNumber.ofNat (totalUniqueInternalLinksCount this))
                    (JsNumber.div wordCount (JsNumber.ofZ 300)) then
      Push.warning (Msg.internalLinksFew (totalUniqueInternalLinksCount this)) this
    else
      Push.goodPoint (Msg.internalLinksGood (totalUniqueInternalLinksCount this)) this in
  let this :=
    if JsNumber.ltb (JsNumber.ofNat (totalUniqueExternalLinksCount this))
                    (JsNumber.div wordCount (JsNumber.ofZ 400)) then
      Push.warning (Msg.externalLinksFew (totalUniqueExternalLinksCount this)) this
    else this in
  let internalDuplicates :=
    List.length (duplicate (getInternalLinks (htmlAnalyzer this))) in
  let this :=
    if (1 <? internalDuplicates)%nat then
      Push.minorWarning (Msg.internalDuplicates internalDuplicates) this
    else
      Push.goodPoint Msg.noInternalDuplicates this in
  let externalDuplicates :=
    List.length (duplicate (getOutboundLinks (htmlAnalyzer this))) in
  if (1 <? externalDuplicates)%nat then
    Push.minorWarning (Msg.externalDuplicates externalDuplicates) this
  else
    Push.goodPoint Msg.noExternalDuplicates this.

(** The body of the [forEach] of [assignMessagesForMetaDescription]. *)
Definition subKeywordInMetaRule (this : SeoAnalyzer) (subKeyword : KeywordDensity)
  : SeoAnalyzer :=
  let d := density subKeyword in
  if JsNumber.gtb d MAXIMUM_SUB_KEYWORD_IN_META_DESCRIPTION_DENSITY then
    Push.warning (Msg.subKeywordInMetaHigh (kd_keyword subKeyword) d) this
  else if JsNumber.ltb d MINIMUM_SUB_KEYWORD_IN_META_DESCRIPTION_DENSITY then
    let densityBeingLowString :=
      if JsNumber.ltb d (Fin (2 # 10)) then "quá thấp" else "thấp" in
    Push.minorWarning
      (Msg.subKeywordInMetaLow (kd_keyword subKeyword) densityBeingLowString d) this
  else
    Push.goodPoint (Msg.subKeywordInMetaGood (kd_keyword subKeyword) d) this.

(** [x > 1] for an optional position; a missing one compares false. *)
Definition positionAfterFirst (p : option Z) : bool :=
  match p with
  | Some z => (1 <? z)%Z
  | None => false
  end.

(** [assignMessagesForMetaDescription()] *)
Definition assignMessagesForMetaDescription (this : SeoAnalyzer) : SeoAnalyzer :=
  let meta := metaDescription (content this) in
  if JsString.truthy meta then
    let keywordInMetaDescription := getKeywordInMetaDescription this None in
    let len := String.length meta in
    let this :=
      if (MAXIMUM_META_DESCRIPTION_LENGTH <? len)%nat then
        Push.warning (Msg.metaTooLong len) this
      else if (len <? 100)%nat then
        Push.warning (Msg.metaTooShort len) this
      else
        let this := Push.goodPoint (Msg.metaLength len) this in
        let d := density keywordInMetaDescription in
        if JsNumber.gtb d MAXIMUM_META_DESCRIPTION_DENSITY then
          Push.warning (Msg.metaDensityHigh d) this
        else if JsNumber.ltb d MINIMUM_META_DESCRIPTION_DENSITY then
          Push.warning (Msg.metaDensityLow d) this
        else
          Push.goodPoint (Msg.metaDensityGood d) this in
    let this :=
      if positionAfterFirst (position keywordInMetaDescription) then
        Push.minorWarning
          (Msg.metaNotStartingWithKeyword (JsString.substring0 20 meta)) this
      else
        Push.goodPoint (Msg.metaStartingWithKeyword (JsString.substring0 20 meta)) this in
    let subKeywordsInMetaDescription := getSubKeywordsInMetaDescription this in
    fold_left subKeywordInMetaRule subKeywordsInMetaDescription this
  else
    Push.warning Msg.metaMissing this.

(** [filterHeading(headingTag)] *)
Definition filterHeading (this : SeoAnalyzer) (headingTag : string) : list Heading :=
  filter (fun heading =>
            String.eqb (JsString.toLowerCase (tag heading))
                       (JsString.toLowerCase headingTag))
         (headings this).

(** [assignMessagesForHeadings()] *)
Definition assignMessagesForHeadings (this : SeoAnalyzer) : SeoAnalyzer :=
  if (List.length (headings this) =? 0)%nat then
    Push.warning Msg.headingsMissing this
  else
    let this := Push.goodPoint (Msg.headingsCount (List.length (headings this))) this in
    let headingsOne := filterHeading this "h1" in
    let this :=
      if (List.length headingsOne =? 0)%nat then Push.warning Msg.h1Missing this
      else if (1 <? List.length headingsOne)%nat then Push.warning Msg.h1Many this
      else Push.goodPoint Msg.h1Good this in
    let headingsTwo := filterHeading this "h2" in
    let this :=
      if (List.length headingsTwo =? 0)%nat then Push.warning Msg.h2Missing this
      else Push.goodPoint Msg.h2Good this in
    let headingsThree := filterHeading this "h3" in
    if (List.length headingsThree =? 0)%nat then Push.minorWarning Msg.h3Missing this
    else Push.goodPoint Msg.h3Good this.

(** [assignMessagesForKeywordInHeadings()] *)
Definition assignMessagesForKeywordInHeadings (this : SeoAnalyzer) : SeoAnalyzer :=
  fold_left
    (fun this heading =>
       let keywordInHeading :=
         countOccurrencesInString this (keyword (content this)) (Some (text heading)) in
       if (0 <? keywordInHeading)%Z then
         Push.goodPoint (Msg.keywordInHeading (keyword (content this)) heading) this
       else
         Push.minorWarning (Msg.keywordNotInHeading (keyword (content this)) heading) this)
    (headings this) this.

(** [assignMessagesForSubKeywordsInHeadings()] *)
Definition assignMessagesForSubKeywordsInHeadings (this : SeoAnalyzer) : SeoAnalyzer :=
  fold_left
    (fun this heading =>
       fold_left
         (fun this subKeyword =>
            let subKeywordInHeading :=
              countOccurrencesInString this (Some subKeyword) (Some (text heading)) in
            if (0 <? subKeywordInHeading)%Z then
              Push.goodPoint (Msg.subKeywordInHeading subKeyword heading) this
            else
              Push.minorWarning (Msg.subKeywordNotInHeading subKeyword heading) this)
         (subKeywords (content this)) this)
    (headings this) this.

(** [assignMessages()] *)
Definition assignMessages (this : SeoAnalyzer) : SeoAnalyzer :=
  let this := assignMessagesForKeyword this in
  let this := assignMessagesForSubKeywords this in
  let this := assignMessagesForTitle this in
  let this := assignMessagesForLinks this in
  let this := assignMessagesForMetaDescription this in
  let this := assignMessagesForKeywordInHeadings this in
  let this := assignMessagesForSubKeywordsInHeadings this in
  assignMessagesForHeadings this.

(** The field initialisers of the class: no heading, no message. *)
Definition noMessages : Messages :=
  {| warnings := []; minorWarnings := []; goodPoints := [] |}.

(** [new SeoAnalyzer(content, htmlAnalyzer, strictMode)].  The density is
    computed from the content and the analyzer before the field that
    receives it exists; [NaN] stands in for that unassigned field and is
    never read.  [push] extends the array that [getAllHeadingTags]
    returned, which is the array the field [headings] refers to. *)
Definition constructor (content : ContentJson) (htmlAnalyzer : HtmlAnalyzer)
    (strictMode : bool) : SeoAnalyzer :=
  let this :=
    {| content := content;
       htmlAnalyzer := htmlAnalyzer;
       keywordDensity := NaN;
       strictMode := strictMode;
       headings := [];
       messages := noMessages |} in
  let this :=
    {| content := content;
       htmlAnalyzer := htmlAnalyzer;
       keywordDensity := calculateDensity this (keyword content) None;
       strictMode := strictMode;
       headings := getAllHeadingTags htmlAnalyzer;
       messages := noMessages |} in
  let this :=
    if negb strictMode then
      {| content := content;
         htmlAnalyzer := htmlAnalyzer;
         keywordDensity := keywordDensity this;
         strictMode := strictMode;
         headings := (headings this ++ [ {| tag := "H1"; text := title content |} ])%list;
         messages := noMessages |}
    else this in
  assignMessages this.

(* ================================================================== *)
(** ** What a rule may change *)

(** Two states of one object: all fields but [messages] agree. *)
Definition sameObject (a b : SeoAnalyzer) : Prop :=
  content a = content b /\
  htmlAnalyzer a = htmlAnalyzer b /\
  keywordDensity a = keywordDensity b /\
  strictMode a = strictMode b /\
  headings a = headings b.

(** [b] is [a] after some pushes: the three lists only grew at the end. *)
Definition extends (a b : SeoAnalyzer) : Prop :=
  sameObject a b /\
  exists dw dm dg : list string,
    warnings (messages b) = (warnings (messages a) ++ dw)%list /\
    minorWarnings (messages b) = (minorWarnings (messages a) ++ dm)%list /\
    goodPoints (messages b) = (goodPoints (messages a) ++ dg)%list.

(** The number of messages that enter the overall score. *)
Definition scoredMessages (this : SeoAnalyzer) : nat :=
  List.length (warnings (messages this)) + List.length (goodPoints (messages this)).

(* ================================================================== *)
(** ** First occurrence and word positions, as the documentation words them *)

Module Occurrence.

(** Position of the first occurrence of [sep] in [s], if there is one. *)
Fixpoint indexOf (sep s : string) : option nat :=
  if prefix sep s then Some 0%nat
  else
    match s with
    | EmptyString => None
    | String _ s' => option_map S (indexOf sep s')
    end.

(** The part of [s] before the first occurrence of [sep]; all of [s] if
    [sep] does not occur. *)
Definition before (sep s : string) : string :=
  match indexOf sep s with
  | Some i => substring 0 i s
  | None => s
  end.

(** Number of spaces of a string. *)
Fixpoint countSpaces (s : string) : nat :=
  match s with
  | EmptyString => 0
  | String c s' =>
      if Ascii.eqb c " "%char then S (countSpaces s') else countSpaces s'
  end.

End Occurrence.

(* ================================================================== *)
(** ** Sample inputs *)

Module Sample.

(** Modelled from the spec: the word count of the analyzer splits on
    whitespace; here, the number of maximal runs of code units other
    than the space.  [inWord] tells whether the previous code unit
    belonged to a word. *)
Fixpoint countWords (inWord : bool) (s : string) : nat :=
  match s with
  | EmptyString => 0
  | String c s' =>
      if Ascii.eqb c " "%char then countWords false s'
      else if inWord then countWords true s'
      else S (countWords true s')
  end.

Definition noLinks : LinkSet := {| unique := []; duplicate := [] |}.

(** An analyzer over a body text, a heading list and two link sets. *)
Definition analyzer (body : string) (hs : list Heading)
    (internal outbound : LinkSet) : HtmlAnalyzer :=
  {| bodyText := body;
     getWordCount := fun o =>
       countWords false (match o with Some s => s | None => body end);
     getAllHeadingTags := hs;
     getInternalLinks := internal;
     getOutboundLinks := outbound |}.

(** The empty document. *)
Definition emptyDocument : HtmlAnalyzer := analyzer "" [] noLinks noLinks.

(** A short document with one heading of each of the first three levels. *)
Definition article : HtmlAnalyzer :=
  analyzer "seo tips for a small shop: write for readers, keep seo in mind"
           [ {| tag := "h1"; text := "seo tips" |};
             {| tag := "h2"; text := "readers first" |};
             {| tag := "H3"; text := "links" |} ]
           {| unique := ["/about"; "/shop"]; duplicate := [] |}
           {| unique := ["https://example.org"]; duplicate := [] |}.

Definition repeat (c : ascii) (n : nat) : string :=
  string_of_list_ascii (List.repeat c n).

Definition withTitle (t : string) : ContentJson :=
  {| title := t; metaDescription := ""; keyword := Some "seo"; subKeywords := [] |}.

(** No keyword at all: empty strings and an empty body. *)
Definition blank : ContentJson :=
  {| title := ""; metaDescription := ""; keyword := Some ""; subKeywords := [] |}.

(** A body of 300 words, three of them the keyword, under a title of 45
    letters and a meta description of 120. *)
Definition longBody : string :=
  "seo seo seo" ++ concat "" (List.repeat " w" 297).

Definition longContent : ContentJson :=
  {| title := repeat "A" 45;
     metaDescription := repeat "B" 120;
     keyword := Some "seo";
     subKeywords := [] |}.

Definition longDocument : HtmlAnalyzer := analyzer longBody [] noLinks noLinks.

(** An object on which no rule has run yet. *)
Definition fresh (c : ContentJson) (h : HtmlAnalyzer) : SeoAnalyzer :=
  Push.withMessages (constructor c h true) noMessages.

(** An object for a title of [n] letters. *)
Definition titled (n : nat) : SeoAnalyzer :=
  fresh (withTitle (repeat "A" n)) article.

(** No primary keyword: the field is [null]. *)
Definition noKeyword : ContentJson :=
  {| title := "null and void";
     metaDescription := "";
     keyword := None;
     subKeywords := [] |}.

(** A title in which the only sub-keyword does not occur. *)
Definition strayContent : ContentJson :=
  {| title := "Hello world";
     metaDescription := "";
     keyword := Some "seo";
     subKeywords := ["zzz"] |}.

End Sample.

(* ================================================================== *)
(** ** Further notions for the properties of the rules *)

(** [kw] occurs in [txt] as a run of consecutive code units. *)
Definition occursIn (kw txt : string) : Prop :=
  exists pre post : string, txt = pre ++ kw ++ post.

(** The code units that a list of pieces and the separators between them
    take up. *)
Definition piecesLength (sep : string) (l : list string) : nat :=
  list_sum (map String.length l) + String.length sep * (List.length l - 1).

(** The number of messages of the three lists together. *)
Definition totalMessages (this : SeoAnalyzer) : nat :=
  List.length (warnings (messages this))
  + List.length (minorWarnings (messages this))
  + List.length (goodPoints (messages this)).

(** A finite number that is at least [lo]. *)
Definition atLeast (lo : Q) (x : number) : Prop :=
  match x with
  | Fin q => (lo <= q)%Q
  | _ => False
  end.

(** The test of [filterHeading]: the tags agree up to the case of letters. *)
Definition hasTag (headingTag : string) (heading : Heading) : bool :=
  String.eqb (JsString.toLowerCase (tag heading)) (JsString.toLowerCase headingTag).

(** The two warnings about a missing heading. *)
Definition missingHeadings : list string := [Msg.headingsMissing; Msg.h1Missing].

(** [b] is [a] after some pushes, none of which put a text of [bad] among
    the warnings. *)
Definition extendsAvoiding (bad : list string) (a b : SeoAnalyzer) : Prop :=
  sameObject a b /\
  exists dw dm dg : list string,
    warnings (messages b) = (warnings (messages a) ++ dw)%list /\
    minorWarnings (messages b) = (minorWarnings (messages a) ++ dm)%list /\
    goodPoints (messages b) = (goodPoints (messages a) ++ dg)%list /\
    Forall (fun msg => ~ In msg bad) dw.

(* ================================================================== *)
(** ** More sample inputs *)

Module Cases.

(** The object as it stands in strict mode when the rules are about to
    run: the density is computed, the headings are the analyzer's, there
    is no message yet. *)
Definition start (c : ContentJson) (h : HtmlAnalyzer) : SeoAnalyzer :=
  let blank :=
    {| content := c; htmlAnalyzer := h; keywordDensity := NaN;
       strictMode := true; headings := []; messages := noMessages |} in
  {| content := c;
     htmlAnalyzer := h;
     keywordDensity := calculateDensity blank (keyword c) None;
     strictMode := true;
     headings := getAllHeadingTags h;
     messages := noMessages |}.

(** Such an object for a body [body] and a keyword [kw]. *)
Definition onBody (kw : option string) (body : string) : SeoAnalyzer :=
  start
    {| title := "A guide"; metaDescription := ""; keyword := kw; subKeywords := [] |}
    (Sample.analyzer body [] Sample.noLinks Sample.noLinks).

(** A body of [n] words, [k] of them the keyword [seo] ([k] at most [n]). *)
Definition bodyOf (k n : nat) : string :=
  concat " " (List.repeat "seo" k ++ List.repeat "w" (n - k))%list.

(** The sample article under a title [t], the keyword being [seo]. *)
Definition article (t : string) : SeoAnalyzer :=
  start (Sample.withTitle t) Sample.article.

(** The sample article with two sub-keywords. *)
Definition withSubKeywords : SeoAnalyzer :=
  start
    {| title := "Hello world";
       metaDescription := "";
       keyword := Some "seo";
       subKeywords := ["tips"; "zzz"] |}
    Sample.article.

(** The sample article under a meta description [m] and a keyword [kw]. *)
Definition described (kw : option string) (m : string) : SeoAnalyzer :=
  start
    {| title := "A guide"; metaDescription := m; keyword := kw; subKeywords := [] |}
    Sample.article.

(** The sample article under a meta description of [n] letters. *)
Definition describedIn (n : nat) : SeoAnalyzer :=
  described (Some "seo") (Sample.repeat "B" n).

(** A content with ten sub-keywords, none of which occurs anywhere. *)
Definition crowded : ContentJson :=
  {| title := "Hello world";
     metaDescription := "";
     keyword := Some "seo";
     subKeywords := ["k0"; "k1"; "k2"; "k3"; "k4"; "k5"; "k6"; "k7"; "k8"; "k9"] |}.

(** A short meta description that repeats its one sub-keyword. *)
Definition repeating : SeoAnalyzer :=
  start
    {| title := "A guide";
       metaDescription := "tips and more tips";
       keyword := Some "seo";
       subKeywords := ["tips"] |}
    Sample.article.

(** A document of 500 words with one internal and one outbound link. *)
Definition longRead : SeoAnalyzer :=
  start
    {| title := "A guide"; metaDescription := ""; keyword := Some "seo"; subKeywords := [] |}
    (Sample.analyzer (bodyOf 0 500) []
       {| unique := ["/about"]; duplicate := [] |}
       {| unique := ["https://example.org"]; duplicate := [] |}).

End Cases.

(* ================================================================== *)
(** ** Facts about [split] *)

Module SplitFacts.
Import JsString Occurrence.

Lemma append_empty_r (s : string) : s ++ "" = s.
Proof. induction s as [|c s IH]; simpl; [reflexivity | now rewrite IH]. Qed.

Lemma append_assoc (a b c : string) : (a ++ b) ++ c = a ++ (b ++ c).
Proof. induction a as [|x a IH]; simpl; [reflexivity | now rewrite IH]. Qed.

(** A split on a non-empty separator always has a first piece. *)
Lemma splitFrom_length (sep : string) (s : string) :
  forall skip cur, (1 <= List.length (splitFrom sep skip cur s))%nat.
Proof.
  induction s as [|c s IH]; intros skip cur; cbn [splitFrom].
  - apply Nat.le_refl.
  - destruct skip as [|k]; [|apply IH].
    destruct (prefix sep (String c s)); [|apply IH].
    cbn [List.length]. apply le_n_S, Nat.le_0_l.
Qed.

Lemma split_length_pos (sep s : string) :
  truthy sep = true -> (1 <= List.length (split sep s))%nat.
Proof.
  destruct sep as [|a sep]; simpl; [discriminate | intros _].
  apply splitFrom_length.
Qed.

(** On the empty separator the pieces are the code units. *)
Lemma split_empty_length (s : string) :
  List.length (split "" s) = String.length s.
Proof.
  unfold split. rewrite length_map.
  induction s as [|c s IH]; simpl; [reflexivity | now rewrite IH].
Qed.

Lemma before_cons_miss (sep : string) (c : ascii) (s : string) :
  prefix sep (String c s) = false ->
  before sep (String c s) = String c (before sep s).
Proof.
  intros H. unfold before. cbn [indexOf]. rewrite H.
  destruct (indexOf sep s) as [i|]; reflexivity.
Qed.

Lemma before_hit (sep s : string) :
  prefix sep s = true -> before sep s = "".
Proof.
  intros H. unfold before.
  destruct s as [|c s]; cbn [indexOf]; rewrite H; reflexivity.
Qed.

Lemma prefix_empty_string (sep : string) :
  truthy sep = true -> prefix sep "" = false.
Proof. destruct sep; [discriminate | reflexivity]. Qed.

(** The first piece of a split is what was read so far followed by the
    text before the first match. *)
Lemma splitFrom_first (sep : string) :
  truthy sep = true ->
  forall s cur,
    exists rest, splitFrom sep 0 cur s = (cur ++ before sep s) :: rest.
Proof.
  intros Hsep s. induction s as [|c s IH]; intros cur.
  - exists []. unfold before. cbn [indexOf splitFrom].
    rewrite (prefix_empty_string _ Hsep), append_empty_r. reflexivity.
  - cbn [splitFrom]. destruct (prefix sep (String c s)) eqn:Hp.
    + eexists. rewrite (before_hit _ _ Hp), append_empty_r. reflexivity.
    + destruct (IH (cur ++ String c "")) as [rest Hrest].
      exists rest. rewrite Hrest, (before_cons_miss _ _ _ Hp), append_assoc.
      reflexivity.
Qed.

Lemma split_first_piece (sep s : string) :
  truthy sep = true -> exists rest, split sep s = before sep s :: rest.
Proof.
  intros Hsep. destruct (splitFrom_first sep Hsep s "") as [rest H].
  exists rest. destruct sep; [discriminate | exact H].
Qed.

(** Splitting on the space gives one piece more than there are spaces. *)
Lemma splitFrom_space_length (s : string) :
  forall cur, List.length (splitFrom " " 0 cur s) = S (countSpaces s).
Proof.
  induction s as [|c s IH]; intros cur; [reflexivity|].
  cbn [splitFrom countSpaces].
  assert (Hp : prefix " " (String c s) = Ascii.eqb c " ").
  { cbn [prefix]. destruct (ascii_dec " " c) as [<-|Hne].
    - destruct s; reflexivity.
    - symmetry. apply Ascii.eqb_neq. congruence. }
  rewrite Hp. destruct (Ascii.eqb c " ").
  - cbn [List.length String.length Nat.sub]. now rewrite IH.
  - apply IH.
Qed.

Lemma split_space_length (s : string) :
  List.length (split " " s) = S (countSpaces s).
Proof. apply splitFrom_space_length. Qed.

End SplitFacts.

(* ================================================================== *)
(** ** Rules only push *)

Module Frame.

Lemma sameObject_refl (a : SeoAnalyzer) : sameObject a a.
Proof. repeat split. Qed.

Lemma sameObject_trans (a b c : SeoAnalyzer) :
  sameObject a b -> sameObject b c -> sameObject a c.
Proof.
  intros (H1 & H2 & H3 & H4 & H5) (K1 & K2 & K3 & K4 & K5).
  repeat split; congruence.
Qed.

Lemma extends_refl (a : SeoAnalyzer) : extends a a.
Proof.
  split; [apply sameObject_refl|].
  exists [], [], []. now rewrite !app_nil_r.
Qed.

Lemma extends_trans (a b c : SeoAnalyzer) :
  extends a b -> extends b c -> extends a c.
Proof.
  intros [Hs (dw & dm & dg & Hw & Hm & Hg)] [Ks (ew & em & eg & Kw & Km & Kg)].
  split; [eapply sameObject_trans; eassumption|].
  exists (dw ++ ew)%list, (dm ++ em)%list, (dg ++ eg)%list.
  rewrite Kw, Km, Kg, Hw, Hm, Hg, !app_assoc. auto.
Qed.

Lemma warning_extends (msg : string) (a : SeoAnalyzer) :
  extends a (Push.warning msg a).
Proof.
  split; [repeat split|]. exists [msg], [], []. simpl.
  now rewrite !app_nil_r.
Qed.

Lemma minorWarning_extends (msg : string) (a : SeoAnalyzer) :
  extends a (Push.minorWarning msg a).
Proof.
  split; [repeat split|]. exists [], [msg], []. simpl.
  now rewrite !app_nil_r.
Qed.

Lemma goodPoint_extends (msg : string) (a : SeoAnalyzer) :
  extends a (Push.goodPoint msg a).
Proof.
  split; [repeat split|]. exists [], [], [msg]. simpl.
  now rewrite !app_nil_r.
Qed.

Lemma fold_left_extends {A : Type} (f : SeoAnalyzer -> A -> SeoAnalyzer) :
  (forall t x, extends t (f t x)) ->
  forall l a b, extends a b -> extends a (fold_left f l b).
Proof.
  intros Hf l. induction l as [|x l IH]; intros a b Hab; simpl.
  - exact Hab.
  - apply IH. eapply extends_trans; [exact Hab | apply Hf].
Qed.

(** Peel the pushes and the branches off the right-hand side. *)
Ltac peel :=
  repeat first
    [ apply extends_refl
    | assumption
    | match goal with
      | |- extends _ (Push.warning _ _) =>
          eapply extends_trans; [|apply warning_extends]
      | |- extends _ (Push.minorWarning _ _) =>
          eapply extends_trans; [|apply minorWarning_extends]
      | |- extends _ (Push.goodPoint _ _) =>
          eapply extends_trans; [|apply goodPoint_extends]
      | |- extends _ (fold_left _ _ _) =>
          apply fold_left_extends; [intros; cbv zeta|]
      | |- extends _ (if ?c then _ else _) => destruct c
      end ].

Lemma assignMessagesForKeyword_extends (a : SeoAnalyzer) :
  extends a (assignMessagesForKeyword a).
Proof. unfold assignMessagesForKeyword. cbv zeta. peel. Qed.

Lemma subKeywordDensityRule_extends (a : SeoAnalyzer) (d : KeywordDensity) :
  extends a (subKeywordDensityRule a d).
Proof. unfold subKeywordDensityRule. cbv zeta. peel. Qed.

Lemma assignMessagesForSubKeywords_extends (a : SeoAnalyzer) :
  extends a (assignMessagesForSubKeywords a).
Proof.
  unfold assignMessagesForSubKeywords. cbv zeta.
  destruct (0 <? _)%nat.
  - apply fold_left_extends; [apply subKeywordDensityRule_extends | peel].
  - peel.
Qed.

Lemma assignMessagesForTitle_extends (a : SeoAnalyzer) :
  extends a (assignMessagesForTitle a).
Proof. unfold assignMessagesForTitle. cbv zeta. peel. Qed.

Lemma assignMessagesForLinks_extends (a : SeoAnalyzer) :
  extends a (assignMessagesForLinks a).
Proof. unfold assignMessagesForLinks. cbv zeta. peel. Qed.

Lemma subKeywordInMetaRule_extends (a : SeoAnalyzer) (d : KeywordDensity) :
  extends a (subKeywordInMetaRule a d).
Proof. unfold subKeywordInMetaRule. cbv zeta. peel. Qed.

Lemma assignMessagesForMetaDescription_extends (a : SeoAnalyzer) :
  extends a (assignMessagesForMetaDescription a).
Proof.
  unfold assignMessagesForMetaDescription. cbv zeta.
  destruct (JsString.truthy _); [|peel].
  apply fold_left_extends; [apply subKeywordInMetaRule_extends | peel].
Qed.

Lemma assignMessagesForHeadings_extends (a : SeoAnalyzer) :
  extends a (assignMessagesForHeadings a).
Proof. unfold assignMessagesForHeadings. cbv zeta. peel. Qed.

Lemma assignMessagesForKeywordInHeadings_extends (a : SeoAnalyzer) :
  extends a (assignMessagesForKeywordInHeadings a).
Proof. unfold assignMessagesForKeywordInHeadings. peel. Qed.

Lemma assignMessagesForSubKeywordsInHeadings_extends (a : SeoAnalyzer) :
  extends a (assignMessagesForSubKeywordsInHeadings a).
Proof. unfold assignMessagesForSubKeywordsInHeadings. peel. Qed.

(** What comes after the keyword rule in [assignMessages]. *)
Lemma after_keyword_rule (a : SeoAnalyzer) :
  extends (assignMessagesForKeyword a) (assignMessages a).
Proof.
  unfold assignMessages. cbv zeta.
  eapply extends_trans; [|apply assignMessagesForHeadings_extends].
  eapply extends_trans; [|apply assignMessagesForSubKeywordsInHeadings_extends].
  eapply extends_trans; [|apply assignMessagesForKeywordInHeadings_extends].
  eapply extends_trans; [|apply assignMessagesForMetaDescription_extends].
  eapply extends_trans; [|apply assignMessagesForLinks_extends].
  eapply extends_trans; [|apply assignMessagesForTitle_extends].
  apply assignMessagesForSubKeywords_extends.
Qed.

(** What comes before the heading rule in [assignMessages]. *)
Lemma before_heading_rule (a : SeoAnalyzer) :
  exists b, extends a b /\ assignMessages a = assignMessagesForHeadings b.
Proof.
  eexists. split; [|unfold assignMessages; cbv zeta; reflexivity].
  eapply extends_trans; [|apply assignMessagesForSubKeywordsInHeadings_extends].
  eapply extends_trans; [|apply assignMessagesForKeywordInHeadings_extends].
  eapply extends_trans; [|apply assignMessagesForMetaDescription_extends].
  eapply extends_trans; [|apply assignMessagesForLinks_extends].
  eapply extends_trans; [|apply assignMessagesForTitle_extends].
  eapply extends_trans; [|apply assignMessagesForSubKeywords_extends].
  apply assignMessagesForKeyword_extends.
Qed.

Lemma assignMessages_extends (a : SeoAnalyzer) : extends a (assignMessages a).
Proof.
  eapply extends_trans;
    [apply assignMessagesForKeyword_extends | apply after_keyword_rule].
Qed.

Lemma extends_scoredMessages (a b : SeoAnalyzer) :
  extends a b -> (scoredMessages a <= scoredMessages b)%nat.
Proof.
  intros [_ (dw & dm & dg & Hw & _ & Hg)]. unfold scoredMessages.
  rewrite Hw, Hg, !length_app. lia.
Qed.

(** The keyword rule pushes a warning or a good point, whatever the
    keyword is. *)
Lemma keyword_rule_scores (a : SeoAnalyzer) :
  (1 <= scoredMessages (assignMessagesForKeyword a))%nat.
Proof.
  unfold assignMessagesForKeyword, scoredMessages. cbv zeta.
  repeat match goal with
         | |- context [if ?c then _ else _] => destruct c
         end;
    simpl; rewrite ?length_app; simpl; lia.
Qed.

Lemma constructor_scores (c : ContentJson) (h : HtmlAnalyzer) (s : bool) :
  (1 <= scoredMessages (constructor c h s))%nat.
Proof.
  unfold constructor. cbv zeta.
  match goal with
  | |- (_ <= scoredMessages (assignMessages ?t))%nat =>
      pose proof (keyword_rule_scores t) as H1;
      pose proof (extends_scoredMessages _ _ (after_keyword_rule t)) as H2
  end.
  lia.
Qed.

End Frame.

(* ================================================================== *)
(** ** Arithmetic of the scores *)

Module NumberFacts.
Import JsNumber.

Lemma sgn_pos (q : Q) : (0 < q)%Q -> sgn q = Gt.
Proof. intros H. unfold sgn. now apply Qgt_alt. Qed.

Lemma inject_nat_nonneg (n : nat) : (0 <= inject_Z (Z.of_nat n))%Q.
Proof.
  change 0%Q with (inject_Z 0). rewrite <- Zle_Qle. apply Nat2Z.is_nonneg.
Qed.

Lemma inject_nat_pos (n : nat) : (0 < n)%nat -> (0 < inject_Z (Z.of_nat n))%Q.
Proof.
  intros H. change 0%Q with (inject_Z 0). rewrite <- Zlt_Qlt. lia.
Qed.

Lemma ofNat_nonneg (n : nat) : nonneg (ofNat n).
Proof. apply inject_nat_nonneg. Qed.

Lemma ofZ_nonneg (z : Z) : (0 <= z)%Z -> nonneg (ofZ z).
Proof.
  intros H. simpl. change 0%Q with (inject_Z 0). now rewrite <- Zle_Qle.
Qed.

Lemma div_nonneg (x : number) (n : nat) :
  nonneg x -> (0 < n)%nat -> nonneg (div x (ofNat n)).
Proof.
  destruct x as [| | |q]; simpl; try contradiction.
  intros Hq Hn. pose proof (inject_nat_pos n Hn) as Hp.
  rewrite (sgn_pos _ Hp). simpl.
  apply Qle_shift_div_l; [exact Hp | lra].
Qed.

Lemma mul_nonneg (x y : number) : nonneg x -> nonneg y -> nonneg (mul x y).
Proof.
  destruct x as [| | |p], y as [| | |q]; simpl; try contradiction.
  apply Qmult_le_0_compat.
Qed.

Lemma add_nonneg (x y : number) : nonneg x -> nonneg y -> nonneg (add x y).
Proof.
  destruct x as [| | |p], y as [| | |q]; simpl; try contradiction.
  intros; lra.
Qed.

(** [Math.min(x, 100)] of a non-negative finite number is in [0,100]. *)
Lemma min_nonneg_range (x : number) :
  nonneg x -> inRange 0 100 (min x (ofZ 100)).
Proof.
  destruct x as [| | |q]; simpl; try contradiction.
  intros Hq. destruct (inject_Z 100 ?= q)%Q eqn:Hc; simpl.
  - split; [exact Hq|]. apply Qeq_alt in Hc. rewrite <- Hc. apply Qle_refl.
  - split; [|apply Qle_refl]. change (inject_Z 100) with 100%Q. lra.
  - split; [exact Hq|]. apply Qgt_alt in Hc. now apply Qlt_le_weak.
Qed.

(** [Math.min(x, 100) > 100] never holds, NaN included. *)
Lemma min_never_above (x : number) : gtb (min x (ofZ 100)) (ofZ 100) = false.
Proof.
  destruct x as [| | |q]; try reflexivity.
  unfold gtb. simpl. destruct (inject_Z 100 ?= q)%Q eqn:Hc; simpl.
  - apply Qeq_alt in Hc.
    destruct (inject_Z 100 ?= q)%Q eqn:Hd; try reflexivity.
    apply Qlt_alt in Hd. lra.
  - reflexivity.
  - rewrite Hc. reflexivity.
Qed.

(** The quotient of the overall score, for a non-zero denominator. *)
Lemma ratio_value (g w : nat) :
  (1 <= w + g)%nat ->
  let q := (inject_Z (Z.of_nat g) / inject_Z (Z.of_nat (w + g)) * inject_Z 100)%Q in
  min (mul (div (ofNat g) (ofNat (w + g))) (ofZ 100)) (ofZ 100) = Fin q /\
  (0 <= q /\ q <= 100)%Q.
Proof.
  intros Hd q.
  pose proof (inject_nat_pos (w + g) Hd) as Hp.
  pose proof (inject_nat_nonneg g) as Hg.
  assert (Hle : (inject_Z (Z.of_nat g) <= inject_Z (Z.of_nat (w + g)))%Q).
  { rewrite <- Zle_Qle. lia. }
  assert (H0 : (0 <= inject_Z (Z.of_nat g) / inject_Z (Z.of_nat (w + g)))%Q).
  { apply Qle_shift_div_l; [exact Hp | lra]. }
  assert (H1 : (inject_Z (Z.of_nat g) / inject_Z (Z.of_nat (w + g)) <= 1)%Q).
  { apply Qle_shift_div_r; [exact Hp | lra]. }
  assert (Hq : (0 <= q /\ q <= 100)%Q).
  { unfold q. change (inject_Z 100) with 100%Q. split; nra. }
  split; [|exact Hq].
  unfold ofNat, ofZ. cbn [div]. rewrite (sgn_pos _ Hp). cbn [mul min ltb].
  fold q. destruct (inject_Z 100 ?= q)%Q eqn:Hc; try reflexivity.
  apply Qlt_alt in Hc. change (inject_Z 100) with 100%Q in Hc. lra.
Qed.

End NumberFacts.

(* ================================================================== *)
(** ** The constructor and the accessors *)

Module ObjectFacts.
Import Frame.

(** The accessors read the content and the analyzer only. *)
Lemma countOccurrencesInString_ext (a b : SeoAnalyzer) kw str :
  content a = content b -> htmlAnalyzer a = htmlAnalyzer b ->
  countOccurrencesInString a kw str = countOccurrencesInString b kw str.
Proof. intros Hc Hh. unfold countOccurrencesInString. now rewrite Hc, Hh. Qed.

Lemma calculateDensity_ext (a b : SeoAnalyzer) kw body :
  content a = content b -> htmlAnalyzer a = htmlAnalyzer b ->
  calculateDensity a kw body = calculateDensity b kw body.
Proof.
  intros Hc Hh. unfold calculateDensity.
  rewrite Hh. now rewrite (countOccurrencesInString_ext a b _ _ Hc Hh).
Qed.

(** The object as it stands when [assignMessages] is called. *)
Lemma constructor_unfold (c : ContentJson) (h : HtmlAnalyzer) (s : bool) :
  exists t : SeoAnalyzer,
    constructor c h s = assignMessages t /\
    content t = c /\
    htmlAnalyzer t = h /\
    keywordDensity t = calculateDensity t (keyword c) None /\
    strictMode t = s /\
    headings t =
      (if s then getAllHeadingTags h
       else getAllHeadingTags h ++ [ {| tag := "H1"; text := title c |} ])%list /\
    messages t = noMessages.
Proof.
  unfold constructor. cbv zeta. eexists. split; [reflexivity|].
  destruct s; simpl; repeat split.
Qed.

Lemma constructor_fields (c : ContentJson) (h : HtmlAnalyzer) (s : bool) :
  content (constructor c h s) = c /\
  htmlAnalyzer (constructor c h s) = h /\
  keywordDensity (constructor c h s)
    = calculateDensity (constructor c h s) (keyword c) None /\
  headings (constructor c h s) =
    (if s then getAllHeadingTags h
     else getAllHeadingTags h ++ [ {| tag := "H1"; text := title c |} ])%list.
Proof.
  destruct (constructor_unfold c h s) as (t & -> & Hc & Hh & Hd & _ & Hhs & _).
  destruct (assignMessages_extends t) as [(Kc & Kh & Kd & _ & Khs) _].
  repeat split; try congruence.
  rewrite <- Kd, Hd. apply calculateDensity_ext; assumption.
Qed.

(** A count over a non-empty separator is not negative. *)
Lemma count_nonneg (this : SeoAnalyzer) kw str :
  JsString.truthy (JsString.toStringNullable (nullish kw (keyword (content this)))) = true ->
  (0 <= countOccurrencesInString this kw str)%Z.
Proof.
  intros H. unfold countOccurrencesInString, JsString.splitNullable. cbv zeta.
  match goal with
  | |- context [JsString.split ?sep ?s] =>
      pose proof (SplitFacts.split_length_pos sep s H)
  end.
  lia.
Qed.

(** A density over a non-empty separator and a positive word count is a
    finite number that is not negative. *)
Lemma density_nonneg (this : SeoAnalyzer) kw body :
  JsString.truthy (JsString.toStringNullable (nullish kw (keyword (content this)))) = true ->
  (0 < getWordCount (htmlAnalyzer this)
         (Some (match body with Some s => s | None => bodyText (htmlAnalyzer this) end)))%nat ->
  JsNumber.nonneg (calculateDensity this kw body).
Proof.
  intros Hk Hw. unfold calculateDensity. cbv zeta.
  apply NumberFacts.mul_nonneg; [|now apply NumberFacts.ofZ_nonneg].
  apply NumberFacts.div_nonneg; [|exact Hw].
  apply NumberFacts.ofZ_nonneg, count_nonneg, Hk.
Qed.

Lemma nullish_some {A : Type} (x : A) (o : option A) : nullish (Some x) o = Some x.
Proof. reflexivity. Qed.

Lemma nullish_idem {A : Type} (o : option A) : nullish o o = o.
Proof. destruct o; reflexivity. Qed.

(** The sum of the sub-keyword densities, as the [reduce] computes it. *)
Lemma density_sum_nonneg (l : list KeywordDensity) :
  Forall (fun d => JsNumber.nonneg (density d)) l ->
  forall start, JsNumber.nonneg start ->
    JsNumber.nonneg
      (fold_left
         (fun total d => JsNumber.add total (JsNumber.mul (density d) (JsNumber.ofZ 10)))
         l start).
Proof.
  induction 1 as [|d l Hd _ IH]; intros start Hs; simpl; [exact Hs|].
  apply IH, NumberFacts.add_nonneg; [exact Hs|].
  apply NumberFacts.mul_nonneg; [exact Hd | now apply NumberFacts.ofZ_nonneg].
Qed.

End ObjectFacts.

(* ================================================================== *)
(** ** Worked examples *)

Example split_overlapping :
  JsString.split "aa" "aaa" = [""; "a"] /\ JsString.split "ab" "abab" = [""; ""; ""].
Proof. split; reflexivity. Qed.

Example split_at_the_ends :
  JsString.split "c" "abc" = ["ab"; ""] /\ JsString.split "a" "" = [""] /\
  JsString.split " " "a b  c" = ["a"; "b"; ""; "c"].
Proof. repeat split. Qed.

Example split_on_empty_separator :
  JsString.split "" "abc" = ["a"; "b"; "c"] /\ JsString.split "" "" = [].
Proof. split; reflexivity. Qed.

Example toFixed2_rounds :
  JsNumber.toFixed2 (Fin (1234 # 1000)) = "1.23" /\
  JsNumber.toFixed2 (Fin (-1 # 3)) = "-0.33" /\
  JsNumber.toFixed2 (Fin (5 # 1000)) = "0.01".
Proof. repeat split. Qed.

(** Three occurrences in 300 words: the density is 1 and the good points
    report it with two decimals. *)
Example density_of_long_document :
  let this := constructor Sample.longContent Sample.longDocument false in
  JsNumber.inRange 1 1 (keywordDensity this) /\
  In (Msg.keywordDensityGood (keywordDensity this)) (goodPoints (messages this)) /\
  Msg.keywordDensityGood (keywordDensity this) = "Mật độ từ khóa là 1.00%.".
Proof.
  vm_compute. repeat split; try discriminate. auto.
Qed.

(* ================================================================== *)
(** ** The overall score *)


(** The denominator of the overall score of such an object. *)
Lemma denominator_of (t : SeoAnalyzer) :
  (1 <= scoredMessages t)%nat ->
  let g := List.length (goodPoints (messages t)) in
  let w := List.length (warnings (messages t)) in
  (forall a : SeoAnalyzer, 1 <= scoredMessages (assignMessagesForKeyword a))%nat /\
  (1 <= w + g)%nat /\
  ~ (inject_Z (Z.of_nat (w + g)) == 0)%Q /\
  JsNumber.isNaN (getSeoScore t) = false.
Proof.
  unfold scoredMessages. intros Hs.
  split; [exact Frame.keyword_rule_scores|].
  split; [exact Hs|]. split.
  - pose proof (NumberFacts.inject_nat_pos _ Hs). lra.
  - destruct (NumberFacts.ratio_value _ _ Hs) as [Hv _].
    unfold getSeoScore, MAX_SCORE. now rewrite Hv.
Qed.



(** C10.  The keyword rule pushes a warning or a good point whatever the
    keyword is, so after construction warnings and goodPoints hold at
    least one message together, the denominator of the overall score is
    not zero and the score is not NaN. *)
Theorem constructed_denominator_nonzero (c : ContentJson) (h : HtmlAnalyzer) (s : bool) :
  let this := constructor c h s in
  let g := List.length (goodPoints (messages this)) in
  let w := List.length (warnings (messages this)) in
  (forall a : SeoAnalyzer, 1 <= scoredMessages (assignMessagesForKeyword a))%nat /\
  (1 <= w + g)%nat /\
  ~ (inject_Z (Z.of_nat (w + g)) == 0)%Q /\
  JsNumber.isNaN (getSeoScore this) = false.
Proof.
  exact (denominator_of (constructor c h s) (Frame.constructor_scores c h s)).
Qed.

(* ================================================================== *)
(** ** Division by zero *)

(** C2, as the claim states it, fails: on the empty document the density
    of a keyword is NaN, and the overall score of an object without
    warnings and good points is NaN. *)
Lemma zero_word_count_counterexample :
  let this := constructor (Sample.withTitle "") Sample.emptyDocument true in
  getWordCount (htmlAnalyzer this) (Some (bodyText (htmlAnalyzer this))) = 0%nat /\
  calculateDensity this (Some "seo") None = NaN /\
  getSeoScore (Push.withMessages this noMessages) = NaN.
Proof. vm_compute. repeat split. Qed.

(** What the two computations return instead is stated by occurrence of
    the keyword, after the facts on occurrences, at the end. *)

(* ================================================================== *)
(** ** The range of the two scores *)

Lemma truthy_keyword (k : option string) :
  k <> Some "" -> JsString.truthy (JsString.toStringNullable k) = true.
Proof.
  destruct k as [[|a k]|]; intros H; try reflexivity. now destruct H.
Qed.

Lemma truthy_nonempty (k : string) : k <> "" -> JsString.truthy k = true.
Proof. destruct k; intros H; [now destruct H | reflexivity]. Qed.

(** The keyword score is never above 100, and it is in [0,100] when no
    separator is empty and no word count is zero. *)
Lemma keyword_score_of (t : SeoAnalyzer) (c : ContentJson) (h : HtmlAnalyzer) :
  content t = c -> htmlAnalyzer t = h ->
  keywordDensity t = calculateDensity t (keyword c) None ->
  JsNumber.gtb (getKeywordSeoScore t) MAX_SCORE = false /\
  (keyword c <> Some "" ->
   Forall (fun k => k <> "") (subKeywords c) ->
   (0 < getWordCount h (Some (bodyText h)))%nat ->
   (0 < getWordCount h (Some (title c)))%nat ->
   JsNumber.inRange 0 100 (getKeywordSeoScore t)).
Proof.
  intros Hc Hh Hd. split; [apply NumberFacts.min_never_above|].
  intros Hk Hsub Hbody Htitle.
  pose proof (truthy_keyword _ Hk) as Hkt.
  unfold getKeywordSeoScore. cbv zeta. apply NumberFacts.min_nonneg_range.
  repeat apply NumberFacts.add_nonneg.
  - apply NumberFacts.mul_nonneg; [|now apply NumberFacts.ofZ_nonneg].
    unfold getKeywordInTitle. cbn [density].
    apply ObjectFacts.density_nonneg.
    + now rewrite !ObjectFacts.nullish_idem, Hc.
    + now rewrite Hc, Hh.
  - apply NumberFacts.ofNat_nonneg.
  - apply ObjectFacts.density_sum_nonneg; [|now apply NumberFacts.ofZ_nonneg].
    unfold getSubKeywordsDensity. rewrite Hc. apply Forall_map.
    revert Hsub. apply Forall_impl. intros k Hne. cbn [density].
    apply ObjectFacts.density_nonneg.
    + rewrite ObjectFacts.nullish_some. now apply truthy_nonempty.
    + now rewrite Hh.
  - apply NumberFacts.mul_nonneg; [|now apply NumberFacts.ofZ_nonneg].
    rewrite Hd. apply ObjectFacts.density_nonneg.
    + now rewrite Hc, ObjectFacts.nullish_idem.
    + now rewrite Hh.
Qed.

Lemma overall_score_range (t : SeoAnalyzer) :
  (1 <= scoredMessages t)%nat -> JsNumber.inRange 0 100 (getSeoScore t).
Proof.
  unfold scoredMessages. intros Hs.
  destruct (NumberFacts.ratio_value _ _ Hs) as [Hv Hr].
  unfold getSeoScore, MAX_SCORE. rewrite Hv. exact Hr.
Qed.

(** C3, as the claim states it, fails: on the empty document, with an
    empty title, the keyword score is NaN, which is not in [0,100]. *)
Lemma keyword_score_counterexample :
  let this := constructor (Sample.withTitle "") Sample.emptyDocument true in
  getKeywordSeoScore this = NaN /\
  ~ JsNumber.inRange 0 100 (getKeywordSeoScore this).
Proof. vm_compute. split; [reflexivity | intros H; exact H]. Qed.

(** C3, amended.  After construction the overall score is in [0,100].
    The keyword score is [Math.min] of the weighted sum and 100, so it is
    never above 100; it is in [0,100] when the analyzer counts at least
    one word in the body text and in the title and neither the keyword
    nor a sub-keyword is the empty string. *)
Theorem scores_in_range (c : ContentJson) (h : HtmlAnalyzer) (s : bool) :
  let this := constructor c h s in
  JsNumber.inRange 0 100 (getSeoScore this) /\
  JsNumber.gtb (getKeywordSeoScore this) MAX_SCORE = false /\
  (keyword c <> Some "" ->
   Forall (fun k => k <> "") (subKeywords c) ->
   (0 < getWordCount h (Some (bodyText h)))%nat ->
   (0 < getWordCount h (Some (title c)))%nat ->
   JsNumber.inRange 0 100 (getKeywordSeoScore this)).
Proof.
  destruct (ObjectFacts.constructor_fields c h s) as (Hc & Hh & Hd & _).
  exact (conj (overall_score_range _ (Frame.constructor_scores c h s))
              (keyword_score_of _ c h Hc Hh Hd)).
Qed.

(** A saturated keyword score: the sample article. *)
Lemma scores_in_range_witness :
  JsNumber.inRange 0 100
    (getKeywordSeoScore (constructor Sample.strayContent Sample.article false)).
Proof.
  apply (proj2 (proj2 (scores_in_range Sample.strayContent Sample.article false))).
  - discriminate.
  - repeat constructor; discriminate.
  - vm_compute. lia.
  - vm_compute. lia.
Defined.

(* ================================================================== *)
(** ** Counting an empty or a missing keyword *)

(** C4.  The occurrence count has no case for the empty keyword or for a
    missing one.  With the empty keyword the split cuts between all code
    units and the count is the length of the text less one: 2 on a text
    of three letters, -1 on the empty text.  With no keyword at all the
    separator is the text of [null], whose occurrences are counted. *)
Theorem empty_keyword_is_counted :
  (forall (this : SeoAnalyzer) (txt : string),
      countOccurrencesInString this (Some "") (Some txt)
      = (Z.of_nat (String.length txt) - 1)%Z) /\
  (let this := constructor Sample.blank Sample.emptyDocument true in
   countOccurrencesInString this (Some "") (Some "abc") = 2%Z /\
   countOccurrencesInString this None None = (-1)%Z) /\
  (let this := constructor Sample.noKeyword Sample.emptyDocument true in
   keyword (content this) = None /\
   countOccurrencesInString this None (Some "null and void") = 1%Z).
Proof.
  split.
  - intros this txt. unfold countOccurrencesInString, JsString.splitNullable.
    cbn [nullish JsString.toStringNullable].
    now rewrite SplitFacts.split_empty_length.
  - split; vm_compute; repeat split.
Qed.

(* ================================================================== *)
(** ** Sub-keywords in the title *)

(** The last step of the title rule, for a title and a list of
    sub-keywords that are not empty. *)
Lemma sub_keyword_count_pushed (this : SeoAnalyzer) :
  title (content this) <> "" ->
  subKeywords (content this) <> [] ->
  In (Msg.subKeywordsInTitleCount (List.length (subKeywords (content this))))
     (goodPoints (messages (assignMessagesForTitle this))).
Proof.
  intros Ht Hs. unfold assignMessagesForTitle. cbv zeta.
  rewrite (truthy_nonempty _ Ht).
  assert (Hlen : (0 <? List.length (subKeywords (content this)))%nat = true).
  { apply Nat.ltb_lt. destruct (subKeywords (content this)); [now destruct Hs|].
    simpl. lia. }
  destruct (MAXIMUM_TITLE_LENGTH <? _)%nat; [|destruct (_ <? MINIMUM_TITLE_LENGTH)%nat];
    match goal with
    | |- context [if JsNumber.truthy ?d then _ else _] =>
        destruct (JsNumber.truthy d)
    end;
    cbn [content Push.warning Push.goodPoint Push.minorWarning Push.withMessages];
    rewrite (truthy_nonempty _ Ht);
    unfold getSubKeywordsInTitle; rewrite length_map;
    cbn [content Push.warning Push.goodPoint Push.minorWarning Push.withMessages];
    rewrite Hlen;
    cbn [messages goodPoints Push.warning Push.goodPoint Push.minorWarning
         Push.withMessages];
    apply in_or_app; right; left; reflexivity.
Qed.

(** C5.  The title rule tests the length of the list that
    [getSubKeywordsInTitle] returns, and that list has one entry for each
    sub-keyword, found or not: whenever the title and the list of
    sub-keywords are not empty, the good point is pushed, with the number
    of sub-keywords as the count.  In the sample below the only
    sub-keyword does not occur in the title (count 0, density 0), and yet
    the good point with the count 1 is pushed and the minor warning is
    not. *)
Theorem stray_sub_keyword_is_counted :
  (forall this : SeoAnalyzer,
      title (content this) <> "" ->
      subKeywords (content this) <> [] ->
      In (Msg.subKeywordsInTitleCount (List.length (subKeywords (content this))))
         (goodPoints (messages (assignMessagesForTitle this)))) /\
  (let this := constructor Sample.strayContent Sample.article false in
   countOccurrencesInString this (Some "zzz") (Some (title (content this))) = 0%Z /\
   map (fun d => JsNumber.truthy (density d)) (getSubKeywordsInTitle this) = [false] /\
   In (Msg.subKeywordsInTitleCount 1) (goodPoints (messages this)) /\
   ~ In Msg.subKeywordsInTitleMissing (minorWarnings (messages this))).
Proof.
  split; [exact sub_keyword_count_pushed|].
  vm_compute. repeat split.
  - auto 20.
  - intros H. repeat (destruct H as [H|H]; [discriminate H|]). exact H.
Qed.

(** The title rule alone, on the sample. *)
Lemma stray_sub_keyword_is_counted_witness :
  In (Msg.subKeywordsInTitleCount 1)
     (goodPoints
        (messages
           (assignMessagesForTitle (Sample.fresh Sample.strayContent Sample.article)))).
Proof.
  apply (proj1 stray_sub_keyword_is_counted
           (Sample.fresh Sample.strayContent Sample.article));
    vm_compute; discriminate.
Defined.

(* ================================================================== *)
(** ** The position of a keyword *)

(** C6.  [getPosition] is -1 when the text or the keyword is empty (or
    the keyword is missing).  Otherwise it is the number of pieces that a
    split on the space makes of the text before the first occurrence of
    the keyword, one more than the number of spaces there: 1 for a keyword
    at the very start, 2 after one word and a space. *)
Theorem getPosition_counts_words :
  (forall (txt : string) (kw : option string),
      txt = "" \/ kw = None \/ kw = Some "" -> getPosition txt kw = (-1)%Z) /\
  (forall txt kw : string,
      txt <> "" -> kw <> "" ->
      getPosition txt (Some kw)
      = Z.of_nat (List.length (JsString.split " " (Occurrence.before kw txt))) /\
      getPosition txt (Some kw)
      = Z.of_nat (S (Occurrence.countSpaces (Occurrence.before kw txt)))) /\
  getPosition "seo is great" (Some "seo") = 1%Z /\
  getPosition "great seo content" (Some "seo") = 2%Z.
Proof.
  split; [|split; [|split; reflexivity]].
  - intros txt kw [-> | [-> | ->]]; unfold getPosition.
    + reflexivity.
    + now rewrite orb_true_r.
    + now rewrite orb_true_r.
  - intros txt kw Ht Hk. unfold getPosition.
    rewrite (truthy_nonempty _ Ht). cbn [truthyNullable].
    rewrite (truthy_nonempty _ Hk). cbn [negb orb].
    unfold JsString.splitNullable. cbn [JsString.toStringNullable].
    destruct (SplitFacts.split_first_piece kw txt (truthy_nonempty _ Hk))
      as [rest ->].
    rewrite SplitFacts.split_space_length. split; reflexivity.
Qed.

(** The second example of the claim, through the general statement. *)
Lemma getPosition_counts_words_witness :
  getPosition "" (Some "seo") = (-1)%Z /\
  getPosition "great seo content" (Some "seo")
  = Z.of_nat (S (Occurrence.countSpaces (Occurrence.before "seo" "great seo content"))).
Proof.
  split.
  - apply (proj1 getPosition_counts_words). left. reflexivity.
  - apply (proj1 (proj2 getPosition_counts_words)); discriminate.
Defined.

(* ================================================================== *)
(** ** The synthetic heading *)

(** The heading rule on an object without headings. *)
Lemma no_heading_warning (b : SeoAnalyzer) :
  headings b = [] ->
  In Msg.headingsMissing (warnings (messages (assignMessagesForHeadings b))).
Proof.
  intros Hb. unfold assignMessagesForHeadings. rewrite Hb.
  cbn [List.length Nat.eqb]. cbn [Push.warning Push.withMessages messages warnings].
  apply in_or_app. right. left. reflexivity.
Qed.

(** C7.  Without strict mode the working heading list is the list of the
    analyzer followed by exactly one more heading, with tag H1 and the
    title as text, whatever the analyzer returned.  In strict mode the
    list is the analyzer's; if that is empty, the warnings contain the
    message of the missing heading. *)
Theorem synthetic_heading (c : ContentJson) (h : HtmlAnalyzer) :
  headings (constructor c h false)
  = (getAllHeadingTags h ++ [ {| tag := "H1"; text := title c |} ])%list /\
  headings (constructor c h true) = getAllHeadingTags h /\
  (getAllHeadingTags h = [] ->
   In Msg.headingsMissing (warnings (messages (constructor c h true)))).
Proof.
  split; [|split].
  - exact (proj2 (proj2 (proj2 (ObjectFacts.constructor_fields c h false)))).
  - exact (proj2 (proj2 (proj2 (ObjectFacts.constructor_fields c h true)))).
  - intros Hnone.
    destruct (ObjectFacts.constructor_unfold c h true)
      as (t & -> & _ & _ & _ & _ & Hhs & _).
    destruct (Frame.before_heading_rule t) as (b & [Hsame _] & ->).
    apply no_heading_warning.
    destruct Hsame as (_ & _ & _ & _ & <-). now rewrite Hhs.
Qed.

(** Strict mode on the empty document. *)
Lemma synthetic_heading_witness :
  In Msg.headingsMissing
     (warnings (messages (constructor Sample.blank Sample.emptyDocument true))).
Proof.
  apply (proj2 (proj2 (synthetic_heading Sample.blank Sample.emptyDocument))).
  reflexivity.
Defined.

(* ================================================================== *)
(** ** The length of the title *)

Module TitleFacts.

Lemma titleLength_head (n : nat) :
  exists r, Msg.titleLength n = String "T" r.
Proof. eexists. unfold Msg.titleLength. cbn [append]. reflexivity. Qed.

Lemma keywordInTitleGood_head (d : number) :
  exists r, Msg.keywordInTitleGood d = String "M" r.
Proof. eexists. unfold Msg.keywordInTitleGood. cbn [append]. reflexivity. Qed.

Lemma subKeywordsInTitleCount_head (n : nat) :
  exists r, Msg.subKeywordsInTitleCount n = String "B" r.
Proof. eexists. unfold Msg.subKeywordsInTitleCount. cbn [append]. reflexivity. Qed.

Lemma titleLength_not_density (n : nat) (d : number) :
  Msg.keywordInTitleGood d <> Msg.titleLength n.
Proof.
  destruct (titleLength_head n) as [r ->].
  destruct (keywordInTitleGood_head d) as [r' ->]. discriminate.
Qed.

Lemma titleLength_not_count (n k : nat) :
  Msg.subKeywordsInTitleCount k <> Msg.titleLength n.
Proof.
  destruct (titleLength_head n) as [r ->].
  destruct (subKeywordsInTitleCount_head k) as [r' ->]. discriminate.
Qed.

Lemma short_not_long : Msg.titleTooShort <> Msg.titleTooLong.
Proof. apply String.eqb_neq. vm_compute. reflexivity. Qed.

Lemma missing_not_short : Msg.keywordInTitleMissing <> Msg.titleTooShort.
Proof. apply String.eqb_neq. vm_compute. reflexivity. Qed.

Lemma missing_not_long : Msg.keywordInTitleMissing <> Msg.titleTooLong.
Proof. apply String.eqb_neq. vm_compute. reflexivity. Qed.

(** Read a membership in a list that was pushed to. *)
Ltac pushed :=
  repeat match goal with
         | H : In _ (_ ++ _)%list |- _ => apply in_app_or in H; destruct H as [H|H]
         | H : In _ [_] |- _ => destruct H as [H|[]]
         | H : In _ [] |- _ => destruct H
         end.

End TitleFacts.

(** C8.  With [n] the length of a non-empty title: for [n] from 40 to 70,
    both ends included, the title rule pushes the good point that
    reports [n] and neither of the two length warnings; for [n] below 40
    it pushes the too-short warning, for [n] above 70 the too-long
    warning, and in both cases not the good point.  So 40 and 70 are
    good, 39 is too short and 71 is too long. *)
Theorem title_length_boundaries (this : SeoAnalyzer) :
  let n := String.length (title (content this)) in
  let after := assignMessagesForTitle this in
  let w := warnings (messages this) in
  let g := goodPoints (messages this) in
  let w' := warnings (messages after) in
  let g' := goodPoints (messages after) in
  ((40 <= n <= 70)%nat ->
   In (Msg.titleLength n) g' /\
   (In Msg.titleTooShort w' -> In Msg.titleTooShort w) /\
   (In Msg.titleTooLong w' -> In Msg.titleTooLong w)) /\
  ((1 <= n < 40)%nat ->
   In Msg.titleTooShort w' /\
   (In (Msg.titleLength n) g' -> In (Msg.titleLength n) g) /\
   (In Msg.titleTooLong w' -> In Msg.titleTooLong w)) /\
  ((70 < n)%nat ->
   In Msg.titleTooLong w' /\
   (In (Msg.titleLength n) g' -> In (Msg.titleLength n) g) /\
   (In Msg.titleTooShort w' -> In Msg.titleTooShort w)).
Proof.
  cbv zeta. unfold assignMessagesForTitle. cbv zeta.
  unfold MAXIMUM_TITLE_LENGTH, MINIMUM_TITLE_LENGTH.
  cbn [content Push.warning Push.goodPoint Push.minorWarning Push.withMessages].
  set (n := String.length (title (content this))).
  assert (Hn : title (content this) = "" -> n = 0%nat).
  { intros E. unfold n. now rewrite E. }
  destruct (title (content this)) as [|a ttl] eqn:Htitle.
  { specialize (Hn eq_refl). split; [|split]; intros; lia. }
  clear Hn. cbn [JsString.truthy].
  split; [|split]; intros Hrange;
    destruct (Nat.ltb_spec 70 n); try lia;
    destruct (Nat.ltb_spec n 40); try lia;
    match goal with
    | |- context [if JsNumber.truthy ?d then _ else _] =>
        destruct (JsNumber.truthy d)
    end;
    cbn [content Push.warning Push.goodPoint Push.minorWarning Push.withMessages];
    rewrite Htitle; cbn [JsString.truthy];
    match goal with
    | |- context [if (0 <? ?k)%nat then _ else _] => destruct (0 <? k)%nat
    end;
    cbn [messages warnings goodPoints minorWarnings
         Push.warning Push.goodPoint Push.minorWarning Push.withMessages];
    (split; [|split]);
    try (rewrite ?in_app_iff; cbn [In]; now intuition);
    intros Hin; TitleFacts.pushed; try assumption; exfalso;
    first [ now apply (TitleFacts.titleLength_not_density _ _ Hin)
          | now apply (TitleFacts.titleLength_not_count _ _ Hin)
          | now apply (TitleFacts.short_not_long Hin)
          | now apply (TitleFacts.short_not_long (eq_sym Hin))
          | now apply (TitleFacts.missing_not_short Hin)
          | now apply (TitleFacts.missing_not_long Hin) ].
Qed.

(** The four lengths of the claim. *)
Lemma title_length_boundaries_witness :
  In (Msg.titleLength 40)
     (goodPoints (messages (assignMessagesForTitle (Sample.titled 40)))) /\
  In (Msg.titleLength 70)
     (goodPoints (messages (assignMessagesForTitle (Sample.titled 70)))) /\
  In Msg.titleTooShort
     (warnings (messages (assignMessagesForTitle (Sample.titled 39)))) /\
  In Msg.titleTooLong
     (warnings (messages (assignMessagesForTitle (Sample.titled 71)))).
Proof.
  split; [|split; [|split]].
  - apply (proj1 (title_length_boundaries (Sample.titled 40))).
    vm_compute. split; apply Nat.leb_le; reflexivity.
  - apply (proj1 (title_length_boundaries (Sample.titled 70))).
    vm_compute. split; apply Nat.leb_le; reflexivity.
  - apply (proj1 (proj2 (title_length_boundaries (Sample.titled 39)))).
    vm_compute. split; apply Nat.leb_le; reflexivity.
  - apply (proj2 (proj2 (title_length_boundaries (Sample.titled 71)))).
    vm_compute. apply Nat.leb_le; reflexivity.
Defined.

(* ================================================================== *)
(** ** The link rules *)

(** C9.  With [wordCount] the word count of the whole document, [i] and
    [e] the lengths of the unique lists of the analyzer's internal and
    outbound links (which is what the two count accessors return): the
    link rules push as warnings the internal shortage (with [i]) when
    [i < wordCount / 300] and the outbound shortage when
    [e < wordCount / 400], in this order and nothing else; as good points
    the internal count when [i < wordCount / 300] fails, then the two
    messages about duplicates.  No good point answers a sufficient number
    of outbound links. *)
Theorem link_rules (this : SeoAnalyzer) :
  let wordCount := JsNumber.ofNat (getWordCount (htmlAnalyzer this) None) in
  let i := List.length (unique (getInternalLinks (htmlAnalyzer this))) in
  let e := List.length (unique (getOutboundLinks (htmlAnalyzer this))) in
  let fewInternal := JsNumber.ltb (JsNumber.ofNat i) (JsNumber.div wordCount (JsNumber.ofZ 300)) in
  let fewOutbound := JsNumber.ltb (JsNumber.ofNat e) (JsNumber.div wordCount (JsNumber.ofZ 400)) in
  let di := List.length (duplicate (getInternalLinks (htmlAnalyzer this))) in
  let de := List.length (duplicate (getOutboundLinks (htmlAnalyzer this))) in
  let after := assignMessagesForLinks this in
  totalUniqueInternalLinksCount this = i /\
  totalUniqueExternalLinksCount this = e /\
  warnings (messages after)
  = (warnings (messages this)
       ++ (if fewInternal then [Msg.internalLinksFew i] else [])
       ++ (if fewOutbound then [Msg.externalLinksFew e] else []))%list /\
  goodPoints (messages after)
  = (goodPoints (messages this)
       ++ (if fewInternal then [] else [Msg.internalLinksGood i])
       ++ (if (1 <? di)%nat then [] else [Msg.noInternalDuplicates])
       ++ (if (1 <? de)%nat then [] else [Msg.noExternalDuplicates]))%list /\
  minorWarnings (messages after)
  = (minorWarnings (messages this)
       ++ (if (1 <? di)%nat then [Msg.internalDuplicates di] else [])
       ++ (if (1 <? de)%nat then [Msg.externalDuplicates de] else []))%list.
Proof.
  cbv zeta. unfold assignMessagesForLinks. cbv zeta.
  unfold totalUniqueInternalLinksCount, totalUniqueExternalLinksCount.
  split; [reflexivity|]. split; [reflexivity|].
  destruct (JsNumber.ltb
              (JsNumber.ofNat (List.length (unique (getInternalLinks (htmlAnalyzer this)))))
              _);
    cbn [htmlAnalyzer Push.warning Push.goodPoint Push.minorWarning Push.withMessages];
    destruct (JsNumber.ltb
                (JsNumber.ofNat (List.length (unique (getOutboundLinks (htmlAnalyzer this)))))
                _);
    cbn [htmlAnalyzer Push.warning Push.goodPoint Push.minorWarning Push.withMessages];
    destruct (1 <? List.length (duplicate (getInternalLinks (htmlAnalyzer this))))%nat;
    cbn [htmlAnalyzer Push.warning Push.goodPoint Push.minorWarning Push.withMessages];
    destruct (1 <? List.length (duplicate (getOutboundLinks (htmlAnalyzer this))))%nat;
    cbn [htmlAnalyzer messages warnings goodPoints minorWarnings
         Push.warning Push.goodPoint Push.minorWarning Push.withMessages];
    rewrite <- ?app_assoc, ?app_nil_r; cbn [app]; rewrite ?app_nil_r;
    repeat split.
Qed.

(** A document of 500 words with one internal and one outbound link is
    short of both; the sample article, thirteen words with two internal
    links and one outbound link, is short of neither and gets a good
    point for the internal links only. *)
Lemma link_rules_witness :
  warnings (messages (assignMessagesForLinks Cases.longRead))
  = [ "Số lượng liên kết nội bộ không đủ. Bạn chỉ có 1 liên kết nội bộ duy nhất, hãy tăng số lượng lên.";
      "Số lượng liên kết bên ngoài không đủ. Bạn chỉ có 1, hãy tăng số lượng lên." ] /\
  warnings (messages (assignMessagesForLinks (Cases.article "Hello world"))) = [] /\
  goodPoints (messages (assignMessagesForLinks (Cases.article "Hello world")))
  = [ "Bạn có 2 liên kết nội bộ.";
      "Không có liên kết nội bộ trùng lặp.";
      "Không có liên kết bên ngoài trùng lặp." ].
Proof.
  destruct (link_rules Cases.longRead) as (_ & _ & Hw & _).
  destruct (link_rules (Cases.article "Hello world")) as (_ & _ & Hw' & Hg & _).
  split; [|split].
  - rewrite Hw. vm_compute. reflexivity.
  - rewrite Hw'. vm_compute. reflexivity.
  - rewrite Hg. vm_compute. reflexivity.
Defined.

(* ================================================================== *)
(** ** Occurrences and the count *)

Module OccurrenceFacts.
Import JsString Occurrence.
Local Open Scope nat_scope.

Lemma length_append (a b : string) :
  String.length (a ++ b) = String.length a + String.length b.
Proof. induction a as [|c a IH]; simpl; [reflexivity | now rewrite IH]. Qed.

Lemma prefix_append (a b : string) : prefix a (a ++ b) = true.
Proof.
  induction a as [|c a IH]; simpl.
  - destruct b; reflexivity.
  - destruct (ascii_dec c c) as [_|N]; [exact IH | now destruct N].
Qed.

Lemma prefix_true_append (a : string) :
  forall b, prefix a b = true -> exists post, b = a ++ post.
Proof.
  induction a as [|c a IH]; intros b H.
  - exists b. reflexivity.
  - destruct b as [|d b]; [discriminate|]. cbn [prefix] in H.
    destruct (ascii_dec c d) as [->|]; [|discriminate].
    destruct (IH b H) as [post ->]. exists post. reflexivity.
Qed.

Lemma prefix_true_length (a b : string) :
  prefix a b = true -> String.length a <= String.length b.
Proof.
  intros H. destruct (prefix_true_append a b H) as [post ->].
  rewrite length_append. lia.
Qed.

(** [indexOf] finds an occurrence exactly when there is one. *)
Lemma indexOf_occurs (kw txt : string) :
  indexOf kw txt <> None <-> occursIn kw txt.
Proof.
  split.
  - induction txt as [|c txt IH]; cbn [indexOf]; intros H.
    + destruct (prefix kw "") eqn:Hp; [|now destruct H].
      destruct (prefix_true_append _ _ Hp) as [post E].
      exists "", post. exact E.
    + destruct (prefix kw (String c txt)) eqn:Hp.
      * destruct (prefix_true_append _ _ Hp) as [post E].
        exists "", post. exact E.
      * destruct (indexOf kw txt) as [i|]; [|now destruct H].
        destruct IH as (pre & post & E); [discriminate|].
        exists (String c pre), post. simpl. now rewrite E.
  - intros (pre & post & ->). induction pre as [|c pre IH].
    + cbn [append]. destruct (kw ++ post) eqn:E; cbn [indexOf];
        rewrite <- ?E, prefix_append; discriminate.
    + cbn [append indexOf].
      destruct (prefix kw (String c (pre ++ kw ++ post))); [discriminate|].
      destruct (indexOf kw (pre ++ kw ++ post)); [discriminate | now destruct IH].
Qed.

(** One piece exactly when the separator does not occur. *)
Lemma splitFrom_single (sep : string) :
  truthy sep = true ->
  forall s cur,
    List.length (splitFrom sep 0 cur s) = 1 <-> indexOf sep s = None.
Proof.
  intros Hsep s. induction s as [|c s IH]; intros cur.
  - cbn [splitFrom indexOf]. rewrite (SplitFacts.prefix_empty_string _ Hsep).
    split; reflexivity.
  - cbn [splitFrom indexOf]. destruct (prefix sep (String c s)).
    + cbn [List.length].
      pose proof (SplitFacts.splitFrom_length sep s (String.length sep - 1) "").
      split; [lia | discriminate].
    + rewrite IH. destruct (indexOf sep s); split; intros; try discriminate;
        reflexivity.
  Qed.

(** The pieces and the separators between them take up the text. *)
Lemma splitFrom_piecesLength (sep : string) :
  truthy sep = true ->
  forall s skip cur,
    skip <= String.length s ->
    piecesLength sep (splitFrom sep skip cur s) + skip
    = String.length cur + String.length s.
Proof.
  intros Hsep.
  assert (Hpos : 1 <= String.length sep) by (destruct sep; [discriminate | simpl; lia]).
  unfold piecesLength.
  induction s as [|c s IH]; intros skip cur Hskip.
  - simpl in *. lia.
  - cbn [splitFrom]. destruct skip as [|k].
    + destruct (prefix sep (String c s)) eqn:Hp.
      * pose proof (prefix_true_length _ _ Hp) as Hl. cbn [String.length] in Hl.
        pose proof (SplitFacts.splitFrom_length sep s (String.length sep - 1) "") as Hne.
        specialize (IH (String.length sep - 1) "" ltac:(lia)).
        destruct (splitFrom sep (String.length sep - 1) "" s) as [|p rest];
          [cbn [List.length] in Hne; lia|].
        cbn [map list_sum fold_right List.length String.length] in *.
        replace (S (S (List.length rest)) - 1) with (S (List.length rest)) by lia.
        replace (S (List.length rest) - 1) with (List.length rest) in IH by lia.
        rewrite Nat.mul_succ_r. lia.
      * specialize (IH 0 (cur ++ String c "") ltac:(lia)).
        rewrite length_append in IH. cbn [String.length] in *. lia.
    + cbn [String.length] in *. specialize (IH k cur ltac:(lia)). lia.
Qed.

Lemma split_piecesLength (sep s : string) :
  truthy sep = true -> piecesLength sep (split sep s) = String.length s.
Proof.
  intros Hsep.
  pose proof (splitFrom_piecesLength sep Hsep s 0 "" ltac:(lia)) as H.
  destruct sep; [discriminate|]. cbn [split]. simpl in H. lia.
Qed.

(** The count is positive exactly when the keyword occurs. *)
Lemma count_positive (this : SeoAnalyzer) (kw txt : string) :
  kw <> "" ->
  (0 < countOccurrencesInString this (Some kw) (Some txt))%Z <-> occursIn kw txt.
Proof.
  intros Hk. pose proof (truthy_nonempty _ Hk) as Ht.
  rewrite <- indexOf_occurs.
  unfold countOccurrencesInString, splitNullable.
  cbn [nullish toStringNullable].
  pose proof (SplitFacts.split_length_pos kw txt Ht) as Hlen.
  assert (Hone : List.length (split kw txt) = 1 <-> indexOf kw txt = None).
  { destruct kw; [discriminate|]. apply (splitFrom_single _ Ht). }
  split.
  - intros Hpos Hnone. apply Hone in Hnone. lia.
  - intros Hsome.
    assert (List.length (split kw txt) <> 1) by (intros E; apply Hsome, Hone, E).
    lia.
Qed.

(** The count is not negative and the occurrences fit in the text. *)
Lemma count_fits (this : SeoAnalyzer) (kw txt : string) :
  kw <> "" ->
  (0 <= countOccurrencesInString this (Some kw) (Some txt))%Z /\
  (countOccurrencesInString this (Some kw) (Some txt) * Z.of_nat (String.length kw)
   <= Z.of_nat (String.length txt))%Z.
Proof.
  intros Hk. pose proof (truthy_nonempty _ Hk) as Ht.
  unfold countOccurrencesInString, splitNullable.
  cbn [nullish toStringNullable].
  pose proof (SplitFacts.split_length_pos kw txt Ht) as Hlen.
  pose proof (split_piecesLength kw txt Ht) as Hp. unfold piecesLength in Hp.
  split; [lia|]. nia.
Qed.

End OccurrenceFacts.

(* ================================================================== *)
(** ** Densities and the keyword rule *)

Module DensityFacts.
Import JsNumber.

Lemma extends_warnings (a b : SeoAnalyzer) (msg : string) :
  extends a b -> In msg (warnings (messages a)) -> In msg (warnings (messages b)).
Proof.
  intros [_ (dw & dm & dg & -> & _ & _)] H. apply in_or_app. now left.
Qed.

Lemma extends_minorWarnings (a b : SeoAnalyzer) (msg : string) :
  extends a b ->
  In msg (minorWarnings (messages a)) -> In msg (minorWarnings (messages b)).
Proof.
  intros [_ (dw & dm & dg & _ & -> & _)] H. apply in_or_app. now left.
Qed.

Lemma extends_goodPoints (a b : SeoAnalyzer) (msg : string) :
  extends a b -> In msg (goodPoints (messages a)) -> In msg (goodPoints (messages b)).
Proof.
  intros [_ (dw & dm & dg & _ & _ & ->)] H. apply in_or_app. now left.
Qed.

(** The density over a positive word count. *)
Lemma density_value (this : SeoAnalyzer) (kw : option string) (body : string) :
  (0 < getWordCount (htmlAnalyzer this) (Some body))%nat ->
  calculateDensity this kw (Some body)
  = Fin (inject_Z (countOccurrencesInString this kw (Some body))
         / inject_Z (Z.of_nat (getWordCount (htmlAnalyzer this) (Some body)))
         * inject_Z 100).
Proof.
  intros Hw. unfold calculateDensity, ofNat, ofZ. cbn [div].
  rewrite (NumberFacts.sgn_pos _ (NumberFacts.inject_nat_pos _ Hw)).
  reflexivity.
Qed.

(** A quotient of a count by a positive word count, times 100. *)
Lemma scaled_sign (n : Z) (w : nat) :
  (0 < w)%nat -> (0 <= n)%Z ->
  let q := (inject_Z n / inject_Z (Z.of_nat w) * inject_Z 100)%Q in
  (0 <= q)%Q /\ ((0 < q)%Q <-> (0 < n)%Z) /\
  (q * inject_Z (Z.of_nat w) == inject_Z n * 100)%Q.
Proof.
  intros Hw Hn q.
  pose proof (NumberFacts.inject_nat_pos w Hw) as Hp.
  assert (Hn' : (0 <= inject_Z n)%Q).
  { change 0%Q with (inject_Z 0). now rewrite <- Zle_Qle. }
  assert (Hq : (q * inject_Z (Z.of_nat w) == inject_Z n * 100)%Q).
  { unfold q. change (inject_Z 100) with 100%Q. field. lra. }
  assert (H0 : (0 <= inject_Z n / inject_Z (Z.of_nat w))%Q).
  { apply Qle_shift_div_l; [exact Hp | lra]. }
  split; [unfold q; change (inject_Z 100) with 100%Q; lra|]. split; [|exact Hq].
  split.
  - intros Hpos.
    assert (0 < inject_Z n)%Q by nra.
    change 0%Q with (inject_Z 0) in H. now rewrite <- Zlt_Qlt in H.
  - intros Hpos.
    assert (0 < inject_Z n)%Q.
    { change 0%Q with (inject_Z 0). now rewrite <- Zlt_Qlt. }
    nra.
Qed.

Lemma truthy_positive (q : Q) : (0 <= q)%Q -> (truthy (Fin q) = true <-> (0 < q)%Q).
Proof.
  intros Hq. unfold truthy, sgn. destruct (q ?= 0)%Q eqn:Hc.
  - apply Qeq_alt in Hc. split; [discriminate | lra].
  - apply Qlt_alt in Hc. lra.
  - apply Qgt_alt in Hc. split; [intros _; exact Hc | reflexivity].
Qed.

Lemma ltb_Fin (p q : Q) : ltb (Fin p) (Fin q) = true <-> (p < q)%Q.
Proof.
  cbn [ltb]. destruct (p ?= q)%Q eqn:Hc.
  - apply Qeq_alt in Hc. split; [discriminate | lra].
  - apply Qlt_alt in Hc. split; [intros _; exact Hc | reflexivity].
  - apply Qgt_alt in Hc. split; [discriminate | lra].
Qed.

Lemma ltb_Fin_false (p q : Q) : ltb (Fin p) (Fin q) = false <-> (q <= p)%Q.
Proof.
  pose proof (ltb_Fin p q) as H. destruct (ltb (Fin p) (Fin q)).
  - split; [discriminate|]. intros Hle. apply H in Hle as Hlt || idtac.
    assert (p < q)%Q by now apply H. lra.
  - split; [|reflexivity]. intros _.
    destruct (Qlt_le_dec p q) as [Hlt|Hle]; [|exact Hle].
    apply H in Hlt. discriminate.
Qed.

End DensityFacts.

(* ================================================================== *)
(** ** Further properties: counting and density *)

(** X1.  For a keyword that is not empty, the occurrence count is positive
    exactly when the keyword occurs in the text as a run of consecutive
    code units (inside a longer word or not). *)
Theorem count_positive_iff_occurs (this : SeoAnalyzer) (kw txt : string) :
  kw <> "" ->
  ((0 < countOccurrencesInString this (Some kw) (Some txt))%Z <-> occursIn kw txt).
Proof. exact (OccurrenceFacts.count_positive this kw txt). Qed.

(** The keyword inside a longer word. *)
Lemma count_positive_iff_occurs_witness :
  (0 < countOccurrencesInString (Cases.onBody None "") (Some "seo")
         (Some "best seobility tool"))%Z.
Proof.
  apply (proj2 (count_positive_iff_occurs (Cases.onBody None "") "seo"
                  "best seobility tool" ltac:(discriminate))).
  exists "best ", "bility tool". reflexivity.
Defined.

(** X2.  For a keyword that is not empty, the occurrence count is never
    negative, and the counted occurrences do not overlap: the count times
    the length of the keyword is at most the length of the text. *)
Theorem count_fits_in_text (this : SeoAnalyzer) (kw txt : string) :
  kw <> "" ->
  (0 <= countOccurrencesInString this (Some kw) (Some txt))%Z /\
  (countOccurrencesInString this (Some kw) (Some txt) * Z.of_nat (String.length kw)
   <= Z.of_nat (String.length txt))%Z.
Proof. exact (OccurrenceFacts.count_fits this kw txt). Qed.

(** Five letters hold two occurrences of a keyword of two letters. *)
Lemma count_fits_in_text_witness :
  countOccurrencesInString (Cases.onBody None "") (Some "aa") (Some "aaaaa") = 2%Z /\
  (countOccurrencesInString (Cases.onBody None "") (Some "aa") (Some "aaaaa")
   * Z.of_nat (String.length "aa") <= Z.of_nat (String.length "aaaaa"))%Z.
Proof.
  split; [reflexivity|].
  apply (count_fits_in_text (Cases.onBody None "") "aa" "aaaaa"). discriminate.
Defined.

(** X3.  Over a text in which the analyzer counts at least one word, the
    density of a keyword that is not empty is a finite number that is not
    negative; it is zero exactly when the keyword does not occur in the
    text and truthy exactly when it occurs. *)
Theorem density_reads_occurrences (this : SeoAnalyzer) (kw txt : string) :
  kw <> "" ->
  (0 < getWordCount (htmlAnalyzer this) (Some txt))%nat ->
  (exists q : Q,
      calculateDensity this (Some kw) (Some txt) = Fin q /\
      (0 <= q)%Q /\
      ((q == 0)%Q <-> ~ occursIn kw txt)) /\
  (JsNumber.truthy (calculateDensity this (Some kw) (Some txt)) = true
   <-> occursIn kw txt).
Proof.
  intros Hk Hw.
  destruct (OccurrenceFacts.count_fits this kw txt Hk) as [Hn _].
  destruct (DensityFacts.scaled_sign _ _ Hw Hn) as (H0 & Hpos & _).
  pose proof (OccurrenceFacts.count_positive this kw txt Hk) as Hocc.
  rewrite (DensityFacts.density_value this (Some kw) txt Hw). split.
  - eexists. split; [reflexivity|]. split; [exact H0|].
    rewrite <- Hocc, <- Hpos. split; intros H; lra.
  - rewrite (DensityFacts.truthy_positive _ H0), Hpos. exact Hocc.
Qed.

(** One occurrence in a body of one hundred words. *)
Lemma density_reads_occurrences_witness :
  JsNumber.truthy
    (calculateDensity (Cases.onBody (Some "seo") (Cases.bodyOf 1 100)) (Some "seo")
       (Some (Cases.bodyOf 1 100)))
  = true.
Proof.
  assert (Hw : (0 < getWordCount
                     (htmlAnalyzer (Cases.onBody (Some "seo") (Cases.bodyOf 1 100)))
                     (Some (Cases.bodyOf 1 100)))%nat).
  { vm_compute. apply Nat.leb_le. reflexivity. }
  destruct (density_reads_occurrences (Cases.onBody (Some "seo") (Cases.bodyOf 1 100))
              "seo" (Cases.bodyOf 1 100) ltac:(discriminate) Hw) as [_ H].
  apply H. exists "", (concat "" (List.repeat " w" 99)). vm_compute. reflexivity.
Defined.

(* ================================================================== *)
(** ** Loops over headings and sub-keywords *)

Module FoldFacts.
Local Open Scope nat_scope.

Lemma total_warning (msg : string) (t : SeoAnalyzer) :
  totalMessages (Push.warning msg t) = S (totalMessages t).
Proof. unfold totalMessages. simpl. rewrite length_app. simpl. lia. Qed.

Lemma total_minorWarning (msg : string) (t : SeoAnalyzer) :
  totalMessages (Push.minorWarning msg t) = S (totalMessages t).
Proof. unfold totalMessages. simpl. rewrite length_app. simpl. lia. Qed.

Lemma total_goodPoint (msg : string) (t : SeoAnalyzer) :
  totalMessages (Push.goodPoint msg t) = S (totalMessages t).
Proof. unfold totalMessages. simpl. rewrite length_app. simpl. lia. Qed.

Lemma sameObject_sym (a b : SeoAnalyzer) : sameObject a b -> sameObject b a.
Proof. intros (H1 & H2 & H3 & H4 & H5). repeat split; congruence. Qed.

Section Loop.
Context {A : Type}.
Variable f : SeoAnalyzer -> A -> SeoAnalyzer.
Variable origin : SeoAnalyzer.
Hypothesis f_extends : forall t x, extends t (f t x).

Lemma loop_extends (l : list A) (a : SeoAnalyzer) : extends a (fold_left f l a).
Proof.
  apply Frame.fold_left_extends; [exact f_extends | apply Frame.extends_refl].
Qed.

(** Each round adds [k] messages. *)
Lemma loop_total (k : nat) :
  (forall t x, sameObject origin t -> totalMessages (f t x) = totalMessages t + k) ->
  forall l a, sameObject origin a ->
    totalMessages (fold_left f l a) = totalMessages a + k * List.length l.
Proof.
  intros Hk l. induction l as [|x l IH]; intros a Ha; cbn [fold_left List.length].
  - lia.
  - rewrite IH, (Hk a x Ha); [lia|].
    eapply Frame.sameObject_trans; [exact Ha | apply f_extends].
Qed.

(** No round touches the warnings. *)
Lemma loop_warnings :
  (forall t x, warnings (messages (f t x)) = warnings (messages t)) ->
  forall l a, warnings (messages (fold_left f l a)) = warnings (messages a).
Proof.
  intros Hw l. induction l as [|x l IH]; intros a; cbn [fold_left].
  - reflexivity.
  - now rewrite IH, Hw.
Qed.

(** What the round of [x] establishes is still there at the end. *)
Lemma loop_each (Q : A -> SeoAnalyzer -> Prop) :
  (forall x a b, extends a b -> Q x a -> Q x b) ->
  (forall t x, sameObject origin t -> Q x (f t x)) ->
  forall l a, sameObject origin a ->
    forall x, In x l -> Q x (fold_left f l a).
Proof.
  intros Hmono Hstep l. induction l as [|y l IH]; intros a Ha x Hin.
  - destruct Hin.
  - cbn [fold_left]. destruct Hin as [->|Hin].
    + eapply Hmono; [apply loop_extends | apply Hstep, Ha].
    + apply IH; [|exact Hin].
      eapply Frame.sameObject_trans; [exact Ha | apply f_extends].
Qed.
End Loop.

(** The round of one heading in [assignMessagesForKeywordInHeadings]. *)
Lemma keyword_round_extends (t : SeoAnalyzer) (heading : Heading) :
  extends t
    (if (0 <? countOccurrencesInString t (keyword (content t)) (Some (text heading)))%Z
     then Push.goodPoint (Msg.keywordInHeading (keyword (content t)) heading) t
     else Push.minorWarning (Msg.keywordNotInHeading (keyword (content t)) heading) t).
Proof. Frame.peel. Qed.

(** The round of one sub-keyword for one heading. *)
Lemma sub_keyword_round_extends (heading : Heading) (t : SeoAnalyzer) (subKeyword : string) :
  extends t
    (if (0 <? countOccurrencesInString t (Some subKeyword) (Some (text heading)))%Z
     then Push.goodPoint (Msg.subKeywordInHeading subKeyword heading) t
     else Push.minorWarning (Msg.subKeywordNotInHeading subKeyword heading) t).
Proof. Frame.peel. Qed.

End FoldFacts.

(* ================================================================== *)
(** ** Further properties: keywords in headings *)

(** X5.  For a keyword that is not empty, the rule for the keyword in
    headings pushes exactly one message for each heading of the working
    list and never a warning: a good point that names the tag and the
    text when the keyword occurs in the text of the heading, a minor
    warning when it does not. *)
Theorem keyword_in_headings_rule (this : SeoAnalyzer) (kw : string) :
  keyword (content this) = Some kw -> kw <> "" ->
  let after := assignMessagesForKeywordInHeadings this in
  warnings (messages after) = warnings (messages this) /\
  totalMessages after = (totalMessages this + List.length (headings this))%nat /\
  forall heading : Heading,
    In heading (headings this) ->
    (occursIn kw (text heading) ->
     In (Msg.keywordInHeading (Some kw) heading) (goodPoints (messages after))) /\
    (~ occursIn kw (text heading) ->
     In (Msg.keywordNotInHeading (Some kw) heading) (minorWarnings (messages after))).
Proof.
  intros Hk Hne. cbv zeta. unfold assignMessagesForKeywordInHeadings.
  split; [|split].
  - apply FoldFacts.loop_warnings. intros t x. cbv zeta.
    destruct (0 <? _)%Z; reflexivity.
  - rewrite (FoldFacts.loop_total _ this
               (fun t x => FoldFacts.keyword_round_extends t x) 1%nat).
    + lia.
    + intros t x _. cbv zeta. destruct (0 <? _)%Z.
      * rewrite FoldFacts.total_goodPoint. lia.
      * rewrite FoldFacts.total_minorWarning. lia.
    + apply Frame.sameObject_refl.
  - apply (FoldFacts.loop_each _ this
             (fun t x => FoldFacts.keyword_round_extends t x)
             (fun heading t =>
                (occursIn kw (text heading) ->
                 In (Msg.keywordInHeading (Some kw) heading) (goodPoints (messages t))) /\
                (~ occursIn kw (text heading) ->
                 In (Msg.keywordNotInHeading (Some kw) heading)
                    (minorWarnings (messages t))))).
    + intros x a b Hab [H1 H2]. split; intros Ho.
      * eapply DensityFacts.extends_goodPoints; [exact Hab | exact (H1 Ho)].
      * eapply DensityFacts.extends_minorWarnings; [exact Hab | exact (H2 Ho)].
    + intros t x (Hc & _). cbv zeta. rewrite <- Hc, Hk.
      pose proof (OccurrenceFacts.count_positive t kw (text x) Hne) as Hiff.
      destruct (0 <? _)%Z eqn:Hpos.
      * apply Z.ltb_lt in Hpos. split; intros Ho.
        -- simpl. apply in_or_app. right. left. reflexivity.
        -- now destruct Ho; apply Hiff.
      * apply Z.ltb_ge in Hpos. split; intros Ho.
        -- apply Hiff in Ho. lia.
        -- simpl. apply in_or_app. right. left. reflexivity.
    + apply Frame.sameObject_refl.
Qed.

(** The sample article: the keyword is in the first heading only. *)
Lemma keyword_in_headings_rule_witness :
  In (Msg.keywordInHeading (Some "seo") {| tag := "h1"; text := "seo tips" |})
     (goodPoints
        (messages (assignMessagesForKeywordInHeadings (Cases.article "Hello world")))).
Proof.
  destruct (keyword_in_headings_rule (Cases.article "Hello world")
              "seo" eq_refl ltac:(discriminate))
    as (_ & _ & H).
  assert (Hin : In {| tag := "h1"; text := "seo tips" |}
                   (headings (Cases.article "Hello world"))).
  { left. reflexivity. }
  destruct (H _ Hin) as [Hyes _].
  apply Hyes. exists "", " tips". reflexivity.
Defined.

(** X6.  The rule for the sub-keywords in headings pushes exactly one
    message for each pair of a heading and a sub-keyword, so the number of
    its messages is the product of the two lengths, and never a warning.
    For a sub-keyword that is not empty the message is a good point when
    it occurs in the text of the heading and a minor warning when it does
    not. *)
Theorem sub_keywords_in_headings_rule (this : SeoAnalyzer) :
  let after := assignMessagesForSubKeywordsInHeadings this in
  warnings (messages after) = warnings (messages this) /\
  totalMessages after
  = (totalMessages this
     + List.length (subKeywords (content this)) * List.length (headings this))%nat /\
  forall (heading : Heading) (subKeyword : string),
    In heading (headings this) ->
    In subKeyword (subKeywords (content this)) ->
    subKeyword <> "" ->
    (occursIn subKeyword (text heading) ->
     In (Msg.subKeywordInHeading subKeyword heading) (goodPoints (messages after))) /\
    (~ occursIn subKeyword (text heading) ->
     In (Msg.subKeywordNotInHeading subKeyword heading)
        (minorWarnings (messages after))).
Proof.
  cbv zeta. unfold assignMessagesForSubKeywordsInHeadings.
  assert (Hround : forall t heading,
             extends t
               (fold_left
                  (fun this0 subKeyword =>
                     let subKeywordInHeading :=
                       countOccurrencesInString this0 (Some subKeyword)
                         (Some (text heading)) in
                     if (0 <? subKeywordInHeading)%Z
                     then Push.goodPoint (Msg.subKeywordInHeading subKeyword heading) this0
                     else Push.minorWarning
                            (Msg.subKeywordNotInHeading subKeyword heading) this0)
                  (subKeywords (content t)) t)).
  { intros t heading. apply FoldFacts.loop_extends.
    intros t' x. apply FoldFacts.sub_keyword_round_extends. }
  split; [|split].
  - apply FoldFacts.loop_warnings. intros t heading.
    apply FoldFacts.loop_warnings. intros t' x. cbv zeta.
    destruct (0 <? _)%Z; reflexivity.
  - rewrite (FoldFacts.loop_total _ this Hround
               (List.length (subKeywords (content this)))).
    + reflexivity.
    + intros t heading (Hc & _).
      rewrite (FoldFacts.loop_total _ t
                 (fun t' x => FoldFacts.sub_keyword_round_extends heading t' x) 1%nat).
      * rewrite Hc. lia.
      * intros t' x _. cbv zeta. destruct (0 <? _)%Z.
        -- rewrite FoldFacts.total_goodPoint. lia.
        -- rewrite FoldFacts.total_minorWarning. lia.
      * apply Frame.sameObject_refl.
    + apply Frame.sameObject_refl.
  - intros heading subKeyword Hh Hs Hne. revert subKeyword Hs Hne.
    apply (FoldFacts.loop_each _ this Hround
             (fun heading t =>
                forall subKeyword,
                  In subKeyword (subKeywords (content this)) ->
                  subKeyword <> "" ->
                  (occursIn subKeyword (text heading) ->
                   In (Msg.subKeywordInHeading subKeyword heading)
                      (goodPoints (messages t))) /\
                  (~ occursIn subKeyword (text heading) ->
                   In (Msg.subKeywordNotInHeading subKeyword heading)
                      (minorWarnings (messages t))))); [| |apply Frame.sameObject_refl|exact Hh].
    + intros x a b Hab H subKeyword Hs Hne.
      destruct (H subKeyword Hs Hne) as [H1 H2]. split; intros Ho.
      * eapply DensityFacts.extends_goodPoints; [exact Hab | exact (H1 Ho)].
      * eapply DensityFacts.extends_minorWarnings; [exact Hab | exact (H2 Ho)].
    + intros t x (Hc & _) subKeyword Hs Hne. rewrite <- Hc.
      revert Hne.
      apply (FoldFacts.loop_each _ t
               (fun t' sk => FoldFacts.sub_keyword_round_extends x t' sk)
               (fun subKeyword t' =>
                  subKeyword <> "" ->
                  (occursIn subKeyword (text x) ->
                   In (Msg.subKeywordInHeading subKeyword x) (goodPoints (messages t'))) /\
                  (~ occursIn subKeyword (text x) ->
                   In (Msg.subKeywordNotInHeading subKeyword x)
                      (minorWarnings (messages t'))))); [| |apply Frame.sameObject_refl|exact Hs].
      * intros sk a b Hab H Hne. destruct (H Hne) as [H1 H2]. split; intros Ho.
        -- eapply DensityFacts.extends_goodPoints; [exact Hab | exact (H1 Ho)].
        -- eapply DensityFacts.extends_minorWarnings; [exact Hab | exact (H2 Ho)].
      * intros t' sk _ Hne. cbv zeta.
        pose proof (OccurrenceFacts.count_positive t' sk (text x) Hne) as Hiff.
        destruct (0 <? _)%Z eqn:Hpos.
        -- apply Z.ltb_lt in Hpos. split; intros Ho.
           ++ simpl. apply in_or_app. right. left. reflexivity.
           ++ now destruct Ho; apply Hiff.
        -- apply Z.ltb_ge in Hpos. split; intros Ho.
           ++ apply Hiff in Ho. lia.
           ++ simpl. apply in_or_app. right. left. reflexivity.
Qed.

(** Three headings and two sub-keywords: six messages, one of them good. *)
Lemma sub_keywords_in_headings_rule_witness :
  In (Msg.subKeywordInHeading "tips" {| tag := "h1"; text := "seo tips" |})
     (goodPoints
        (messages (assignMessagesForSubKeywordsInHeadings Cases.withSubKeywords))).
Proof.
  destruct (sub_keywords_in_headings_rule Cases.withSubKeywords) as (_ & _ & H).
  assert (Hh : In {| tag := "h1"; text := "seo tips" |} (headings Cases.withSubKeywords)).
  { left. reflexivity. }
  assert (Hs : In "tips" (subKeywords (content Cases.withSubKeywords))).
  { left. reflexivity. }
  destruct (H _ _ Hh Hs ltac:(discriminate)) as [Hyes _].
  apply Hyes. exists "seo ", "". reflexivity.
Defined.

(* ================================================================== *)
(** ** Further properties: the sub-keyword rule *)

(** [toFixed(2)] of zero, however the zero is written. *)
Lemma toFixed2_zero (q : Q) : (q == 0)%Q -> JsNumber.toFixed2 (Fin q) = "0.00".
Proof.
  intros Hq. unfold JsNumber.toFixed2.
  assert (Hs : JsNumber.sgn q = Eq) by (apply Qeq_alt; exact Hq).
  assert (Hn : Qfloor (Qabs q * 100 + (1 # 2)) = 0%Z).
  { rewrite (Qfloor_comp _ (1 # 2)); [reflexivity|]. rewrite Hq. reflexivity. }
  rewrite Hs, Hn. reflexivity.
Qed.

(** The round of a sub-keyword whose density is zero. *)
Lemma sub_keyword_zero_round (t : SeoAnalyzer) (kd : KeywordDensity) (q : Q) :
  density kd = Fin q -> (q == 0)%Q ->
  In (Msg.subKeywordDensityLow (kd_keyword kd) "quá thấp" (density kd))
     (minorWarnings (messages (subKeywordDensityRule t kd))).
Proof.
  intros Hd Hq. unfold subKeywordDensityRule. cbv zeta.
  unfold JsNumber.gtb, MAXIMUM_SUB_KEYWORD_DENSITY, MINIMUM_SUB_KEYWORD_DENSITY,
    EXTREME_LOW_SUB_KEYWORD_DENSITY.
  rewrite Hd.
  assert (Hhi : JsNumber.ltb (Fin (9 # 10)) (Fin q) = false).
  { apply DensityFacts.ltb_Fin_false. lra. }
  assert (Hlo : JsNumber.ltb (Fin q) (Fin (12 # 100)) = true).
  { apply DensityFacts.ltb_Fin. lra. }
  assert (Hex : JsNumber.ltb (Fin q) (Fin (9 # 100)) = true).
  { apply DensityFacts.ltb_Fin. lra. }
  rewrite Hhi, Hlo, Hex. simpl. apply in_or_app. right. left. reflexivity.
Qed.

(** X7.  The sub-keyword rule pushes one message more than there are
    sub-keywords: with none, the one minor warning that asks for
    sub-keywords and nothing else; otherwise first the good point that
    lists them and then one message for each.  A sub-keyword whose
    density is zero gets the minor warning worded "quá thấp". *)
Theorem sub_keyword_rule_counts (this : SeoAnalyzer) :
  let subs := subKeywords (content this) in
  let after := assignMessagesForSubKeywords this in
  totalMessages after = (totalMessages this + S (List.length subs))%nat /\
  (subs = [] ->
   minorWarnings (messages after)
   = (minorWarnings (messages this) ++ [Msg.subKeywordsMissing])%list /\
   warnings (messages after) = warnings (messages this) /\
   goodPoints (messages after) = goodPoints (messages this)) /\
  (subs <> [] ->
   exists rest : list string,
     goodPoints (messages after)
     = (goodPoints (messages this) ++ Msg.subKeywordsPresent subs :: rest)%list) /\
  (forall (subKeyword : string) (q : Q),
      In subKeyword subs ->
      calculateDensity this (Some subKeyword) None = Fin q ->
      (q == 0)%Q ->
      In (Msg.subKeywordDensityLow (Some subKeyword) "quá thấp"
            (calculateDensity this (Some subKeyword) None))
         (minorWarnings (messages after))).
Proof.
  cbv zeta. unfold assignMessagesForSubKeywords. cbv zeta.
  destruct (subKeywords (content this)) as [|sk subs] eqn:Hsubs.
  - cbn [List.length Nat.ltb Nat.leb]. rewrite FoldFacts.total_minorWarning.
    split; [lia|]. split; [intros _; repeat split|].
    split; [intros H; now destruct H|]. intros sk q [].
  - cbn [List.length Nat.ltb Nat.leb].
    set (start := Push.goodPoint (Msg.subKeywordsPresent (sk :: subs)) this).
    assert (Hstart : sameObject this start) by (repeat split).
    assert (Hlen : List.length (getSubKeywordsDensity start) = S (List.length subs)).
    { unfold getSubKeywordsDensity. rewrite length_map.
      destruct Hstart as (<- & _). now rewrite Hsubs. }
    split; [|split; [intros H; discriminate H|split]].
    + rewrite (FoldFacts.loop_total _ start
                 Frame.subKeywordDensityRule_extends 1%nat).
      * rewrite Hlen. unfold start. rewrite FoldFacts.total_goodPoint. lia.
      * intros t x _. unfold subKeywordDensityRule. cbv zeta.
        destruct (JsNumber.gtb _ _); [|destruct (JsNumber.ltb _ _)];
          rewrite ?FoldFacts.total_warning, ?FoldFacts.total_minorWarning,
            ?FoldFacts.total_goodPoint; lia.
      * apply Frame.sameObject_refl.
    + intros _.
      destruct (FoldFacts.loop_extends _ Frame.subKeywordDensityRule_extends
                  (getSubKeywordsDensity start) start)
        as [_ (dw & dm & dg & _ & _ & Hg)].
      exists dg. rewrite Hg. unfold start. simpl. now rewrite <- app_assoc.
    + intros subKeyword q Hin Hq Hzero.
      assert (Hd : calculateDensity start (Some subKeyword) None
                   = calculateDensity this (Some subKeyword) None) by reflexivity.
      pose (kd := {| kd_keyword := Some subKeyword;
                     density := calculateDensity start (Some subKeyword) None;
                     position := None |}).
      assert (Hkd : In kd (getSubKeywordsDensity start)).
      { unfold getSubKeywordsDensity.
        destruct Hstart as (<- & _). rewrite Hsubs.
        apply (in_map (fun subKeyword0 =>
                         {| kd_keyword := Some subKeyword0;
                            density := calculateDensity start (Some subKeyword0) None;
                            position := None |}) _ _ Hin). }
      rewrite <- Hd in Hq.
      apply (FoldFacts.loop_each _ start Frame.subKeywordDensityRule_extends
               (fun kd t =>
                  forall q, density kd = Fin q -> (q == 0)%Q ->
                    In (Msg.subKeywordDensityLow (kd_keyword kd) "quá thấp" (density kd))
                       (minorWarnings (messages t)))
            ) with (x := kd) (q := q);
        [| |apply Frame.sameObject_refl|exact Hkd|exact Hq|exact Hzero].
      * intros x a b Hab H q0 Hq0 Hz0.
        eapply DensityFacts.extends_minorWarnings; [exact Hab | exact (H q0 Hq0 Hz0)].
      * intros t x _ q0 Hq0 Hz0. exact (sub_keyword_zero_round t x q0 Hq0 Hz0).
Qed.

(** The sample article with two sub-keywords: three messages, and the
    sub-keyword that occurs nowhere is extremely low. *)
Lemma sub_keyword_rule_counts_witness :
  In (Msg.subKeywordDensityLow (Some "zzz") "quá thấp"
        (calculateDensity Cases.withSubKeywords (Some "zzz") None))
     (minorWarnings (messages (assignMessagesForSubKeywords Cases.withSubKeywords))).
Proof.
  destruct (sub_keyword_rule_counts Cases.withSubKeywords) as (_ & _ & _ & H).
  assert (Hzzz : In "zzz" (subKeywords (content Cases.withSubKeywords))).
  { right. left. reflexivity. }
  assert (Hq : calculateDensity Cases.withSubKeywords (Some "zzz") None = Fin (0 # 13)).
  { vm_compute. reflexivity. }
  apply (H "zzz" (0 # 13) Hzzz Hq). reflexivity.
Defined.

(* ================================================================== *)
(** ** Further properties: the title rule *)

(** A density over a positive word count is truthy exactly when the
    keyword occurs. *)
Lemma density_truthy_iff (t : SeoAnalyzer) (kw txt : string) :
  kw <> "" ->
  (0 < getWordCount (htmlAnalyzer t) (Some txt))%nat ->
  JsNumber.truthy (calculateDensity t (Some kw) (Some txt)) = true <-> occursIn kw txt.
Proof.
  intros Hk Hw.
  destruct (OccurrenceFacts.count_fits t kw txt Hk) as [Hn _].
  destruct (DensityFacts.scaled_sign _ _ Hw Hn) as (H0 & Hpos & _).
  rewrite (DensityFacts.density_value t (Some kw) txt Hw).
  rewrite (DensityFacts.truthy_positive _ H0), Hpos.
  apply OccurrenceFacts.count_positive, Hk.
Qed.

(** X8.  Without a title the title rule pushes one warning and nothing
    else.  With a title it pushes three messages; when the keyword is not
    empty and the analyzer counts at least one word in the title, the
    second of them is the good point about the keyword in the title if
    the keyword occurs in the title, and the warning that the title lacks
    the keyword if it does not. *)
Theorem title_rule_reads_keyword (this : SeoAnalyzer) :
  let after := assignMessagesForTitle this in
  let ttl := title (content this) in
  (ttl = "" ->
   warnings (messages after) = (warnings (messages this) ++ [Msg.titleMissing])%list /\
   minorWarnings (messages after) = minorWarnings (messages this) /\
   goodPoints (messages after) = goodPoints (messages this)) /\
  (ttl <> "" ->
   totalMessages after = (totalMessages this + 3)%nat /\
   forall kw : string,
     keyword (content this) = Some kw -> kw <> "" ->
     (0 < getWordCount (htmlAnalyzer this) (Some ttl))%nat ->
     (occursIn kw ttl ->
      In (Msg.keywordInTitleGood (density (getKeywordInTitle this None)))
         (goodPoints (messages after))) /\
     (~ occursIn kw ttl -> In Msg.keywordInTitleMissing (warnings (messages after)))).
Proof.
  cbv zeta. unfold assignMessagesForTitle. cbv zeta. split.
  - intros ->. repeat split.
  - intros Ht. rewrite (truthy_nonempty _ Ht).
    set (lengthRule :=
           if (MAXIMUM_TITLE_LENGTH <? String.length (title (content this)))%nat
           then Push.warning Msg.titleTooLong this
           else if (String.length (title (content this)) <? MINIMUM_TITLE_LENGTH)%nat
                then Push.warning Msg.titleTooShort this
                else Push.goodPoint
                       (Msg.titleLength (String.length (title (content this)))) this).
    assert (Hext : extends this lengthRule) by (unfold lengthRule; Frame.peel).
    assert (Htot : totalMessages lengthRule = S (totalMessages this)).
    { unfold lengthRule. destruct (_ <? _)%nat; [|destruct (_ <? _)%nat];
        rewrite ?FoldFacts.total_warning, ?FoldFacts.total_goodPoint; reflexivity. }
    destruct Hext as [(Hc & Hh & _) _].
    assert (Hd : density (getKeywordInTitle lengthRule None)
                 = density (getKeywordInTitle this None)).
    { unfold getKeywordInTitle. cbn [density]. rewrite <- Hc.
      apply ObjectFacts.calculateDensity_ext; congruence. }
    rewrite Hd. clearbody lengthRule. split.
    + destruct (JsNumber.truthy _);
        cbn [content Push.warning Push.goodPoint Push.minorWarning Push.withMessages];
        rewrite <- Hc, (truthy_nonempty _ Ht);
        (destruct (0 <? _)%nat);
        repeat first [ rewrite FoldFacts.total_warning
                     | rewrite FoldFacts.total_minorWarning
                     | rewrite FoldFacts.total_goodPoint ];
        rewrite Htot; lia.
    + intros kw Hk Hne Hw.
      assert (Hiff : JsNumber.truthy (density (getKeywordInTitle this None)) = true
                     <-> occursIn kw (title (content this))).
      { unfold getKeywordInTitle. cbn [density]. rewrite Hk. cbn [nullish].
        apply density_truthy_iff; assumption. }
      destruct (JsNumber.truthy (density (getKeywordInTitle this None)));
        cbn [content Push.warning Push.goodPoint Push.minorWarning Push.withMessages];
        rewrite <- Hc, (truthy_nonempty _ Ht);
        (destruct (0 <? _)%nat);
        cbn [messages warnings goodPoints minorWarnings
             Push.warning Push.goodPoint Push.minorWarning Push.withMessages];
        (split; intros Ho;
         [ try (apply Hiff in Ho; discriminate Ho)
         | try (exfalso; apply Ho, Hiff; reflexivity) ]);
        rewrite ?in_app_iff; cbn [In]; now intuition.
Qed.

(** A title with the keyword and a title without it. *)
Lemma title_rule_reads_keyword_witness :
  In (Msg.keywordInTitleGood
        (density (getKeywordInTitle (Cases.article "seo basics") None)))
     (goodPoints (messages (assignMessagesForTitle (Cases.article "seo basics")))) /\
  In Msg.keywordInTitleMissing
     (warnings (messages (assignMessagesForTitle (Cases.article "Hello world")))).
Proof.
  split.
  - destruct (title_rule_reads_keyword (Cases.article "seo basics")) as [_ H].
    assert (Ht : title (content (Cases.article "seo basics")) <> "").
    { vm_compute. discriminate. }
    destruct (H Ht) as [_ Hkw].
    assert (Hw : (0 < getWordCount (htmlAnalyzer (Cases.article "seo basics"))
                        (Some (title (content (Cases.article "seo basics")))))%nat).
    { vm_compute. apply Nat.leb_le. reflexivity. }
    destruct (Hkw "seo" eq_refl ltac:(discriminate) Hw) as [Hyes _].
    apply Hyes. exists "", " basics". reflexivity.
  - destruct (title_rule_reads_keyword (Cases.article "Hello world")) as [_ H].
    assert (Ht : title (content (Cases.article "Hello world")) <> "").
    { vm_compute. discriminate. }
    destruct (H Ht) as [_ Hkw].
    assert (Hw : (0 < getWordCount (htmlAnalyzer (Cases.article "Hello world"))
                        (Some (title (content (Cases.article "Hello world")))))%nat).
    { vm_compute. apply Nat.leb_le. reflexivity. }
    destruct (Hkw "seo" eq_refl ltac:(discriminate) Hw) as [_ Hno].
    apply Hno. intros Ho.
    apply (OccurrenceFacts.count_positive (Cases.article "Hello world")
             "seo" "Hello world" ltac:(discriminate)) in Ho.
    vm_compute in Ho. discriminate Ho.
Defined.

(* ================================================================== *)
(** ** Further properties: the link rules in whole numbers *)

(** [count < wordCount / k] on whole numbers. *)
Lemma few_links_test (count wordCount : nat) (k : positive) :
  JsNumber.ltb (JsNumber.ofNat count)
    (JsNumber.div (JsNumber.ofNat wordCount) (JsNumber.ofZ (Zpos k)))
  = (Pos.to_nat k * count <? wordCount)%nat.
Proof.
  unfold JsNumber.ofNat, JsNumber.ofZ. cbn [JsNumber.div].
  assert (Hk : (0 < inject_Z (Zpos k))%Q).
  { change 0%Q with (inject_Z 0). rewrite <- Zlt_Qlt. lia. }
  rewrite (NumberFacts.sgn_pos _ Hk).
  assert (Hmul : (inject_Z (Zpos k) * inject_Z (Z.of_nat count)
                  == inject_Z (Z.of_nat (Pos.to_nat k * count)))%Q).
  { rewrite <- inject_Z_mult. apply inject_Z_injective. lia. }
  destruct (Nat.ltb_spec (Pos.to_nat k * count) wordCount) as [Hlt|Hge].
  - apply DensityFacts.ltb_Fin. apply Qlt_shift_div_l; [exact Hk|].
    rewrite Qmult_comm, Hmul. rewrite <- Zlt_Qlt. lia.
  - apply DensityFacts.ltb_Fin_false. apply Qle_shift_div_r; [exact Hk|].
    rewrite Qmult_comm, Hmul. rewrite <- Zle_Qle. lia.
Qed.

(** X9.  In whole numbers, with [wordCount] the word count of the whole
    document and [i], [e] the numbers of unique internal and outbound
    links: the internal shortage is reported when
    [300 * i < wordCount] and the internal good point is pushed
    otherwise; the outbound shortage is reported when
    [400 * e < wordCount].  A document with [wordCount <= 300 * i] and
    [wordCount <= 400 * e], in particular one without words, gets no
    warning from the link rules. *)
Theorem link_rules_in_whole_numbers (this : SeoAnalyzer) :
  let wordCount := getWordCount (htmlAnalyzer this) None in
  let i := totalUniqueInternalLinksCount this in
  let e := totalUniqueExternalLinksCount this in
  let after := assignMessagesForLinks this in
  ((300 * i < wordCount)%nat ->
   In (Msg.internalLinksFew i) (warnings (messages after))) /\
  ((wordCount <= 300 * i)%nat ->
   In (Msg.internalLinksGood i) (goodPoints (messages after))) /\
  ((400 * e < wordCount)%nat ->
   In (Msg.externalLinksFew e) (warnings (messages after))) /\
  ((wordCount <= 300 * i)%nat -> (wordCount <= 400 * e)%nat ->
   warnings (messages after) = warnings (messages this)).
Proof.
  cbv zeta. unfold assignMessagesForLinks. cbv zeta.
  unfold totalUniqueInternalLinksCount, totalUniqueExternalLinksCount.
  cbn [htmlAnalyzer].
  rewrite (few_links_test _ _ 300).
  change (Pos.to_nat 300) with 300%nat.
  destruct (Nat.ltb_spec
              (300 * List.length (unique (getInternalLinks (htmlAnalyzer this))))
              (getWordCount (htmlAnalyzer this) None));
    cbn [htmlAnalyzer Push.warning Push.goodPoint Push.minorWarning Push.withMessages];
    rewrite (few_links_test _ _ 400);
    change (Pos.to_nat 400) with 400%nat;
    (destruct (Nat.ltb_spec
                 (400 * List.length (unique (getOutboundLinks (htmlAnalyzer this))))
                 (getWordCount (htmlAnalyzer this) None)));
    cbn [htmlAnalyzer Push.warning Push.goodPoint Push.minorWarning Push.withMessages];
    destruct (1 <? List.length (duplicate (getInternalLinks (htmlAnalyzer this))))%nat;
    cbn [htmlAnalyzer Push.warning Push.goodPoint Push.minorWarning Push.withMessages];
    destruct (1 <? List.length (duplicate (getOutboundLinks (htmlAnalyzer this))))%nat;
    cbn [htmlAnalyzer messages warnings goodPoints minorWarnings
         Push.warning Push.goodPoint Push.minorWarning Push.withMessages];
    (split; [|split; [|split]]); intros; try lia; try reflexivity;
    rewrite ?in_app_iff; cbn [In]; now intuition.
Qed.

(** The sample article has thirteen words; the empty document has none. *)
Lemma link_rules_in_whole_numbers_witness :
  In (Msg.internalLinksGood 2)
     (goodPoints
        (messages
           (assignMessagesForLinks
              (Sample.fresh (Sample.withTitle "Hello world") Sample.article)))) /\
  In (Msg.internalLinksFew 0)
     (warnings (messages (assignMessagesForLinks (Cases.onBody None "one word")))) /\
  In (Msg.externalLinksFew 0)
     (warnings (messages (assignMessagesForLinks (Cases.onBody None "one word")))) /\
  warnings (messages (assignMessagesForLinks (Cases.onBody None ""))) = [].
Proof.
  split; [|split; [|split]].
  - apply (proj1 (proj2 (link_rules_in_whole_numbers
                           (Sample.fresh (Sample.withTitle "Hello world") Sample.article)))).
    vm_compute. apply Nat.leb_le. reflexivity.
  - apply (proj1 (link_rules_in_whole_numbers (Cases.onBody None "one word"))).
    vm_compute. apply Nat.leb_le. reflexivity.
  - apply (proj1 (proj2 (proj2 (link_rules_in_whole_numbers
                                  (Cases.onBody None "one word"))))).
    vm_compute. apply Nat.leb_le. reflexivity.
  - apply (proj2 (proj2 (proj2 (link_rules_in_whole_numbers (Cases.onBody None ""))))).
    + vm_compute. apply Nat.leb_le. reflexivity.
    + vm_compute. apply Nat.leb_le. reflexivity.
Defined.

(* ================================================================== *)
(** ** Further properties: the rule of the meta description *)

Module MetaFacts.

(** The position under the guard. *)
Lemma getPosition_value (txt kw : string) :
  txt <> "" -> kw <> "" ->
  getPosition txt (Some kw)
  = Z.of_nat (S (Occurrence.countSpaces (Occurrence.before kw txt))).
Proof.
  intros Ht Hk. unfold getPosition.
  rewrite (truthy_nonempty _ Ht). cbn [truthyNullable].
  rewrite (truthy_nonempty _ Hk). cbn [negb orb].
  unfold JsString.splitNullable. cbn [JsString.toStringNullable].
  destruct (SplitFacts.split_first_piece kw txt (truthy_nonempty _ Hk)) as [rest ->].
  now rewrite SplitFacts.split_space_length.
Qed.

Lemma getPosition_missing (txt : string) (kw : option string) :
  kw = None \/ kw = Some "" -> getPosition txt kw = (-1)%Z.
Proof.
  intros [-> | ->]; unfold getPosition; cbn [truthyNullable JsString.truthy negb];
    now rewrite orb_true_r.
Qed.

(** The object after the length and density tests of the rule. *)
Lemma meta_steps (this : SeoAnalyzer) :
  metaDescription (content this) <> "" ->
  exists lengthRule : SeoAnalyzer,
    extends this lengthRule /\
    (let n := String.length (metaDescription (content this)) in
     ((100 <= n <= 160)%nat ->
      In (Msg.metaLength n) (goodPoints (messages lengthRule))) /\
     ((n < 100)%nat -> In (Msg.metaTooShort n) (warnings (messages lengthRule))) /\
     ((160 < n)%nat -> In (Msg.metaTooLong n) (warnings (messages lengthRule)))) /\
    exists positionRule : SeoAnalyzer,
      extends positionRule (assignMessagesForMetaDescription this) /\
      positionRule
      = (if positionAfterFirst (position (getKeywordInMetaDescription this None))
         then Push.minorWarning
                (Msg.metaNotStartingWithKeyword
                   (JsString.substring0 20 (metaDescription (content this))))
                lengthRule
         else Push.goodPoint
                (Msg.metaStartingWithKeyword
                   (JsString.substring0 20 (metaDescription (content this))))
                lengthRule).
Proof.
  intros Hm. unfold assignMessagesForMetaDescription. cbv zeta.
  rewrite (truthy_nonempty _ Hm). unfold MAXIMUM_META_DESCRIPTION_LENGTH.
  eexists. split; [|split; [|eexists; split; [|reflexivity]]].
  3: { apply Frame.fold_left_extends;
         [apply Frame.subKeywordInMetaRule_extends | apply Frame.extends_refl]. }
  - Frame.peel.
  - cbv zeta.
    destruct (Nat.ltb_spec 160 (String.length (metaDescription (content this))));
      [|destruct (Nat.ltb_spec (String.length (metaDescription (content this))) 100)];
      (split; [|split]); intros; try lia.
    + simpl. apply in_or_app. right. left. reflexivity.
    + simpl. apply in_or_app. right. left. reflexivity.
    + destruct (JsNumber.gtb _ _); [|destruct (JsNumber.ltb _ _)];
        simpl; rewrite ?in_app_iff; cbn [In]; now intuition.
Qed.

End MetaFacts.

(** X10.  Without a meta description the rule pushes one warning and
    nothing else.  With one of [n] code units it pushes the good point
    that reports [n] for [n] from 100 to 160, both included, the
    too-short warning below 100 and the too-long warning above 160. *)
Theorem meta_length_boundaries (this : SeoAnalyzer) :
  let meta := metaDescription (content this) in
  let n := String.length meta in
  let after := assignMessagesForMetaDescription this in
  (meta = "" ->
   warnings (messages after) = (warnings (messages this) ++ [Msg.metaMissing])%list /\
   minorWarnings (messages after) = minorWarnings (messages this) /\
   goodPoints (messages after) = goodPoints (messages this)) /\
  ((100 <= n <= 160)%nat -> In (Msg.metaLength n) (goodPoints (messages after))) /\
  ((1 <= n < 100)%nat -> In (Msg.metaTooShort n) (warnings (messages after))) /\
  ((160 < n)%nat -> In (Msg.metaTooLong n) (warnings (messages after))).
Proof.
  cbv zeta. split.
  { intros E. unfold assignMessagesForMetaDescription. cbv zeta. rewrite E.
    repeat split. }
  assert (Hne : (1 <= String.length (metaDescription (content this)))%nat ->
                metaDescription (content this) <> "").
  { intros H E. rewrite E in H. simpl in H. lia. }
  split; [|split]; intros Hn;
    destruct (MetaFacts.meta_steps this (Hne ltac:(lia)))
      as (lr & _ & (H1 & H2 & H3) & pr & Hext & Hpr);
    [ eapply DensityFacts.extends_goodPoints; [exact Hext|]
    | eapply DensityFacts.extends_warnings; [exact Hext|]
    | eapply DensityFacts.extends_warnings; [exact Hext|] ];
    rewrite Hpr; destruct (positionAfterFirst _); simpl;
    rewrite ?in_app_iff; first [left; apply H1; lia | left; apply H2; lia
                               | left; apply H3; lia | apply H1; lia
                               | apply H2; lia | apply H3; lia].
Qed.

(** The four lengths at the two ends of the range. *)
Lemma meta_length_boundaries_witness :
  In (Msg.metaLength 100)
     (goodPoints (messages (assignMessagesForMetaDescription (Cases.describedIn 100)))) /\
  In (Msg.metaLength 160)
     (goodPoints (messages (assignMessagesForMetaDescription (Cases.describedIn 160)))) /\
  In (Msg.metaTooShort 99)
     (warnings (messages (assignMessagesForMetaDescription (Cases.describedIn 99)))) /\
  In (Msg.metaTooLong 161)
     (warnings (messages (assignMessagesForMetaDescription (Cases.describedIn 161)))).
Proof.
  split; [|split; [|split]].
  - destruct (meta_length_boundaries (Cases.describedIn 100)) as (_ & H & _).
    apply H. vm_compute. split; apply Nat.leb_le; reflexivity.
  - destruct (meta_length_boundaries (Cases.describedIn 160)) as (_ & H & _).
    apply H. vm_compute. split; apply Nat.leb_le; reflexivity.
  - destruct (meta_length_boundaries (Cases.describedIn 99)) as (_ & _ & H & _).
    apply H. vm_compute. split; apply Nat.leb_le; reflexivity.
  - destruct (meta_length_boundaries (Cases.describedIn 161)) as (_ & _ & _ & H).
    apply H. vm_compute. apply Nat.leb_le; reflexivity.
Defined.

(** X11.  The rule of the meta description reads the start of the text
    through [getPosition]: with a keyword that is not empty it pushes the
    minor warning (not starting with the keyword) when there is a space
    before the first occurrence of the keyword, or anywhere in the text
    if the keyword does not occur; without a space there it pushes the
    good point.  With no keyword, [null] or empty, the position is -1
    and the good point (starting with the keyword) is pushed all the
    same.  Both messages quote the first 20 code units. *)
Theorem meta_start_rule (this : SeoAnalyzer) :
  let meta := metaDescription (content this) in
  let start := JsString.substring0 20 meta in
  let after := assignMessagesForMetaDescription this in
  meta <> "" ->
  (keyword (content this) = None \/ keyword (content this) = Some "" ->
   In (Msg.metaStartingWithKeyword start) (goodPoints (messages after))) /\
  (forall kw : string,
      keyword (content this) = Some kw -> kw <> "" ->
      ((1 <= Occurrence.countSpaces (Occurrence.before kw meta))%nat ->
       In (Msg.metaNotStartingWithKeyword start) (minorWarnings (messages after))) /\
      (Occurrence.countSpaces (Occurrence.before kw meta) = 0%nat ->
       In (Msg.metaStartingWithKeyword start) (goodPoints (messages after)))).
Proof.
  cbv zeta. intros Hm.
  destruct (MetaFacts.meta_steps this Hm) as (lr & _ & _ & pr & Hext & Hpr).
  assert (Hpos : position (getKeywordInMetaDescription this None)
                 = Some (getPosition (metaDescription (content this))
                           (keyword (content this)))).
  { unfold getKeywordInMetaDescription. reflexivity. }
  rewrite Hpos in Hpr. split.
  - intros Hk. rewrite (MetaFacts.getPosition_missing _ _ Hk) in Hpr.
    cbn [positionAfterFirst Z.ltb Z.compare] in Hpr.
    eapply DensityFacts.extends_goodPoints; [exact Hext|].
    rewrite Hpr. simpl. apply in_or_app. right. left. reflexivity.
  - intros kw Hk Hne. rewrite Hk, (MetaFacts.getPosition_value _ _ Hm Hne) in Hpr.
    cbn [positionAfterFirst] in Hpr. split; intros Hs.
    + eapply DensityFacts.extends_minorWarnings; [exact Hext|].
      rewrite Hpr.
      destruct (Z.ltb_spec 1 (Z.of_nat (S (Occurrence.countSpaces
                  (Occurrence.before kw (metaDescription (content this)))))));
        [|lia].
      simpl. apply in_or_app. right. left. reflexivity.
    + eapply DensityFacts.extends_goodPoints; [exact Hext|].
      rewrite Hpr, Hs. cbn [Z.of_nat Z.ltb Z.compare Pos.of_succ_nat Pos.compare
                               Pos.compare_cont].
      simpl. apply in_or_app. right. left. reflexivity.
Qed.

(** A meta description of one word passes for starting with a keyword it
    does not contain; so does any meta description when there is no
    keyword. *)
Lemma meta_start_rule_witness :
  In (Msg.metaStartingWithKeyword "Gardening")
     (goodPoints
        (messages
           (assignMessagesForMetaDescription (Cases.described (Some "seo") "Gardening")))) /\
  In (Msg.metaStartingWithKeyword "All about gardens")
     (goodPoints
        (messages
           (assignMessagesForMetaDescription (Cases.described None "All about gardens")))).
Proof.
  split.
  - destruct (meta_start_rule (Cases.described (Some "seo") "Gardening")
                ltac:(discriminate)) as [_ H].
    destruct (H "seo" eq_refl ltac:(discriminate)) as [_ Hgood].
    apply Hgood. reflexivity.
  - destruct (meta_start_rule (Cases.described None "All about gardens")
                ltac:(discriminate)) as [H _].
    apply H. left. reflexivity.
Defined.

(* ================================================================== *)
(** ** Further properties: headings without strict mode *)

Module HeadingFacts.
Local Open Scope nat_scope.

Lemma filterHeading_hasTag (t : SeoAnalyzer) (headingTag : string) :
  filterHeading t headingTag = filter (hasTag headingTag) (headings t).
Proof. reflexivity. Qed.

Lemma filter_existsb {A : Type} (p : A -> bool) (l : list A) :
  existsb p l = true <-> 1 <= List.length (filter p l).
Proof.
  induction l as [|x l IH]; simpl.
  - split; [discriminate | lia].
  - destruct (p x); simpl; [split; [lia | reflexivity] | exact IH].
Qed.

(** The h1 headings of a working list that ends with the synthetic one. *)
Lemma synthetic_h1_counted (t : SeoAnalyzer) (hs : list Heading) (ttl : string) :
  headings t = (hs ++ [ {| tag := "H1"; text := ttl |} ])%list ->
  List.length (filterHeading t "h1") = S (List.length (filter (hasTag "h1") hs)).
Proof.
  intros Hh. rewrite filterHeading_hasTag, Hh, filter_app, length_app.
  change (filter (hasTag "h1") [ {| tag := "H1"; text := ttl |} ])
    with [ {| tag := "H1"; text := ttl |} ].
  cbn [List.length]. lia.
Qed.

(** The heading rule on a working list that ends with the synthetic
    heading. *)
Lemma heading_rule_with_synthetic (b : SeoAnalyzer) (hs : list Heading) (ttl : string) :
  headings b = (hs ++ [ {| tag := "H1"; text := ttl |} ])%list ->
  let after := assignMessagesForHeadings b in
  In (Msg.headingsCount (S (List.length hs))) (goodPoints (messages after)) /\
  (existsb (hasTag "h1") hs = true -> In Msg.h1Many (warnings (messages after))) /\
  (existsb (hasTag "h1") hs = false -> In Msg.h1Good (goodPoints (messages after))) /\
  (forall msg, In msg (warnings (messages after)) ->
     In msg (warnings (messages b)) \/ msg = Msg.h1Many \/ msg = Msg.h2Missing).
Proof.
  intros Hh. cbv zeta. unfold assignMessagesForHeadings. cbv zeta.
  assert (Hlen : List.length (headings b) = S (List.length hs)).
  { rewrite Hh, length_app. simpl. lia. }
  rewrite Hlen. cbn [Nat.eqb].
  set (counted := Push.goodPoint (Msg.headingsCount (S (List.length hs))) b).
  assert (Hc : headings counted = headings b) by reflexivity.
  assert (H1 : List.length (filterHeading counted "h1")
               = S (List.length (filter (hasTag "h1") hs))).
  { apply (synthetic_h1_counted counted hs ttl). now rewrite Hc. }
  rewrite H1. cbn [Nat.eqb].
  pose proof (filter_existsb (hasTag "h1") hs) as Hex.
  destruct (Nat.ltb_spec 1 (S (List.length (filter (hasTag "h1") hs)))) as [Hmany|Hone];
    match goal with
    | |- context [if (List.length (filterHeading ?x "h2") =? 0) then _ else _] =>
        destruct (List.length (filterHeading x "h2") =? 0)
    end;
    match goal with
    | |- context [if (List.length (filterHeading ?x "h3") =? 0) then _ else _] =>
        destruct (List.length (filterHeading x "h3") =? 0)
    end;
    unfold counted;
    cbn [messages warnings goodPoints minorWarnings
         Push.warning Push.goodPoint Push.minorWarning Push.withMessages];
    (refine (conj _ (conj _ (conj _ _)));
    [ rewrite ?in_app_iff; cbn [In]; now intuition
    | intros He;
      first [ exfalso; apply Hex in He; lia
            | rewrite ?in_app_iff; cbn [In]; now intuition ]
    | intros He;
      first [ exfalso;
              assert (Hp : 1 <= List.length (filter (hasTag "h1") hs)) by lia;
              apply Hex in Hp; congruence
            | rewrite ?in_app_iff; cbn [In]; now intuition ]
    | intros msg; rewrite ?in_app_iff; cbn [In]; intuition (subst; auto) ]).
Qed.

End HeadingFacts.

(** X12.  Without strict mode the heading of the constructor is counted
    as an h1 like the others (the tags are compared without regard to the
    case of letters).  So the good points report one heading more than the
    analyzer returned; a document that has an h1 of its own gets the
    warning about more than one h1; a document without one gets the good
    point about the h1. *)
Theorem synthetic_heading_counts_as_h1 (c : ContentJson) (h : HtmlAnalyzer) :
  let this := constructor c h false in
  let hs := getAllHeadingTags h in
  In (Msg.headingsCount (S (List.length hs))) (goodPoints (messages this)) /\
  (existsb (hasTag "h1") hs = true -> In Msg.h1Many (warnings (messages this))) /\
  (existsb (hasTag "h1") hs = false -> In Msg.h1Good (goodPoints (messages this))).
Proof.
  cbv zeta.
  destruct (ObjectFacts.constructor_unfold c h false)
    as (t & -> & _ & _ & _ & _ & Hhs & _).
  destruct (Frame.before_heading_rule t) as (b & [Hsame _] & ->).
  destruct Hsame as (_ & _ & _ & _ & Hb). rewrite Hb in Hhs.
  destruct (HeadingFacts.heading_rule_with_synthetic b _ _ Hhs) as (H1 & H2 & H3 & _).
  split; [exact H1|]. split; [exact H2 | exact H3].
Qed.

(** The sample article has an h1 of its own. *)
Lemma synthetic_heading_counts_as_h1_witness :
  In Msg.h1Many
     (warnings (messages (constructor (Sample.withTitle "Hello world") Sample.article false))) /\
  In Msg.h1Good
     (goodPoints (messages (constructor (Sample.withTitle "Hello world")
                              Sample.emptyDocument false))).
Proof.
  split.
  - apply (proj1 (proj2 (synthetic_heading_counts_as_h1
                           (Sample.withTitle "Hello world") Sample.article))).
    reflexivity.
  - apply (proj2 (proj2 (synthetic_heading_counts_as_h1
                           (Sample.withTitle "Hello world") Sample.emptyDocument))).
    reflexivity.
Defined.

(* ================================================================== *)
(** ** Warnings that the other rules never push *)

Module AvoidFacts.

Lemma avoiding_refl (bad : list string) (a : SeoAnalyzer) : extendsAvoiding bad a a.
Proof.
  split; [apply Frame.sameObject_refl|].
  exists [], [], []. rewrite !app_nil_r. repeat split. constructor.
Qed.

Lemma avoiding_trans (bad : list string) (a b c : SeoAnalyzer) :
  extendsAvoiding bad a b -> extendsAvoiding bad b c -> extendsAvoiding bad a c.
Proof.
  intros [Hs (dw & dm & dg & Hw & Hm & Hg & Hf)] [Ks (ew & em & eg & Kw & Km & Kg & Kf)].
  split; [eapply Frame.sameObject_trans; eassumption|].
  exists (dw ++ ew)%list, (dm ++ em)%list, (dg ++ eg)%list.
  rewrite Kw, Km, Kg, Hw, Hm, Hg, !app_assoc. repeat split.
  apply Forall_app. split; assumption.
Qed.

Lemma avoiding_warning (bad : list string) (msg : string) (a : SeoAnalyzer) :
  ~ In msg bad -> extendsAvoiding bad a (Push.warning msg a).
Proof.
  intros Hn. split; [repeat split|]. exists [msg], [], []. simpl.
  rewrite !app_nil_r. repeat split. constructor; [exact Hn | constructor].
Qed.

Lemma avoiding_minorWarning (bad : list string) (msg : string) (a : SeoAnalyzer) :
  extendsAvoiding bad a (Push.minorWarning msg a).
Proof.
  split; [repeat split|]. exists [], [msg], []. simpl.
  rewrite !app_nil_r. repeat split. constructor.
Qed.

Lemma avoiding_goodPoint (bad : list string) (msg : string) (a : SeoAnalyzer) :
  extendsAvoiding bad a (Push.goodPoint msg a).
Proof.
  split; [repeat split|]. exists [], [], [msg]. simpl.
  rewrite !app_nil_r. repeat split. constructor.
Qed.

Lemma avoiding_fold_left {A : Type} (bad : list string)
    (f : SeoAnalyzer -> A -> SeoAnalyzer) :
  (forall t x, extendsAvoiding bad t (f t x)) ->
  forall l a b, extendsAvoiding bad a b -> extendsAvoiding bad a (fold_left f l b).
Proof.
  intros Hf l. induction l as [|x l IH]; intros a b Hab; simpl.
  - exact Hab.
  - apply IH. eapply avoiding_trans; [exact Hab | apply Hf].
Qed.

(** A text that begins with another letter than T is neither of the two. *)
Ltac otherText :=
  let H := fresh in
  intros [H|[H|[]]]; revert H;
  cbv [Msg.headingsMissing Msg.h1Missing
       Msg.keywordStuffing Msg.keywordDensityLow Msg.keywordDensityHigh
       Msg.keywordMissing Msg.subKeywordDensityHigh
       Msg.titleTooLong Msg.titleTooShort Msg.keywordInTitleMissing Msg.titleMissing
       Msg.internalLinksFew Msg.externalLinksFew
       Msg.metaTooLong Msg.metaTooShort Msg.metaDensityHigh Msg.metaDensityLow
       Msg.subKeywordInMetaHigh Msg.metaMissing Msg.q JsString.dquote];
  cbn [append]; discriminate.

Ltac peelAvoiding :=
  repeat first
    [ apply avoiding_refl
    | match goal with
      | |- extendsAvoiding _ _ (Push.warning _ _) =>
          eapply avoiding_trans; [|apply avoiding_warning; otherText]
      | |- extendsAvoiding _ _ (Push.minorWarning _ _) =>
          eapply avoiding_trans; [|apply avoiding_minorWarning]
      | |- extendsAvoiding _ _ (Push.goodPoint _ _) =>
          eapply avoiding_trans; [|apply avoiding_goodPoint]
      | |- extendsAvoiding _ _ (fold_left _ _ _) =>
          apply avoiding_fold_left; [intros; cbv zeta|]
      | |- extendsAvoiding _ _ (if ?c then _ else _) => destruct c
      end ].

Lemma keyword_rule_avoids (a : SeoAnalyzer) :
  extendsAvoiding missingHeadings a (assignMessagesForKeyword a).
Proof. unfold assignMessagesForKeyword. cbv zeta. peelAvoiding. Qed.

Lemma sub_keyword_round_avoids (a : SeoAnalyzer) (d : KeywordDensity) :
  extendsAvoiding missingHeadings a (subKeywordDensityRule a d).
Proof. unfold subKeywordDensityRule. cbv zeta. peelAvoiding. Qed.

Lemma sub_keyword_rule_avoids (a : SeoAnalyzer) :
  extendsAvoiding missingHeadings a (assignMessagesForSubKeywords a).
Proof.
  unfold assignMessagesForSubKeywords. cbv zeta. destruct (0 <? _)%nat.
  - apply avoiding_fold_left; [apply sub_keyword_round_avoids | peelAvoiding].
  - peelAvoiding.
Qed.

Lemma title_rule_avoids (a : SeoAnalyzer) :
  extendsAvoiding missingHeadings a (assignMessagesForTitle a).
Proof. unfold assignMessagesForTitle. cbv zeta. peelAvoiding. Qed.

Lemma link_rules_avoid (a : SeoAnalyzer) :
  extendsAvoiding missingHeadings a (assignMessagesForLinks a).
Proof. unfold assignMessagesForLinks. cbv zeta. peelAvoiding. Qed.

Lemma meta_round_avoids (a : SeoAnalyzer) (d : KeywordDensity) :
  extendsAvoiding missingHeadings a (subKeywordInMetaRule a d).
Proof. unfold subKeywordInMetaRule. cbv zeta. peelAvoiding. Qed.

Lemma meta_rule_avoids (a : SeoAnalyzer) :
  extendsAvoiding missingHeadings a (assignMessagesForMetaDescription a).
Proof.
  unfold assignMessagesForMetaDescription. cbv zeta.
  destruct (JsString.truthy _); [|peelAvoiding].
  apply avoiding_fold_left; [apply meta_round_avoids | peelAvoiding].
Qed.

Lemma keyword_in_headings_avoids (a : SeoAnalyzer) :
  extendsAvoiding missingHeadings a (assignMessagesForKeywordInHeadings a).
Proof. unfold assignMessagesForKeywordInHeadings. peelAvoiding. Qed.

Lemma sub_keywords_in_headings_avoid (a : SeoAnalyzer) :
  extendsAvoiding missingHeadings a (assignMessagesForSubKeywordsInHeadings a).
Proof. unfold assignMessagesForSubKeywordsInHeadings. peelAvoiding. Qed.

(** Before the heading rule, no warning is about a missing heading. *)
Lemma before_heading_rule_avoids (a : SeoAnalyzer) :
  exists b,
    extendsAvoiding missingHeadings a b /\
    assignMessages a = assignMessagesForHeadings b.
Proof.
  eexists. split; [|unfold assignMessages; cbv zeta; reflexivity].
  eapply avoiding_trans; [|apply sub_keywords_in_headings_avoid].
  eapply avoiding_trans; [|apply keyword_in_headings_avoids].
  eapply avoiding_trans; [|apply meta_rule_avoids].
  eapply avoiding_trans; [|apply link_rules_avoid].
  eapply avoiding_trans; [|apply title_rule_avoids].
  eapply avoiding_trans; [|apply sub_keyword_rule_avoids].
  apply keyword_rule_avoids.
Qed.

Lemma many_is_not_missing : ~ In Msg.h1Many missingHeadings.
Proof. intros [H|[H|[]]]; revert H; apply String.eqb_neq; vm_compute; reflexivity. Qed.

Lemma h2_is_not_missing : ~ In Msg.h2Missing missingHeadings.
Proof. intros [H|[H|[]]]; revert H; apply String.eqb_neq; vm_compute; reflexivity. Qed.

End AvoidFacts.

(** X13.  Without strict mode a constructed object never warns that the
    headings are missing nor that the h1 is missing, whatever the content
    and the analyzer are: the heading of the constructor is always there,
    and no other rule pushes either text. *)
Theorem no_missing_heading_without_strict_mode (c : ContentJson) (h : HtmlAnalyzer) :
  ~ In Msg.headingsMissing (warnings (messages (constructor c h false))) /\
  ~ In Msg.h1Missing (warnings (messages (constructor c h false))).
Proof.
  destruct (ObjectFacts.constructor_unfold c h false)
    as (t & -> & _ & _ & _ & _ & Hhs & Hm).
  destruct (AvoidFacts.before_heading_rule_avoids t)
    as (b & [Hsame (dw & dm & dg & Hw & _ & _ & Hf)] & ->).
  destruct Hsame as (_ & _ & _ & _ & Hb). rewrite Hb in Hhs.
  destruct (HeadingFacts.heading_rule_with_synthetic b _ _ Hhs) as (_ & _ & _ & H).
  rewrite Hm in Hw. cbn [warnings noMessages app] in Hw.
  assert (Hbad : forall msg, In msg missingHeadings ->
                   ~ In msg (warnings (messages (assignMessagesForHeadings b)))).
  { intros msg Hin Hafter. destruct (H msg Hafter) as [Hold | [-> | ->]].
    - rewrite Hw in Hold. rewrite Forall_forall in Hf. exact (Hf msg Hold Hin).
    - exact (AvoidFacts.many_is_not_missing Hin).
    - exact (AvoidFacts.h2_is_not_missing Hin). }
  split; apply Hbad; simpl; auto.
Qed.

(* ================================================================== *)
(** ** Further properties: the two scores *)

Module ScoreFacts.
Import JsNumber.

Lemma nonneg_atLeast (x : number) : nonneg x -> atLeast 0 x.
Proof. destruct x; exact (fun H => H). Qed.

Lemma add_atLeast (a b : Q) (x y : number) :
  atLeast a x -> atLeast b y -> atLeast (a + b) (add x y).
Proof.
  destruct x as [| | |p], y as [| | |q]; simpl; try contradiction.
  intros; lra.
Qed.

Lemma ofNat_atLeast (n m : nat) : (n <= m)%nat -> atLeast (inject_Z (Z.of_nat n)) (ofNat m).
Proof. intros H. simpl. rewrite <- Zle_Qle. lia. Qed.

(** [Math.min(x, 100)] of a number that is at least 100. *)
Lemma min_saturates (x : number) :
  atLeast 100 x -> exists q : Q, min x (ofZ 100) = Fin q /\ (q == 100)%Q.
Proof.
  destruct x as [| | |p]; simpl; try contradiction. intros Hp.
  destruct (inject_Z 100 ?= p)%Q eqn:Hc.
  - exists p. split; [reflexivity|]. apply Qeq_alt in Hc. now rewrite <- Hc.
  - exists (inject_Z 100). split; reflexivity.
  - apply Qgt_alt in Hc. change (inject_Z 100) with 100%Q in Hc. lra.
Qed.

(** The overall score at its two ends. *)
Lemma ratio_extremes (g w : nat) :
  (1 <= w + g)%nat ->
  let q := (inject_Z (Z.of_nat g) / inject_Z (Z.of_nat (w + g)) * inject_Z 100)%Q in
  ((q == 100)%Q <-> w = 0%nat) /\ ((q == 0)%Q <-> g = 0%nat).
Proof.
  intros Hd q.
  pose proof (NumberFacts.inject_nat_pos (w + g) Hd) as Hp.
  set (G := inject_Z (Z.of_nat g)) in *. set (D := inject_Z (Z.of_nat (w + g))) in *.
  assert (Hx : (G / D * D == G)%Q) by (field; lra).
  assert (Hq : (q == G / D * 100)%Q) by reflexivity.
  assert (HGD : (G == D)%Q <-> w = 0%nat).
  { unfold G, D. rewrite inject_Z_injective. lia. }
  assert (HG0 : (G == 0)%Q <-> g = 0%nat).
  { unfold G. change 0%Q with (inject_Z 0). rewrite inject_Z_injective. lia. }
  split.
  - rewrite <- HGD, Hq. split; intros H.
    + assert (G / D == 1)%Q by lra. rewrite <- Hx, H0. lra.
    + assert (G / D * D == 1 * D)%Q by (rewrite Hx, H; lra).
      assert (G / D == 1)%Q by (apply (Qmult_inj_r _ _ D); lra).
      rewrite H1. lra.
  - rewrite <- HG0, Hq. split; intros H.
    + assert (G / D == 0)%Q by lra. rewrite <- Hx, H0. lra.
    + rewrite H. field. lra.
Qed.

Lemma overall_extremes_of (t : SeoAnalyzer) :
  (1 <= scoredMessages t)%nat ->
  exists q : Q,
    getSeoScore t = Fin q /\
    ((q == 100)%Q <-> warnings (messages t) = []) /\
    ((q == 0)%Q <-> goodPoints (messages t) = []).
Proof.
  unfold scoredMessages. intros Hs.
  destruct (NumberFacts.ratio_value _ _ Hs) as [Hv _].
  destruct (ratio_extremes _ _ Hs) as [H100 H0].
  eexists. split; [unfold getSeoScore, MAX_SCORE; exact Hv|].
  rewrite <- !length_zero_iff_nil. split; assumption.
Qed.

(** The keyword score reads the content, the analyzer and the stored
    density. *)
Lemma getKeywordSeoScore_ext (a b : SeoAnalyzer) :
  content a = content b -> htmlAnalyzer a = htmlAnalyzer b ->
  keywordDensity a = keywordDensity b ->
  getKeywordSeoScore a = getKeywordSeoScore b.
Proof.
  intros Hc Hh Hd.
  unfold getKeywordSeoScore, getKeywordInTitle, getSubKeywordsInTitle,
    getSubKeywordsDensity, getKeywordInTitle, calculateDensity,
    countOccurrencesInString.
  now rewrite Hc, Hh, Hd.
Qed.

(** The keyword score with ten sub-keywords or more. *)
Lemma keyword_score_saturates_of (t : SeoAnalyzer) (c : ContentJson) (h : HtmlAnalyzer) :
  content t = c -> htmlAnalyzer t = h ->
  keywordDensity t = calculateDensity t (keyword c) None ->
  keyword c <> Some "" ->
  Forall (fun k => k <> "") (subKeywords c) ->
  (0 < getWordCount h (Some (bodyText h)))%nat ->
  (0 < getWordCount h (Some (title c)))%nat ->
  (10 <= List.length (subKeywords c))%nat ->
  exists q : Q, getKeywordSeoScore t = Fin q /\ (q == 100)%Q.
Proof.
  intros Hc Hh Hd Hk Hsub Hbody Htitle Hten.
  pose proof (truthy_keyword _ Hk) as Hkt.
  unfold getKeywordSeoScore. cbv zeta. apply min_saturates.
  change 100%Q with (0 + inject_Z (Z.of_nat 100) + 0 + 0)%Q.
  repeat apply add_atLeast.
  - apply nonneg_atLeast.
    apply NumberFacts.mul_nonneg; [|now apply NumberFacts.ofZ_nonneg].
    unfold getKeywordInTitle. cbn [density].
    apply ObjectFacts.density_nonneg.
    + now rewrite !ObjectFacts.nullish_idem, Hc.
    + now rewrite Hc, Hh.
  - apply ofNat_atLeast. unfold getSubKeywordsInTitle.
    rewrite length_map, Hc. lia.
  - apply nonneg_atLeast.
    apply ObjectFacts.density_sum_nonneg; [|now apply NumberFacts.ofZ_nonneg].
    unfold getSubKeywordsDensity. rewrite Hc. apply Forall_map.
    revert Hsub. apply Forall_impl. intros k Hne. cbn [density].
    apply ObjectFacts.density_nonneg.
    + rewrite ObjectFacts.nullish_some. now apply truthy_nonempty.
    + now rewrite Hh.
  - apply nonneg_atLeast.
    apply NumberFacts.mul_nonneg; [|now apply NumberFacts.ofZ_nonneg].
    rewrite Hd. apply ObjectFacts.density_nonneg.
    + now rewrite Hc, ObjectFacts.nullish_idem.
    + now rewrite Hh.
Qed.

End ScoreFacts.

(** X14.  After construction the overall score is 100 exactly when there
    is no warning and 0 exactly when there is no good point; the minor
    warnings play no part. *)
Theorem overall_score_extremes (c : ContentJson) (h : HtmlAnalyzer) (s : bool) :
  let this := constructor c h s in
  exists q : Q,
    getSeoScore this = Fin q /\
    ((q == 100)%Q <-> warnings (messages this) = []) /\
    ((q == 0)%Q <-> goodPoints (messages this) = []).
Proof.
  exact (ScoreFacts.overall_extremes_of (constructor c h s)
           (Frame.constructor_scores c h s)).
Qed.

(** X15.  The keyword score does not depend on strict mode nor on any
    message: two objects constructed from the same content and analyzer
    have the same keyword score. *)
Theorem keyword_score_ignores_strict_mode (c : ContentJson) (h : HtmlAnalyzer)
    (s s' : bool) :
  getKeywordSeoScore (constructor c h s) = getKeywordSeoScore (constructor c h s').
Proof.
  destruct (ObjectFacts.constructor_fields c h s) as (Hc & Hh & Hd & _).
  destruct (ObjectFacts.constructor_fields c h s') as (Hc' & Hh' & Hd' & _).
  apply ScoreFacts.getKeywordSeoScore_ext; try congruence.
  rewrite Hd, Hd'. apply ObjectFacts.calculateDensity_ext; congruence.
Qed.

(** X16.  The keyword score counts 10 for each sub-keyword, found in the
    title or not: with ten sub-keywords or more, none of them empty, a
    keyword that is not empty and at least one word in the body text and
    in the title, the keyword score is 100 whatever the densities are. *)
Theorem keyword_score_saturates (c : ContentJson) (h : HtmlAnalyzer) (s : bool) :
  keyword c <> Some "" ->
  Forall (fun k => k <> "") (subKeywords c) ->
  (0 < getWordCount h (Some (bodyText h)))%nat ->
  (0 < getWordCount h (Some (title c)))%nat ->
  (10 <= List.length (subKeywords c))%nat ->
  exists q : Q, getKeywordSeoScore (constructor c h s) = Fin q /\ (q == 100)%Q.
Proof.
  destruct (ObjectFacts.constructor_fields c h s) as (Hc & Hh & Hd & _).
  exact (ScoreFacts.keyword_score_saturates_of _ c h Hc Hh Hd).
Qed.

(** Ten sub-keywords that occur nowhere saturate the keyword score. *)
Lemma keyword_score_saturates_witness :
  exists q : Q,
    getKeywordSeoScore (constructor Cases.crowded Sample.article false) = Fin q /\
    (q == 100)%Q.
Proof.
  apply (keyword_score_saturates Cases.crowded Sample.article false).
  - discriminate.
  - repeat constructor; discriminate.
  - vm_compute. apply Nat.leb_le. reflexivity.
  - vm_compute. apply Nat.leb_le. reflexivity.
  - vm_compute. apply Nat.leb_le. reflexivity.
Defined.

(* ================================================================== *)
(** ** Further properties: the keyword rule at construction *)

Module KeywordFacts.

(** The keyword rule on an object without messages. *)
Lemma keyword_rule_first (t : SeoAnalyzer) :
  messages t = noMessages ->
  (keyword (content t) = None \/ keyword (content t) = Some "" ->
   warnings (messages (assignMessagesForKeyword t)) = [Msg.keywordMissing]) /\
  (forall kw : string,
      keyword (content t) = Some kw -> kw <> "" ->
      exists rest : list string,
        goodPoints (messages (assignMessagesForKeyword t))
        = Msg.keywordPresent (Some kw) :: rest).
Proof.
  intros Hm. unfold assignMessagesForKeyword. split.
  - intros [Hk|Hk]; rewrite Hk; cbn [truthyNullable JsString.truthy];
      simpl; now rewrite Hm.
  - intros kw Hk Hne. rewrite Hk. cbn [truthyNullable].
    rewrite (truthy_nonempty _ Hne). cbv zeta.
    destruct (JsNumber.gtb _ _);
      (destruct (JsNumber.ltb _ _); [|destruct (JsNumber.gtb _ _)]);
      simpl; rewrite Hm; simpl; eexists; reflexivity.
Qed.

(** The keyword rule on a density that is not finite. *)
Lemma keyword_rule_undefined (t : SeoAnalyzer) (kw : string) :
  keyword (content t) = Some kw -> kw <> "" ->
  (keywordDensity t = NaN ->
   In (Msg.keywordDensityGood NaN) (goodPoints (messages (assignMessagesForKeyword t)))) /\
  (keywordDensity t = PosInf ->
   In Msg.keywordStuffing (warnings (messages (assignMessagesForKeyword t))) /\
   In (Msg.keywordDensityHigh PosInf) (warnings (messages (assignMessagesForKeyword t)))).
Proof.
  intros Hk Hne. unfold assignMessagesForKeyword. rewrite Hk. cbn [truthyNullable].
  rewrite (truthy_nonempty _ Hne). cbv zeta.
  cbn [keywordDensity Push.goodPoint Push.warning Push.withMessages].
  split; intros Hd; rewrite Hd.
  - cbn [JsNumber.gtb JsNumber.ltb JsNumber.ofZ MINIMUM_KEYWORD_DENSITY
           MAXIMUM_KEYWORD_DENSITY].
    cbn [keywordDensity Push.goodPoint Push.warning Push.withMessages
           messages goodPoints].
    rewrite Hd. cbn [JsNumber.gtb JsNumber.ltb MINIMUM_KEYWORD_DENSITY
                       MAXIMUM_KEYWORD_DENSITY].
    cbn [messages goodPoints Push.goodPoint Push.withMessages].
    apply in_or_app. right. left. reflexivity.
  - change (JsNumber.gtb PosInf (JsNumber.ofZ 5)) with true. cbv iota.
    cbn [keywordDensity Push.goodPoint Push.warning Push.withMessages].
    rewrite Hd.
    change (JsNumber.ltb PosInf MINIMUM_KEYWORD_DENSITY) with false.
    change (JsNumber.gtb PosInf MAXIMUM_KEYWORD_DENSITY) with true. cbv iota.
    cbn [messages warnings Push.goodPoint Push.warning Push.withMessages].
    rewrite !in_app_iff. cbn [In]. split; now intuition.
Qed.

(** The density over a text in which the analyzer counts no word. *)
Lemma density_without_words (t : SeoAnalyzer) (kw body : string) :
  kw <> "" ->
  getWordCount (htmlAnalyzer t) (Some body) = 0%nat ->
  (~ occursIn kw body -> calculateDensity t (Some kw) (Some body) = NaN) /\
  (occursIn kw body -> calculateDensity t (Some kw) (Some body) = PosInf).
Proof.
  intros Hne Hw.
  pose proof (OccurrenceFacts.count_positive t kw body Hne) as Hiff.
  destruct (OccurrenceFacts.count_fits t kw body Hne) as [Hn _].
  unfold calculateDensity. rewrite Hw. split; intros Ho.
  - assert (E : countOccurrencesInString t (Some kw) (Some body) = 0%Z).
    { destruct (Z.eq_dec (countOccurrencesInString t (Some kw) (Some body)) 0)
        as [E|N]; [exact E|]. destruct Ho. apply Hiff. lia. }
    rewrite E. reflexivity.
  - apply Hiff in Ho.
    assert (Hs : JsNumber.sgn (inject_Z (countOccurrencesInString t (Some kw) (Some body)))
                 = Gt).
    { apply NumberFacts.sgn_pos. change 0%Q with (inject_Z 0). now rewrite <- Zlt_Qlt. }
    unfold JsNumber.ofZ, JsNumber.ofNat. cbn [JsNumber.div Z.of_nat].
    change (JsNumber.sgn (inject_Z 0)) with Eq. cbv iota. rewrite Hs. reflexivity.
Qed.

End KeywordFacts.

(** X17.  The keyword rule runs first on empty lists.  So without a
    keyword ([null] or empty) the warnings of a constructed object begin
    with the message of the missing keyword, and with a keyword that is
    not empty the good points begin with the message that names it. *)
Theorem keyword_rule_comes_first (c : ContentJson) (h : HtmlAnalyzer) (s : bool) :
  let this := constructor c h s in
  (keyword c = None \/ keyword c = Some "" ->
   exists rest : list string, warnings (messages this) = Msg.keywordMissing :: rest) /\
  (forall kw : string,
      keyword c = Some kw -> kw <> "" ->
      exists rest : list string,
        goodPoints (messages this) = Msg.keywordPresent (Some kw) :: rest).
Proof.
  cbv zeta.
  destruct (ObjectFacts.constructor_unfold c h s)
    as (t & -> & Hc & _ & _ & _ & _ & Hm).
  destruct (KeywordFacts.keyword_rule_first t Hm) as [Hmiss Hpres].
  destruct (Frame.after_keyword_rule t) as [_ (dw & dm & dg & Hw & _ & Hg)].
  rewrite Hc in Hmiss, Hpres. split.
  - intros Hk. exists dw. now rewrite Hw, (Hmiss Hk).
  - intros kw Hk Hne. destruct (Hpres kw Hk Hne) as [rest Hr].
    exists (rest ++ dg)%list. now rewrite Hg, Hr.
Qed.

(** The empty content on the empty document; the sample article. *)
Lemma keyword_rule_comes_first_witness :
  (exists rest : list string,
      warnings (messages (constructor Sample.blank Sample.emptyDocument true))
      = Msg.keywordMissing :: rest) /\
  (exists rest : list string,
      goodPoints (messages (constructor Sample.strayContent Sample.article false))
      = Msg.keywordPresent (Some "seo") :: rest).
Proof.
  split.
  - destruct (keyword_rule_comes_first Sample.blank Sample.emptyDocument true) as [H _].
    apply H. right. reflexivity.
  - destruct (keyword_rule_comes_first Sample.strayContent Sample.article false)
      as [_ H].
    apply (H "seo" eq_refl). discriminate.
Defined.

(** X18.  When the analyzer counts no word in the body text and the
    keyword is not empty, the stored density is not a finite number and
    the keyword rule reports it as it is: NaN if the keyword does not
    occur in the body text, which passes every comparison and ends in the
    good point that reports the density; Infinity if it occurs, which
    earns both the stuffing warning and the too-high warning. *)
Theorem keyword_rule_without_words (c : ContentJson) (h : HtmlAnalyzer) (s : bool)
    (kw : string) :
  keyword c = Some kw -> kw <> "" ->
  getWordCount h (Some (bodyText h)) = 0%nat ->
  let this := constructor c h s in
  (~ occursIn kw (bodyText h) ->
   keywordDensity this = NaN /\
   In "Mật độ từ khóa là NaN%." (goodPoints (messages this))) /\
  (occursIn kw (bodyText h) ->
   keywordDensity this = PosInf /\
   In Msg.keywordStuffing (warnings (messages this)) /\
   In "Mật độ từ khóa quá cao. Hiện tại là Infinity%, hãy giảm bớt."
      (warnings (messages this))).
Proof.
  intros Hk Hne Hw. cbv zeta.
  destruct (ObjectFacts.constructor_unfold c h s)
    as (t & -> & Hc & Hh & Hd & _ & _ & _).
  pose proof (Frame.after_keyword_rule t) as Hafter.
  destruct (Frame.assignMessages_extends t) as [(_ & _ & Hkd & _) _].
  rewrite <- Hkd.
  assert (Hkt : keyword (content t) = Some kw) by (now rewrite Hc).
  destruct (KeywordFacts.keyword_rule_undefined t kw Hkt Hne) as [Hnan Hinf].
  assert (Hbody : calculateDensity t (keyword c) None
                  = calculateDensity t (Some kw) (Some (bodyText h))).
  { rewrite Hk. unfold calculateDensity. now rewrite Hh. }
  rewrite Hbody in Hd.
  assert (Hw' : getWordCount (htmlAnalyzer t) (Some (bodyText h)) = 0%nat)
    by (now rewrite Hh).
  destruct (KeywordFacts.density_without_words t kw (bodyText h) Hne Hw') as [H0 H1].
  split; intros Ho.
  - rewrite Hd, (H0 Ho). split; [reflexivity|].
    eapply DensityFacts.extends_goodPoints; [exact Hafter|].
    apply Hnan. now rewrite Hd, (H0 Ho).
  - rewrite Hd, (H1 Ho). split; [reflexivity|].
    destruct Hinf as [Hs Hh']; [now rewrite Hd, (H1 Ho)|].
    split; (eapply DensityFacts.extends_warnings; [exact Hafter|]); assumption.
Qed.

(** A keyword on the empty document. *)
Lemma keyword_rule_without_words_witness :
  keywordDensity (constructor (Sample.withTitle "") Sample.emptyDocument true) = NaN /\
  In "Mật độ từ khóa là NaN%."
     (goodPoints (messages (constructor (Sample.withTitle "") Sample.emptyDocument true))).
Proof.
  destruct (keyword_rule_without_words (Sample.withTitle "") Sample.emptyDocument true
              "seo" eq_refl ltac:(discriminate) eq_refl) as [H _].
  apply H. intros Ho.
  apply (OccurrenceFacts.count_positive (Cases.onBody None "") "seo" ""
           ltac:(discriminate)) in Ho.
  vm_compute in Ho. discriminate Ho.
Defined.

(* ================================================================== *)
(** ** Further properties: what the rules leave alone *)

(** X19.  Each of the eight rules, and so the whole pipeline, leaves the
    content, the analyzer, the stored density, the strict mode and the
    working heading list as they are and only appends to the three lists:
    no message is removed, replaced or moved. *)
Theorem rules_only_push (t : SeoAnalyzer) :
  extends t (assignMessagesForKeyword t) /\
  extends t (assignMessagesForSubKeywords t) /\
  extends t (assignMessagesForTitle t) /\
  extends t (assignMessagesForLinks t) /\
  extends t (assignMessagesForMetaDescription t) /\
  extends t (assignMessagesForKeywordInHeadings t) /\
  extends t (assignMessagesForSubKeywordsInHeadings t) /\
  extends t (assignMessagesForHeadings t) /\
  extends t (assignMessages t).
Proof.
  split; [apply Frame.assignMessagesForKeyword_extends|].
  split; [apply Frame.assignMessagesForSubKeywords_extends|].
  split; [apply Frame.assignMessagesForTitle_extends|].
  split; [apply Frame.assignMessagesForLinks_extends|].
  split; [apply Frame.assignMessagesForMetaDescription_extends|].
  split; [apply Frame.assignMessagesForKeywordInHeadings_extends|].
  split; [apply Frame.assignMessagesForSubKeywordsInHeadings_extends|].
  split; [apply Frame.assignMessagesForHeadings_extends|].
  apply Frame.assignMessages_extends.
Qed.

(* ================================================================== *)
(** ** Further properties: the heading rule *)

(** X20.  On an empty working list the heading rule pushes the one
    warning of the missing headings and nothing else.  Otherwise it
    pushes four messages: the good point with the number of headings;
    for the h1, the missing warning on none, the good point on exactly
    one, the warning of more than one on two or more; for the h2, the
    warning on none and the good point otherwise; for the h3, the minor
    warning on none and the good point otherwise.  Headings are counted
    by [filterHeading], which compares tags without regard to the case of
    letters. *)
Theorem heading_rule_classifies (this : SeoAnalyzer) :
  let after := assignMessagesForHeadings this in
  let count (headingTag : string) := List.length (filterHeading this headingTag) in
  (headings this = [] ->
   warnings (messages after) = (warnings (messages this) ++ [Msg.headingsMissing])%list /\
   minorWarnings (messages after) = minorWarnings (messages this) /\
   goodPoints (messages after) = goodPoints (messages this)) /\
  (headings this <> [] ->
   totalMessages after = (totalMessages this + 4)%nat /\
   In (Msg.headingsCount (List.length (headings this))) (goodPoints (messages after)) /\
   (count "h1" = 0%nat -> In Msg.h1Missing (warnings (messages after))) /\
   (count "h1" = 1%nat -> In Msg.h1Good (goodPoints (messages after))) /\
   ((2 <= count "h1")%nat -> In Msg.h1Many (warnings (messages after))) /\
   (count "h2" = 0%nat -> In Msg.h2Missing (warnings (messages after))) /\
   ((1 <= count "h2")%nat -> In Msg.h2Good (goodPoints (messages after))) /\
   (count "h3" = 0%nat -> In Msg.h3Missing (minorWarnings (messages after))) /\
   ((1 <= count "h3")%nat -> In Msg.h3Good (goodPoints (messages after)))).
Proof.
  cbv zeta. unfold assignMessagesForHeadings. cbv zeta. split.
  - intros ->. repeat split.
  - intros Hne.
    destruct (Nat.eqb_spec (List.length (headings this)) 0) as [E|_].
    { apply length_zero_iff_nil in E. now destruct Hne. }
    set (counted :=
           Push.goodPoint (Msg.headingsCount (List.length (headings this))) this).
    change (filterHeading counted "h1") with (filterHeading this "h1").
    destruct (Nat.eqb_spec (List.length (filterHeading this "h1")) 0) as [H1|H1];
      [|destruct (Nat.ltb_spec 1 (List.length (filterHeading this "h1"))) as [H1'|H1']];
      match goal with
      | |- context [filterHeading ?x "h2"] =>
          change (filterHeading x "h2") with (filterHeading this "h2")
      end;
      (destruct (Nat.eqb_spec (List.length (filterHeading this "h2")) 0) as [H2|H2]);
      match goal with
      | |- context [filterHeading ?x "h3"] =>
          change (filterHeading x "h3") with (filterHeading this "h3")
      end;
      (destruct (Nat.eqb_spec (List.length (filterHeading this "h3")) 0) as [H3|H3]);
      unfold counted;
      (split;
       [ repeat first [ rewrite FoldFacts.total_warning
                      | rewrite FoldFacts.total_minorWarning
                      | rewrite FoldFacts.total_goodPoint ]; lia
       | cbn [messages warnings goodPoints minorWarnings
              Push.warning Push.goodPoint Push.minorWarning Push.withMessages];
         rewrite ?in_app_iff; cbn [In];
         repeat split; intros; try lia; now intuition ]).
Qed.

(** The sample article: one h1, one h2, and an h3 written in capitals. *)
Lemma heading_rule_classifies_witness :
  In Msg.h1Good
     (goodPoints (messages (assignMessagesForHeadings (Cases.article "Hello world")))) /\
  In Msg.h3Good
     (goodPoints (messages (assignMessagesForHeadings (Cases.article "Hello world")))).
Proof.
  destruct (heading_rule_classifies (Cases.article "Hello world")) as [_ H].
  assert (Hne : headings (Cases.article "Hello world") <> []).
  { vm_compute. discriminate. }
  destruct (H Hne) as (_ & _ & _ & H1 & _ & _ & _ & _ & H3).
  split.
  - apply H1. reflexivity.
  - apply H3. vm_compute. apply Nat.leb_le. reflexivity.
Defined.

(* ================================================================== *)
(** ** Further properties: counting in the meta description *)

Module MetaShape.
Local Open Scope nat_scope.

(** The rule as its first two steps followed by the loop over the
    sub-keywords. *)
Lemma shape (this : SeoAnalyzer) :
  metaDescription (content this) <> "" ->
  exists positionRule : SeoAnalyzer,
    extends this positionRule /\
    (let n := String.length (metaDescription (content this)) in
     (100 <= n <= 160 -> totalMessages positionRule = totalMessages this + 3) /\
     (n < 100 \/ 160 < n -> totalMessages positionRule = totalMessages this + 2)) /\
    assignMessagesForMetaDescription this
    = fold_left subKeywordInMetaRule
        (getSubKeywordsInMetaDescription positionRule) positionRule.
Proof.
  intros Hm. unfold assignMessagesForMetaDescription. cbv zeta.
  rewrite (truthy_nonempty _ Hm). unfold MAXIMUM_META_DESCRIPTION_LENGTH.
  eexists. split; [|split]. 3: reflexivity.
  - Frame.peel.
  - cbv zeta.
    destruct (positionAfterFirst _);
      (destruct (Nat.ltb_spec 160 (String.length (metaDescription (content this))));
       [|destruct (Nat.ltb_spec (String.length (metaDescription (content this))) 100);
         [|destruct (JsNumber.gtb _ _); [|destruct (JsNumber.ltb _ _)]]]);
      (split; intros Hn; try lia);
      repeat first [ rewrite FoldFacts.total_warning
                   | rewrite FoldFacts.total_minorWarning
                   | rewrite FoldFacts.total_goodPoint ]; lia.
Qed.

Lemma round_total (t : SeoAnalyzer) (kd : KeywordDensity) :
  totalMessages (subKeywordInMetaRule t kd) = totalMessages t + 1.
Proof.
  unfold subKeywordInMetaRule. cbv zeta.
  destruct (JsNumber.gtb _ _); [|destruct (JsNumber.ltb _ _)];
    rewrite ?FoldFacts.total_warning, ?FoldFacts.total_minorWarning,
      ?FoldFacts.total_goodPoint; lia.
Qed.

(** The round of one sub-keyword in the meta description. *)
Lemma round_classifies (t : SeoAnalyzer) (kd : KeywordDensity) (q : Q) :
  density kd = Fin q ->
  let after := subKeywordInMetaRule t kd in
  let d := density kd in
  ((5 < q)%Q ->
   In (Msg.subKeywordInMetaHigh (kd_keyword kd) d) (warnings (messages after))) /\
  ((2 <= q)%Q /\ (q <= 5)%Q ->
   In (Msg.subKeywordInMetaGood (kd_keyword kd) d) (goodPoints (messages after))) /\
  ((2 # 10 <= q)%Q /\ (q < 2)%Q ->
   In (Msg.subKeywordInMetaLow (kd_keyword kd) "thấp" d)
      (minorWarnings (messages after))) /\
  ((q < 2 # 10)%Q ->
   In (Msg.subKeywordInMetaLow (kd_keyword kd) "quá thấp" d)
      (minorWarnings (messages after))).
Proof.
  intros Hd. cbv zeta. unfold subKeywordInMetaRule. cbv zeta.
  unfold JsNumber.gtb, MAXIMUM_SUB_KEYWORD_IN_META_DESCRIPTION_DENSITY,
    MINIMUM_SUB_KEYWORD_IN_META_DESCRIPTION_DENSITY.
  rewrite Hd.
  destruct (JsNumber.ltb (Fin 5) (Fin q)) eqn:Hhi;
    [apply DensityFacts.ltb_Fin in Hhi | apply DensityFacts.ltb_Fin_false in Hhi];
    (destruct (JsNumber.ltb (Fin q) (Fin 2)) eqn:Hlo;
     [apply DensityFacts.ltb_Fin in Hlo | apply DensityFacts.ltb_Fin_false in Hlo]);
    (destruct (JsNumber.ltb (Fin q) (Fin (2 # 10))) eqn:Hex;
     [apply DensityFacts.ltb_Fin in Hex | apply DensityFacts.ltb_Fin_false in Hex]);
    (split; [|split; [|split]]); intros Hq; try (exfalso; lra);
    simpl; apply in_or_app; right; left; reflexivity.
Qed.

End MetaShape.

(** X21.  With a meta description and [k] sub-keywords the rule pushes
    [3 + k] messages when the length is from 100 to 160 and [2 + k]
    messages otherwise: the density of the keyword in the meta description
    is judged only when the length is good, the start of the text and
    each sub-keyword always. *)
Theorem meta_rule_counts (this : SeoAnalyzer) :
  let n := String.length (metaDescription (content this)) in
  let k := List.length (subKeywords (content this)) in
  let after := assignMessagesForMetaDescription this in
  metaDescription (content this) <> "" ->
  ((100 <= n <= 160)%nat -> totalMessages after = (totalMessages this + 3 + k)%nat) /\
  ((n < 100)%nat \/ (160 < n)%nat ->
   totalMessages after = (totalMessages this + 2 + k)%nat).
Proof.
  cbv zeta. intros Hm.
  destruct (MetaShape.shape this Hm) as (pr & [(Hc & _) _] & [Hgood Hbad] & ->).
  rewrite (FoldFacts.loop_total _ pr Frame.subKeywordInMetaRule_extends 1%nat);
    [| intros t x _; apply MetaShape.round_total | apply Frame.sameObject_refl].
  unfold getSubKeywordsInMetaDescription. rewrite length_map, <- Hc.
  split; intros Hn; [rewrite (Hgood Hn) | rewrite (Hbad Hn)]; lia.
Qed.

(** A meta description of 120 letters and one of 50. *)
Lemma meta_rule_counts_witness :
  totalMessages (assignMessagesForMetaDescription (Cases.describedIn 120)) = 3%nat /\
  totalMessages (assignMessagesForMetaDescription (Cases.describedIn 50)) = 2%nat.
Proof.
  split.
  - destruct (meta_rule_counts (Cases.describedIn 120)) as [H _].
    + vm_compute. discriminate.
    + apply H. vm_compute. split; apply Nat.leb_le; reflexivity.
  - destruct (meta_rule_counts (Cases.describedIn 50)) as [_ H].
    + vm_compute. discriminate.
    + apply H. left. vm_compute. apply Nat.leb_le. reflexivity.
Defined.

(** X22.  For each sub-keyword whose density [q] in the meta description
    is finite, the rule of the meta description pushes a warning above 5,
    a good point from 2 to 5 (both included), and below 2 a minor warning
    that says "thấp" from 0.2 on and "quá thấp" below 0.2. *)
Theorem sub_keyword_in_meta_classifies (this : SeoAnalyzer)
    (subKeyword : string) (q : Q) :
  let meta := metaDescription (content this) in
  let d := calculateDensity this (Some subKeyword) (Some meta) in
  let after := assignMessagesForMetaDescription this in
  meta <> "" ->
  In subKeyword (subKeywords (content this)) ->
  d = Fin q ->
  ((5 < q)%Q ->
   In (Msg.subKeywordInMetaHigh (Some subKeyword) d) (warnings (messages after))) /\
  ((2 <= q)%Q /\ (q <= 5)%Q ->
   In (Msg.subKeywordInMetaGood (Some subKeyword) d) (goodPoints (messages after))) /\
  ((2 # 10 <= q)%Q /\ (q < 2)%Q ->
   In (Msg.subKeywordInMetaLow (Some subKeyword) "thấp" d)
      (minorWarnings (messages after))) /\
  ((q < 2 # 10)%Q ->
   In (Msg.subKeywordInMetaLow (Some subKeyword) "quá thấp" d)
      (minorWarnings (messages after))).
Proof.
  cbv zeta. intros Hm Hin Hq.
  destruct (MetaShape.shape this Hm) as (pr & [(Hc & Hh & _) _] & _ & ->).
  pose (kd := getKeywordInMetaDescription pr (Some subKeyword)).
  assert (Hkd : In kd (getSubKeywordsInMetaDescription pr)).
  { unfold getSubKeywordsInMetaDescription. rewrite <- Hc.
    apply (in_map (fun sub_keyword => getKeywordInMetaDescription pr (Some sub_keyword))
             _ _ Hin). }
  assert (Hd : density kd
               = calculateDensity this (Some subKeyword)
                   (Some (metaDescription (content this)))).
  { unfold kd, getKeywordInMetaDescription. cbn [density]. rewrite <- Hc.
    apply ObjectFacts.calculateDensity_ext; congruence. }
  assert (Hk : kd_keyword kd = Some subKeyword) by reflexivity.
  rewrite <- Hd in Hq |- *. rewrite <- Hk.
  apply (FoldFacts.loop_each _ pr Frame.subKeywordInMetaRule_extends
           (fun kd t =>
              forall q, density kd = Fin q ->
                ((5 < q)%Q ->
                 In (Msg.subKeywordInMetaHigh (kd_keyword kd) (density kd))
                    (warnings (messages t))) /\
                ((2 <= q)%Q /\ (q <= 5)%Q ->
                 In (Msg.subKeywordInMetaGood (kd_keyword kd) (density kd))
                    (goodPoints (messages t))) /\
                ((2 # 10 <= q)%Q /\ (q < 2)%Q ->
                 In (Msg.subKeywordInMetaLow (kd_keyword kd) "thấp" (density kd))
                    (minorWarnings (messages t))) /\
                ((q < 2 # 10)%Q ->
                 In (Msg.subKeywordInMetaLow (kd_keyword kd) "quá thấp" (density kd))
                    (minorWarnings (messages t))))
        ) with (x := kd) (q := q);
    [| |apply Frame.sameObject_refl|exact Hkd|exact Hq].
  - intros x a b Hab H q0 Hq0. destruct (H q0 Hq0) as (H1 & H2 & H3 & H4).
    split; [|split; [|split]]; intros Hr.
    + eapply DensityFacts.extends_warnings; [exact Hab | exact (H1 Hr)].
    + eapply DensityFacts.extends_goodPoints; [exact Hab | exact (H2 Hr)].
    + eapply DensityFacts.extends_minorWarnings; [exact Hab | exact (H3 Hr)].
    + eapply DensityFacts.extends_minorWarnings; [exact Hab | exact (H4 Hr)].
  - intros t x _ q0 Hq0. exact (MetaShape.round_classifies t x q0 Hq0).
Qed.

(** Two occurrences in four words: a density of 50. *)
Lemma sub_keyword_in_meta_classifies_witness :
  In (Msg.subKeywordInMetaHigh (Some "tips")
        (calculateDensity Cases.repeating (Some "tips") (Some "tips and more tips")))
     (warnings (messages (assignMessagesForMetaDescription Cases.repeating))).
Proof.
  assert (Hm : metaDescription (content Cases.repeating) <> "").
  { vm_compute. discriminate. }
  assert (Hin : In "tips" (subKeywords (content Cases.repeating))).
  { left. reflexivity. }
  assert (Hq : calculateDensity Cases.repeating (Some "tips")
                 (Some (metaDescription (content Cases.repeating)))
               = Fin (200 # 4)).
  { vm_compute. reflexivity. }
  destruct (sub_keyword_in_meta_classifies Cases.repeating "tips" (200 # 4) Hm Hin Hq)
    as (Hhigh & _).
  apply Hhigh. vm_compute. reflexivity.
Defined.

(* ================================================================== *)
(** ** Further properties: the keyword rule *)

(** X4.  With a keyword that is not empty, the keyword rule pushes no
    minor warning and always begins with the good point that quotes the
    keyword.  A density above 5 gets the two warnings, stuffing and too
    high, in this order, and no further good point; otherwise stuffing
    is not reported and the rule pushes two messages in all.  A density
    of zero gets the one warning that the density is too low, which
    quotes it as 0.00. *)
Theorem keyword_rule_verdict (this : SeoAnalyzer) (kw : string) :
  keyword (content this) = Some kw ->
  kw <> "" ->
  let after := assignMessagesForKeyword this in
  let d := keywordDensity this in
  minorWarnings (messages after) = minorWarnings (messages this) /\
  (exists rest : list string,
      goodPoints (messages after)
      = (goodPoints (messages this) ++ Msg.keywordPresent (Some kw) :: rest)%list) /\
  (JsNumber.gtb d (JsNumber.ofZ 5) = true ->
   warnings (messages after)
   = (warnings (messages this) ++ [Msg.keywordStuffing; Msg.keywordDensityHigh d])%list /\
   goodPoints (messages after)
   = (goodPoints (messages this) ++ [Msg.keywordPresent (Some kw)])%list) /\
  (JsNumber.gtb d (JsNumber.ofZ 5) = false ->
   totalMessages after = (totalMessages this + 2)%nat /\
   (warnings (messages after) = warnings (messages this) \/
    exists msg : string,
      msg <> Msg.keywordStuffing /\
      warnings (messages after) = (warnings (messages this) ++ [msg])%list)) /\
  (forall q : Q,
      d = Fin q -> (q == 0)%Q ->
      warnings (messages after)
      = (warnings (messages this)
           ++ ["Mật độ từ khóa quá thấp. Hiện tại là 0.00%, hãy tăng thêm."])%list /\
      goodPoints (messages after)
      = (goodPoints (messages this) ++ [Msg.keywordPresent (Some kw)])%list).
Proof.
  intros Hk Hne. cbv zeta. unfold assignMessagesForKeyword. rewrite Hk.
  cbn [truthyNullable]. rewrite (truthy_nonempty _ Hne). cbv zeta.
  cbn [keywordDensity Push.goodPoint Push.warning Push.withMessages].
  unfold JsNumber.gtb, JsNumber.ofZ, MINIMUM_KEYWORD_DENSITY, MAXIMUM_KEYWORD_DENSITY.
  destruct (keywordDensity this) as [| | |q] eqn:Hd.
  - cbn [JsNumber.ltb]. cbv iota.
    cbn [keywordDensity Push.goodPoint Push.warning Push.withMessages]. rewrite Hd.
    cbn [JsNumber.ltb]. cbv iota.
    cbn [messages warnings goodPoints minorWarnings Push.goodPoint Push.warning
         Push.withMessages].
    split; [reflexivity|]. split; [eexists; now rewrite <- app_assoc|].
    split; [intros H; discriminate H|]. split; [|intros q H; discriminate H].
    intros _. split; [|left; reflexivity].
    rewrite !FoldFacts.total_goodPoint. lia.
  - cbn [JsNumber.ltb]. cbv iota.
    cbn [keywordDensity Push.goodPoint Push.warning Push.withMessages]. rewrite Hd.
    cbn [JsNumber.ltb]. cbv iota.
    cbn [messages warnings goodPoints minorWarnings Push.goodPoint Push.warning
         Push.withMessages].
    split; [reflexivity|]. split; [eexists; reflexivity|].
    split; [|split; [intros H; discriminate H|intros q H; discriminate H]].
    intros _. split; [now rewrite <- app_assoc|reflexivity].
  - cbn [JsNumber.ltb]. cbv iota.
    cbn [keywordDensity Push.goodPoint Push.warning Push.withMessages]. rewrite Hd.
    cbn [JsNumber.ltb]. cbv iota.
    cbn [messages warnings goodPoints minorWarnings Push.goodPoint Push.warning
         Push.withMessages].
    split; [reflexivity|]. split; [eexists; reflexivity|].
    split; [intros H; discriminate H|]. split; [|intros q H; discriminate H].
    intros _. split.
    + rewrite FoldFacts.total_warning, FoldFacts.total_goodPoint. lia.
    + right. eexists. split; [|reflexivity]. discriminate.
  - destruct (JsNumber.ltb (Fin (inject_Z 5)) (Fin q)) eqn:H5.
    + apply DensityFacts.ltb_Fin in H5.
      cbn [keywordDensity Push.goodPoint Push.warning Push.withMessages]. rewrite Hd.
      assert (Hlo : JsNumber.ltb (Fin q) (Fin (46 # 100)) = false).
      { apply DensityFacts.ltb_Fin_false. change (inject_Z 5) with (5 # 1) in H5. lra. }
      assert (Hhi : JsNumber.ltb (Fin (11 # 10)) (Fin q) = true).
      { apply DensityFacts.ltb_Fin. change (inject_Z 5) with (5 # 1) in H5. lra. }
      rewrite Hlo, Hhi.
      cbn [messages warnings goodPoints minorWarnings Push.goodPoint Push.warning
           Push.withMessages].
      split; [reflexivity|]. split; [eexists; reflexivity|].
      split; [intros _; split; [now rewrite <- app_assoc|reflexivity]|].
      split; [intros H; discriminate H|].
      intros q0 Hq0 Hz. injection Hq0 as <-.
      change (inject_Z 5) with (5 # 1) in H5. lra.
    + apply DensityFacts.ltb_Fin_false in H5.
      cbn [keywordDensity Push.goodPoint Push.warning Push.withMessages]. rewrite Hd.
      split; [|split; [|split; [intros H; discriminate H|split]]].
      * destruct (JsNumber.ltb (Fin q) _); [|destruct (JsNumber.ltb _ (Fin q))];
          reflexivity.
      * destruct (JsNumber.ltb (Fin q) _); [|destruct (JsNumber.ltb _ (Fin q))];
          cbn [messages warnings goodPoints minorWarnings Push.goodPoint Push.warning
               Push.withMessages];
          eexists; first [reflexivity | now rewrite <- app_assoc].
      * intros _. split.
        -- destruct (JsNumber.ltb (Fin q) _); [|destruct (JsNumber.ltb _ (Fin q))];
             rewrite ?FoldFacts.total_warning, ?FoldFacts.total_goodPoint; lia.
        -- destruct (JsNumber.ltb (Fin q) _); [|destruct (JsNumber.ltb _ (Fin q))];
             cbn [messages warnings goodPoints minorWarnings Push.goodPoint Push.warning
                  Push.withMessages];
             first [ left; reflexivity
                   | right; eexists; split; [|reflexivity]; discriminate ].
      * intros q0 Hq0 Hz. injection Hq0 as <-.
        assert (Hlo : JsNumber.ltb (Fin q) (Fin (46 # 100)) = true).
        { apply DensityFacts.ltb_Fin. lra. }
        rewrite Hlo.
        cbn [messages warnings goodPoints minorWarnings Push.goodPoint Push.warning
             Push.withMessages].
        unfold Msg.keywordDensityLow, Msg.fixed. rewrite (toFixed2_zero q Hz).
        split; reflexivity.
Qed.

(** The sample article holds its keyword twice in thirteen words, a
    density above 5. *)
Lemma keyword_rule_verdict_witness :
  warnings (messages (assignMessagesForKeyword (Cases.article "Hello world")))
  = [ Msg.keywordStuffing;
      Msg.keywordDensityHigh (keywordDensity (Cases.article "Hello world")) ].
Proof.
  assert (Hk : keyword (content (Cases.article "Hello world")) = Some "seo")
    by reflexivity.
  assert (Hgt : JsNumber.gtb (keywordDensity (Cases.article "Hello world"))
                  (JsNumber.ofZ 5) = true).
  { vm_compute. reflexivity. }
  destruct (keyword_rule_verdict (Cases.article "Hello world") "seo" Hk
              ltac:(discriminate)) as (_ & _ & H & _).
  destruct (H Hgt) as [Hw _]. exact Hw.
Defined.

(* ================================================================== *)
(** ** Division by zero, by occurrence *)

(** C2, amended.  With a keyword that is not empty, a density over a text
    in which the analyzer counts no word is the quotient of the number
    of occurrences by zero, times 100: [NaN] if the keyword does not
    occur in the text, [Infinity] if it occurs.  An object whose warning
    and good-point lists are both empty has [NaN] for its overall score. *)
Theorem division_by_zero_results (this : SeoAnalyzer) (kw body : string) :
  (kw <> "" ->
   getWordCount (htmlAnalyzer this) (Some body) = 0%nat ->
   (~ occursIn kw body -> calculateDensity this (Some kw) (Some body) = NaN) /\
   (occursIn kw body -> calculateDensity this (Some kw) (Some body) = PosInf)) /\
  (warnings (messages this) = [] ->
   goodPoints (messages this) = [] ->
   getSeoScore this = NaN).
Proof.
  split.
  - intros Hne Hw. exact (KeywordFacts.density_without_words this kw body Hne Hw).
  - intros Hw Hg. unfold getSeoScore, MAX_SCORE, getKeywordSeoScore.
    cbv zeta. rewrite Hw, Hg. reflexivity.
Qed.

(** Over texts in which the sample analyzer counts no word: a keyword
    that is absent from the empty text, a blank that occurs in a text of
    blanks, and an object without messages. *)
Lemma division_by_zero_results_witness :
  calculateDensity (Cases.onBody (Some "seo") "") (Some "seo") (Some "") = NaN /\
  calculateDensity (Cases.onBody (Some " ") "   ") (Some " ") (Some "   ") = PosInf /\
  getSeoScore (Cases.onBody (Some "seo") "") = NaN.
Proof.
  assert (Hw1 : getWordCount (htmlAnalyzer (Cases.onBody (Some "seo") "")) (Some "")
                = 0%nat) by (vm_compute; reflexivity).
  assert (Hw2 : getWordCount (htmlAnalyzer (Cases.onBody (Some " ") "   ")) (Some "   ")
                = 0%nat) by (vm_compute; reflexivity).
  destruct (division_by_zero_results (Cases.onBody (Some "seo") "") "seo" "")
    as [Hd Hs].
  destruct (Hd ltac:(discriminate) Hw1) as [Hnan _].
  destruct (division_by_zero_results (Cases.onBody (Some " ") "   ") " " "   ")
    as [Hd' _].
  destruct (Hd' ltac:(discriminate) Hw2) as [_ Hinf].
  split; [|split].
  - apply Hnan. intros (a & b & H). destruct a as [|c a]; discriminate H.
  - apply Hinf. exists "", "  ". reflexivity.
  - apply Hs; reflexivity.
Defined.
